(** * FundInsight AI: the relative scoring engine, the Morningstar client
      and the ranking step, embedded in Rocq

    The development follows these source files:
    - [src/models/fund.py]: [FundData], [score_fund] with its six
      cohort-relative factor functions, and the absolute factor functions;
    - [src/scrapers/morningstar_client.py]: [_fetch_api],
      [_extract_fees_data], [get_fund_data] and [batch_get_fund_data];
    - [src/main.py]: the scoring loop and the sort of [analyze_sector], the
      rows of [export_tool_scores_to_markdown];
    - [src/config.py] and [src/ai/scorer.py]: the provider selection;
    - [src/scrapers/csindex.py]: the loop that takes the codes from the
      downloaded sheet.

    Modelling conventions.
    - A Python [float] is an exact rational ([Q]): rounding error, NaN and
      infinities are out of the model.  Comparisons are the boolean ones of
      [Q]; results are compared with [==] where a quotient is involved.
    - [x ** (1/5)] has no rational value in general: the fifth root of a
      non-negative float is a parameter [root5] of the scoring section.  A
      negative base makes Python return a [complex], which the model keeps
      ([PyComplex]) because ordering a complex raises [TypeError].
    - [datetime.strptime(s, "%Y-%m-%d")] is a parameter [strptime]: it gives
      the day number of the parsed date, or fails ([ValueError]).
    - [datetime.now()] is a clock that is read again at each call: [clock k]
      is the value of the k-th reading, in seconds, and the number of
      readings made so far is the state threaded through the scoring code.
    - Exceptions are values of [result]; stateful code lives in the monad [M].
    - Provider payloads are typed records holding the keys the client reads;
      asyncio concurrency and the sleeps of the transport are not modelled
      ([asyncio.gather] returns its results in argument order). *)

From Stdlib Require Import Ascii QArith Qabs Qminmax Qround Lqa.
From stdpp Require Import base option list gmap strings sorting.

Local Open Scope Q_scope.

(** ** Python values and exceptions *)

Inductive exn : Type :=
| TypeError
| ValueError.

Inductive result (A : Type) : Type :=
| Ok (a : A)
| Raise (e : exn).
Arguments Ok {A} a.
Arguments Raise {A} e.

(** The outcome of a numeric expression that may have left the floats. *)
Inductive pynum : Type :=
| PyFloat (x : Q)
| PyComplex.

(** [a <= b] on numbers: ordering is undefined on complex values. *)
Definition py_le (a b : pynum) : result bool :=
  match a, b with
  | PyFloat x, PyFloat y => Ok (Qle_bool x y)
  | _, _ => Raise TypeError
  end.

(** [x < y] on floats. *)
Definition Qlt_bool (x y : Q) : bool := negb (Qle_bool y x).

(** [sum(1 for x in l if p x)] *)
Fixpoint count_if {A : Type} (p : A -> bool) (l : list A) : nat :=
  match l with
  | [] => 0%nat
  | x :: l' => ((if p x then 1 else 0) + count_if p l')%nat
  end.

(** The same generator when the test itself may raise: the first failing
    comparison ends the sum. *)
Fixpoint count_if_r {A : Type} (p : A -> result bool) (l : list A) : result nat :=
  match l with
  | [] => Ok 0%nat
  | x :: l' =>
      match p x with
      | Raise e => Raise e
      | Ok b =>
          match count_if_r p l' with
          | Raise e => Raise e
          | Ok n => Ok ((if b then 1 else 0) + n)%nat
          end
      end
  end.

(** [n / len(values)] with an integer numerator and denominator. *)
Definition ratio (n : nat) (len : nat) : Q :=
  inject_Z (Z.of_nat n) / inject_Z (Z.of_nat len).

(** [sum(1 for v in values if keep v) / len(values)] *)
Definition percentile_of (keep : Q -> bool) (values : list Q) : Q :=
  ratio (count_if keep values) (length values).

(** [round(x)] on the exact value: the nearest integer, a tie going to the
    even one. *)
Definition round_half_even (x : Q) : Z :=
  let f := Qfloor x in
  match Qcompare (x - inject_Z f) (1 # 2) with
  | Lt => f
  | Gt => (f + 1)%Z
  | Eq => if Z.even f then f else (f + 1)%Z
  end.

(** [round(x, 2)] *)
Definition round2 (x : Q) : Q :=
  inject_Z (round_half_even (x * 100)) / 100.

(** Truth value of a string: only the empty one is false. *)
Definition str_truthy (s : string) : bool :=
  match s with
  | EmptyString => false
  | String _ _ => true
  end.

(** ** [models/fund.py] *)

Module Fund.

Record FundData : Type := mkFundData {
  code : string;
  name : string;
  management_fee : Q;
  custody_fee : Q;
  subscription_fee : option Q;
  redemption_fee : option Q;
  sales_service_fee : option Q;
  transaction_cost : option Q;
  other_fees : option Q;
  total_annual_fee : option Q;
  scale : Q;
  yearly_return : option Q;
  return_3year : option Q;
  return_5year : option Q;
  establish_date : option string;
  benchmark : option string;
  beats_benchmark : option bool;
  beats_benchmark_amount : option Q;
  fund_type : option string
}.

(** [[g(f) for f in all_funds if g(f) is not None]] *)
Fixpoint present {A : Type} (g : FundData -> option A) (all_funds : list FundData) : list A :=
  match all_funds with
  | [] => []
  | f :: rest =>
      match g f with
      | Some v => v :: present g rest
      | None => present g rest
      end
  end.

(** [not l] for a list. *)
Definition is_nil {A : Type} (l : list A) : bool :=
  match l with
  | [] => true
  | _ :: _ => false
  end.

(** The points of [_score_fees_relative] for a percentile: its final
    [if] chain. *)
Definition fee_band (percentile : Q) : Q :=
  if Qle_bool 0.9 percentile then 13 + (percentile - 0.9) / 0.1 * 2
  else if Qle_bool 0.7 percentile then 11 + (percentile - 0.7) / 0.2 * 1
  else if Qle_bool 0.3 percentile then 9 + (percentile - 0.3) / 0.4 * 1
  else if Qle_bool 0.1 percentile then 6 + (percentile - 0.1) / 0.2 * 2
  else Qmax 0 (5 * percentile / 0.1).

(** The points of [_score_scale_relative] for a percentile: its final
    [if] chain. *)
Definition scale_band (percentile : Q) : Q :=
  if Qle_bool 0.7 percentile then 12 + (percentile - 0.7) / 0.3 * 3
  else if Qle_bool 0.3 percentile then 9 + (percentile - 0.3) / 0.4 * 2
  else (percentile / 0.3) * 8.

(** The points of [_score_short_term_performance_relative] for a percentile: its final
    [if] chain. *)
Definition short_term_band (percentile : Q) : Q :=
  if Qle_bool 0.9 percentile then 18 + (percentile - 0.9) / 0.1 * 2
  else if Qle_bool 0.7 percentile then 15 + (percentile - 0.7) / 0.2 * 2
  else if Qle_bool 0.3 percentile then 12 + (percentile - 0.3) / 0.4 * 2
  else if Qle_bool 0.1 percentile then 8 + (percentile - 0.1) / 0.2 * 3
  else Qmax 0 (7 * percentile / 0.1).

(** The points of [_score_beats_benchmark_relative] for a percentile: its final
    [if] chain. *)
Definition benchmark_band (percentile : Q) : Q :=
  if Qle_bool 0.9 percentile then 9 + (percentile - 0.9) / 0.1 * 1
  else if Qle_bool 0.7 percentile then 7 + (percentile - 0.7) / 0.2 * 1
  else if Qle_bool 0.3 percentile then 5 + (percentile - 0.3) / 0.4 * 1
  else if Qle_bool 0.1 percentile then 2 + (percentile - 0.1) / 0.2 * 2
  else Qmax 0 (percentile / 0.1).

(** The points of [_score_long_term_performance_relative] for a percentile: its final
    [if] chain. *)
Definition long_term_band (percentile : Q) : Q :=
  if Qle_bool 0.9 percentile then 22 + (percentile - 0.9) / 0.1 * 3
  else if Qle_bool 0.7 percentile then 18 + (percentile - 0.7) / 0.2 * 3
  else if Qle_bool 0.3 percentile then 14 + (percentile - 0.3) / 0.4 * 3
  else if Qle_bool 0.1 percentile then 10 + (percentile - 0.1) / 0.2 * 3
  else Qmax 0 (9 * percentile / 0.1).

(** The points of [_score_stability_relative] for a percentile: its final
    [if] chain. *)
Definition stability_band (percentile : Q) : Q :=
  if Qle_bool 0.9 percentile then 12 + (percentile - 0.9) / 0.1 * 3
  else if Qle_bool 0.7 percentile then 10 + (percentile - 0.7) / 0.2 * 1
  else if Qle_bool 0.3 percentile then 8 + (percentile - 0.3) / 0.4 * 1
  else if Qle_bool 0.1 percentile then 5 + (percentile - 0.1) / 0.2 * 2
  else Qmax 0 (4 * percentile / 0.1).

Definition _score_fees_relative (fund : FundData) (all_funds : list FundData) : Q :=
  let fees := present total_annual_fee all_funds in
  match is_nil fees, total_annual_fee fund with
  | true, _ | false, None => 8
  | false, Some fund_fee =>
      let percentile := percentile_of (fun f => Qle_bool fund_fee f) fees in
      fee_band percentile
  end.

(** [abs(s - ideal_scale)] with [ideal_scale = 26.0]. *)
Definition ideal_scale : Q := 26.
Definition deviation (s : Q) : Q := Qabs (s - ideal_scale).

(** [scale] is a required float of [FundData], so the test
    [f.scale is not None] keeps every fund. *)
Definition _score_scale_relative (fund : FundData) (all_funds : list FundData) : Q :=
  let scales := map scale all_funds in
  if is_nil scales then 8 else
  let deviations := map deviation scales in
  let fund_deviation := deviation (scale fund) in
  let percentile := percentile_of (fun d => Qle_bool fund_deviation d) deviations in
  scale_band percentile.

Definition _score_short_term_performance_relative (fund : FundData) (all_funds : list FundData) : Q :=
  let returns := present yearly_return all_funds in
  match is_nil returns, yearly_return fund with
  | true, _ | false, None => 10
  | false, Some fund_return =>
      let percentile := percentile_of (fun r => Qle_bool r fund_return) returns in
      short_term_band percentile
  end.

Definition _score_beats_benchmark_relative (fund : FundData) (all_funds : list FundData) : Q :=
  let excess_returns := present beats_benchmark_amount all_funds in
  match is_nil excess_returns, beats_benchmark_amount fund with
  | true, _ | false, None => 5
  | false, Some fund_excess =>
      let percentile := percentile_of (fun r => Qle_bool r fund_excess) excess_returns in
      benchmark_band percentile
  end.

(** *** The absolute scoring functions

    The source keeps them next to the relative ones; [score_fund] does not
    call them. *)

Definition _score_fees (total_annual_fee : option Q) : Q :=
  match total_annual_fee with
  | None => 8
  | Some total_annual_fee =>
      let fee_pct := total_annual_fee * 100 in
      if Qlt_bool fee_pct 0.8 then 13 + (0.8 - fee_pct) / 0.8 * 2
      else if Qlt_bool fee_pct 1.2 then 11 + (1.2 - fee_pct) / 0.4 * 1
      else if Qlt_bool fee_pct 1.8 then 9 + (1.8 - fee_pct) / 0.6 * 1
      else if Qlt_bool fee_pct 2.5 then 6 + (2.5 - fee_pct) / 0.7 * 2
      else Qmax 0 (5 - (fee_pct - 2.5) / 0.5 * 5)
  end.

Definition _score_scale (scale : Q) : Q :=
  if Qle_bool 2 scale && Qle_bool scale 50 then
    if Qlt_bool scale 10 then 12 + (scale - 2) / 8 * 3
    else if Qlt_bool scale 30 then 15
    else 15 - (scale - 30) / 20 * 3
  else if Qlt_bool scale 2 then
    if Qlt_bool scale 1 then 7 * scale
    else 7 + (scale - 1) * 4
  else Qmax 8 (11 - (scale - 50) / 50 * 3).

Definition _score_short_term_performance (yearly_return : option Q) : Q :=
  match yearly_return with
  | None => 10
  | Some yearly_return =>
      if Qlt_bool 20 yearly_return then 18 + Qmin 2 ((yearly_return - 20) / 10 * 2)
      else if Qlt_bool 10 yearly_return then 15 + (yearly_return - 10) / 10 * 2
      else if Qlt_bool 0 yearly_return then 12 + yearly_return / 10 * 2
      else Qmax 0 (11 * (1 + yearly_return / 20))
  end.

(** The deprecated absolute benchmark score. *)
Definition _score_beats_benchmark (beats_benchmark : option bool) : Q :=
  match beats_benchmark with
  | Some true => 10
  | _ => 0
  end.

(** *** The functions that depend on the pow, the date parser or the clock *)

Section Scoring.

(** [x ** (1/5)] on a non-negative float. *)
Variable root5 : Q -> Q.
(** [datetime.strptime(s, "%Y-%m-%d")]: the day number of the parsed date
    (its time of day is midnight); [None] when the call raises. *)
Variable strptime : string -> option Z.
(** The successive values of [datetime.now()], in seconds. *)
Variable clock : nat -> Z.

(** Computations that read the clock and may raise: the state is the number
    of readings already made. *)
Definition M (A : Type) : Type := nat -> result A * nat.

#[export] Instance M_ret : MRet M := fun A a n => (Ok a, n).

#[export] Instance M_bind : MBind M := fun A B k m n =>
  match m n with
  | (Ok a, n') => k a n'
  | (Raise e, n') => (Raise e, n')
  end.

(** A pure computation that may raise. *)
Definition lift {A : Type} (r : result A) : M A := fun n => (r, n).

(** [datetime.now()] *)
Definition now : M Z := fun n => (Ok (clock n), S n).

(** [(1 + r / 100) ** (1/5) - 1], then [* 100]. *)
Definition annualized_pct (r : Q) : pynum :=
  let base := 1 + r / 100 in
  if Qle_bool 0 base then PyFloat ((root5 base - 1) * 100) else PyComplex.

Definition _score_long_term_performance_relative
    (fund : FundData) (all_funds : list FundData) : result Q :=
  let annualized_returns := map annualized_pct (present return_5year all_funds) in
  if is_nil annualized_returns then Ok 12 else
  match return_5year fund with
  | None => Ok 12
  | Some r5 =>
      let fund_return_pct := annualized_pct r5 in
      match count_if_r (fun r => py_le r fund_return_pct) annualized_returns with
      | Raise e => Raise e
      | Ok n =>
          let percentile := ratio n (length annualized_returns) in
          Ok (long_term_band percentile)
      end
  end.

(** [(now - date_obj).days]: whole days, rounded towards minus infinity,
    between midnight of day [date_obj] and the reading [t]. *)
Definition timedelta_days (t : Z) (date_obj : Z) : Z :=
  Z.div (t - 86400 * date_obj) 86400.

(** [(datetime.now() - date_obj).days / 365.25] *)
Definition age_years (date_obj : Z) : M Q :=
  t ← now;
  mret (inject_Z (timedelta_days t date_obj) / 365.25).

(** The first loop of [_score_stability_relative]: a date that does not
    parse is passed over by the bare [except], before the clock is read. *)
Fixpoint collect_ages (all_funds : list FundData) : M (list Q) :=
  match all_funds with
  | [] => mret []
  | f :: rest =>
      match establish_date f with
      | None => collect_ages rest
      | Some s =>
          if str_truthy s then
            match strptime s with
            | None => collect_ages rest
            | Some date_obj =>
                years ← age_years date_obj;
                ages ← collect_ages rest;
                mret (years :: ages)
            end
          else collect_ages rest
      end
  end.

Definition _score_stability_relative (fund : FundData) (all_funds : list FundData) : M Q :=
  ages ← collect_ages all_funds;
  if is_nil ages then mret 8 else
  match establish_date fund with
  | None => mret 8
  | Some s =>
      if str_truthy s then
        match strptime s with
        | None => mret 8
        | Some date_obj =>
            fund_age ← age_years date_obj;
            let percentile := percentile_of (fun a => Qle_bool a fund_age) ages in
            mret (stability_band percentile)
        end
      else mret 8
  end.

(** The percentile that [_score_long_term_performance_relative] hands to its
    band table; [None] when the function stops at a default before that. *)
Definition long_term_percentile (fund : FundData) (all_funds : list FundData)
    : result (option Q) :=
  let annualized_returns := map annualized_pct (present return_5year all_funds) in
  if is_nil annualized_returns then Ok None else
  match return_5year fund with
  | None => Ok None
  | Some r5 =>
      match count_if_r (fun r => py_le r (annualized_pct r5)) annualized_returns with
      | Raise e => Raise e
      | Ok n => Ok (Some (ratio n (length annualized_returns)))
      end
  end.

(** The same for [_score_stability_relative]. *)
Definition stability_percentile (fund : FundData) (all_funds : list FundData)
    : M (option Q) :=
  ages ← collect_ages all_funds;
  if is_nil ages then mret None else
  match establish_date fund with
  | None => mret None
  | Some s =>
      if str_truthy s then
        match strptime s with
        | None => mret None
        | Some date_obj =>
            fund_age ← age_years date_obj;
            mret (Some (percentile_of (fun a => Qle_bool a fund_age) ages))
        end
      else mret None
  end.

(** The days on which the funds of a cohort were established, for those whose
    date is a non-empty string that parses. *)
Fixpoint parsed_dates (all_funds : list FundData) : list Z :=
  match all_funds with
  | [] => []
  | f :: rest =>
      match establish_date f with
      | None => parsed_dates rest
      | Some s =>
          if str_truthy s then
            match strptime s with
            | None => parsed_dates rest
            | Some date_obj => date_obj :: parsed_dates rest
            end
          else parsed_dates rest
      end
  end.

(** The pool of ages that the first loop builds from these days when its
    first reading of the clock is the [n]-th one. *)
Fixpoint ages_from (n : nat) (dates : list Z) : list Q :=
  match dates with
  | [] => []
  | date_obj :: rest =>
      inject_Z (timedelta_days (clock n) date_obj) / 365.25 :: ages_from (S n) rest
  end.

(** The absolute variant, kept by the source next to the relative one. *)
Definition _score_stability (establish_date : option string) : M Q :=
  match establish_date with
  | None => mret 8
  | Some s =>
      if str_truthy s then
        match strptime s with
        | None => mret 8
        | Some date_obj =>
            years ← age_years date_obj;
            mret (if Qle_bool 3 years then 12 + Qmin 3 ((years - 3) / 2 * 3)
                 else if Qle_bool 1 years then 8 + (years - 1) / 2 * 3
                 else years * 7)
        end
      else mret 8
  end.

(** The keys of the score breakdown. *)
Definition k_fee : string := "费用合理性".
Definition k_scale : string := "规模适中性".
Definition k_short : string := "短期业绩(YTD)".
Definition k_long : string := "长期业绩(5年)".
Definition k_benchmark : string := "跑赢基准".
Definition k_stability : string := "稳定性".

Definition score_fund (fund : FundData) (all_funds : option (list FundData))
    : M (Q * gmap string Q) :=
  let scores : gmap string Q := ∅ in
  let total_score := 0 in
  let all_funds := match all_funds with None => [fund] | Some l => l end in
  let fee_score := _score_fees_relative fund all_funds in
  let scores := <[k_fee := fee_score]> scores in
  let total_score := total_score + fee_score in
  let scale_score := _score_scale_relative fund all_funds in
  let scores := <[k_scale := scale_score]> scores in
  let total_score := total_score + scale_score in
  let short_term_score := _score_short_term_performance_relative fund all_funds in
  let scores := <[k_short := short_term_score]> scores in
  let total_score := total_score + short_term_score in
  long_term_score ← lift (_score_long_term_performance_relative fund all_funds);
  let scores := <[k_long := long_term_score]> scores in
  let total_score := total_score + long_term_score in
  let benchmark_score := _score_beats_benchmark_relative fund all_funds in
  let scores := <[k_benchmark := benchmark_score]> scores in
  let total_score := total_score + benchmark_score in
  stability_score ← _score_stability_relative fund all_funds;
  let scores := <[k_stability := stability_score]> scores in
  let total_score := total_score + stability_score in
  mret (total_score, scores).

End Scoring.

Section AbsoluteLongTerm.

(** [x ** (1/3)] and [x ** (1/5)] on a non-negative float. *)
Variable root3 : Q -> Q.
Variable root5 : Q -> Q.

(** [((1 + r / 100) ** e - 1) * 100] for the root [e]. *)
Definition annualized_pct_by (root : Q -> Q) (r : Q) : pynum :=
  let base := 1 + r / 100 in
  if Qle_bool 0 base then PyFloat ((root base - 1) * 100) else PyComplex.

(** The points for an annualized percentage: the final [if] chain of
    [_score_long_term_performance], whose first comparison raises on a
    complex value. *)
Definition long_term_points (annualized_pct : pynum) : result Q :=
  match annualized_pct with
  | PyComplex => Raise TypeError
  | PyFloat annualized_pct =>
      Ok (if Qlt_bool 15 annualized_pct then 22 + Qmin 3 ((annualized_pct - 15) / 5 * 3)
          else if Qlt_bool 10 annualized_pct then 18 + (annualized_pct - 10) / 5 * 3
          else if Qlt_bool 5 annualized_pct then 14 + (annualized_pct - 5) / 5 * 3
          else if Qlt_bool 0 annualized_pct then 10 + annualized_pct / 5 * 3
          else Qmax 0 (9 * (1 + annualized_pct / 10)))
  end.

Definition _score_long_term_performance (return_3year return_5year : option Q)
    : result Q :=
  let long_term_return :=
    match return_5year with
    | Some r => Some r
    | None => return_3year
    end in
  match long_term_return with
  | None => Ok 12
  | Some _ =>
      match return_5year, return_3year with
      | Some r5, _ => long_term_points (annualized_pct_by root5 r5)
      | None, Some r3 => long_term_points (annualized_pct_by root3 r3)
      | None, None => Ok 12
      end
  end.

End AbsoluteLongTerm.

(** The total of a run of [score_fund] that returned. *)
Definition returned_total (r : result (Q * gmap string Q) * nat) : option Q :=
  match r with
  | (Ok (total_score, _), _) => Some total_score
  | (Raise _, _) => None
  end.

(** The fund with another three-year return, every other field unchanged. *)
Definition set_return_3year (v : option Q) (f : FundData) : FundData :=
  {| code := code f;
     name := name f;
     management_fee := management_fee f;
     custody_fee := custody_fee f;
     subscription_fee := subscription_fee f;
     redemption_fee := redemption_fee f;
     sales_service_fee := sales_service_fee f;
     transaction_cost := transaction_cost f;
     other_fees := other_fees f;
     total_annual_fee := total_annual_fee f;
     scale := scale f;
     yearly_return := yearly_return f;
     return_3year := v;
     return_5year := return_5year f;
     establish_date := establish_date f;
     benchmark := benchmark f;
     beats_benchmark := beats_benchmark f;
     beats_benchmark_amount := beats_benchmark_amount f;
     fund_type := fund_type f |}.

(** A five-year return of at least -100%: the base of the power is not
    negative and the annualized return is a float. *)
Definition pow_is_real (r : Q) : Prop := 0 <= 1 + r / 100.

End Fund.

(** ** [scrapers/morningstar_client.py] *)

Module Morningstar.
Import Fund.

(** What [d.get(key, default)] can find under a key: nothing, an explicit
    [null], or a value.  Keys read without a default, or through [or], only
    distinguish a value from its absence and are plain [option]s. *)
Inductive jfield (A : Type) : Type :=
| Absent
| Null
| Value (a : A).
Arguments Absent {A}.
Arguments Null {A}.
Arguments Value {A} a.

(** The [common-data] object.  An [option] field is [None] when the key is
    missing or bound to [null].  [cd_other_keys] tells whether the object has
    a key that the other fields do not show (a key not read here, or a key
    bound to [null]): an object without any key is false.  The same holds for
    [pd_other_keys] and [fees_other_keys] below. *)
Record common_data : Type := mkCommon {
  cd_name : option string;
  cd_fundName : option string;
  cd_inceptionDate : jfield string;
  cd_fundSize : option Q;
  cd_other_keys : bool
}.

(** [dayEnd.returns] and [dayEnd.benchmarkReturns] *)
Record returns_obj : Type := mkReturns {
  YTD : option Q;
  Y3 : option Q;
  Y5 : option Q
}.

Record day_end_obj : Type := mkDayEnd {
  returns_field : jfield returns_obj;
  benchmarkReturns_field : jfield returns_obj
}.

(** The [performance] object. *)
Record performance_data : Type := mkPerformance {
  benchmarkName : jfield string;
  dayEnd : jfield day_end_obj;
  pd_other_keys : bool
}.

(** The object under the key ["fees"] of the [fees] payload. *)
Record fees_obj : Type := mkFees {
  managementFee : option Q;
  custodianFee : option Q;
  distributionFee : option Q;
  tradeCost : option Q;
  otherCost : option Q;
  fees_other_keys : bool
}.

(** The [fees] payload: only its key ["fees"] is read. *)
Record fees_data : Type := mkFeesData {
  fees_field : option fees_obj
}.

(** What [self.client.get(url)] followed by [raise_for_status()] and
    [response.json()] comes to. *)
Inductive http_response (A : Type) : Type :=
| HttpOk (response_status : option string) (data : option A)
| HttpStatusError (status_code : nat)
| RequestFailed.
Arguments HttpOk {A} response_status data.
Arguments HttpStatusError {A} status_code.
Arguments RequestFailed {A}.

(** The provider: one response per fund code and endpoint. *)
Record provider : Type := mkProvider {
  common_data_ep : string -> http_response common_data;
  performance_ep : string -> http_response performance_data;
  fees_ep : string -> http_response fees_data
}.

(** [_fetch_api]: every failure is logged and turned into [None]; the 404,
    429 and other status codes only differ by their log line and a sleep. *)
Definition _fetch_api {A : Type} (response : http_response A) : option A :=
  match response with
  | HttpOk response_status data =>
      if bool_decide (response_status = Some "200011"%string) then data else None
  | HttpStatusError status_code =>
      if (status_code =? 404)%nat then None
      else if (status_code =? 429)%nat then None
      else None
  | RequestFailed => None
  end.

(** The dictionary returned by [_extract_fees_data]. *)
Record fees_info : Type := mkFeesInfo {
  fi_management_fee : Q;
  fi_custody_fee : Q;
  fi_subscription_fee : Q;
  fi_redemption_fee : Q;
  fi_sales_service_fee : Q;
  fi_transaction_cost : Q;
  fi_other_fees : Q;
  fi_total_annual_fee : Q
}.

Definition default_fees : fees_info :=
  {| fi_management_fee := 0.0015;
     fi_custody_fee := 0.0005;
     fi_subscription_fee := 0;
     fi_redemption_fee := 0;
     fi_sales_service_fee := 0;
     fi_transaction_cost := 0;
     fi_other_fees := 0;
     fi_total_annual_fee := 0.002 |}.

(** [v or d] on an optional number: [None] and zero are both false. *)
Definition or_default (v : option Q) (d : Q) : Q :=
  match v with
  | Some x => if Qeq_bool x 0 then d else x
  | None => d
  end.


(** Truth value of the object under ["fees"]. *)
Definition fees_obj_truthy (fees : fees_obj) : bool :=
  match managementFee fees, custodianFee fees, distributionFee fees,
        tradeCost fees, otherCost fees with
  | None, None, None, None, None => fees_other_keys fees
  | _, _, _, _, _ => true
  end.

Definition _extract_fees_data (fees_data : option fees_data) : fees_info :=
  match fees_data with
  | None => default_fees
  | Some fd =>
      match fees_field fd with
      | None => default_fees
      | Some fees =>
          if fees_obj_truthy fees then
            let management_fee := or_default (managementFee fees) 0.15 / 100 in
            let custody_fee := or_default (custodianFee fees) 0.05 / 100 in
            let sales_service_fee := or_default (distributionFee fees) 0 / 100 in
            let transaction_cost := or_default (tradeCost fees) 0 / 100 in
            let other_fees := or_default (otherCost fees) 0 / 100 in
            let subscription_fee := 0 in
            let redemption_fee := 0 in
            let total_annual_fee :=
              management_fee + custody_fee + sales_service_fee
              + transaction_cost + other_fees in
            {| fi_management_fee := management_fee;
               fi_custody_fee := custody_fee;
               fi_subscription_fee := subscription_fee;
               fi_redemption_fee := redemption_fee;
               fi_sales_service_fee := sales_service_fee;
               fi_transaction_cost := transaction_cost;
               fi_other_fees := other_fees;
               fi_total_annual_fee := total_annual_fee |}
          else default_fees
      end
  end.

(** Truth value of the two objects tested by [get_fund_data]. *)
Definition common_truthy (cd : common_data) : bool :=
  match cd_name cd, cd_fundName cd, cd_inceptionDate cd, cd_fundSize cd with
  | None, None, Absent, None => cd_other_keys cd
  | _, _, _, _ => true
  end.

Definition performance_truthy (pd : performance_data) : bool :=
  match benchmarkName pd, dayEnd pd with
  | Absent, Absent => pd_other_keys pd
  | _, _ => true
  end.

(** [a or b] on strings. *)
Definition or_str (a : option string) (b : string) : string :=
  match a with
  | Some s => if str_truthy s then s else b
  | None => b
  end.

(** [d.get(key, "")] *)
Definition get_str (f : jfield string) : option string :=
  match f with
  | Absent => Some ""%string
  | Null => None
  | Value s => Some s
  end.

(** [d.get(key, {})] followed by a [.get] on the outcome, which raises
    [AttributeError] on [None]; [None] stands for that exception. *)
Definition get_obj {A : Type} (empty : A) (f : jfield A) : option A :=
  match f with
  | Absent => Some empty
  | Null => None
  | Value o => Some o
  end.

Definition empty_returns : returns_obj := {| YTD := None; Y3 := None; Y5 := None |}.
Definition empty_day_end : day_end_obj :=
  {| returns_field := Absent; benchmarkReturns_field := Absent |}.

(** The five values the performance block of [get_fund_data] leaves behind. *)
Record performance_info : Type := mkPerfInfo {
  pi_yearly_return : option Q;
  pi_return_3year : option Q;
  pi_return_5year : option Q;
  pi_beats_benchmark : option bool;
  pi_beats_benchmark_amount : option Q
}.

Definition no_performance : performance_info :=
  {| pi_yearly_return := None; pi_return_3year := None; pi_return_5year := None;
     pi_beats_benchmark := None; pi_beats_benchmark_amount := None |}.

(** Lines 169-204 of [get_fund_data]; [None] is an exception raised inside
    the block, which the enclosing [try] turns into a failed fetch. *)
Definition extract_performance (performance_data : option performance_data)
    : option performance_info :=
  match performance_data with
  | None => Some no_performance
  | Some pd =>
      if performance_truthy pd then
        day_end ← get_obj empty_day_end (dayEnd pd);
        returns ← get_obj empty_returns (returns_field day_end);
        benchmark_returns ← get_obj empty_returns (benchmarkReturns_field day_end);
        let yearly_return := YTD returns in
        let return_3year := Y3 returns in
        let return_5year := Y5 returns in
        let benchmark_return := YTD benchmark_returns in
        let '(beats_benchmark, beats_benchmark_amount) :=
          match yearly_return, benchmark_return with
          | Some y, Some b => (Some (negb (Qle_bool y b)), Some (y - b))
          | _, _ => (None, None)
          end in
        Some {| pi_yearly_return := round2 <$> yearly_return;
                pi_return_3year := round2 <$> return_3year;
                pi_return_5year := round2 <$> return_5year;
                pi_beats_benchmark := beats_benchmark;
                pi_beats_benchmark_amount := round2 <$> beats_benchmark_amount |}
      else Some no_performance
  end.

(** The figure the provider reports under [dayEnd.<object>.<key>], when the
    performance object is there, for instance [dayEnd.returns.YTD]. *)
Definition reported (object : day_end_obj -> jfield returns_obj)
    (key : returns_obj -> option Q) (performance_data : option performance_data)
    : option Q :=
  match performance_data with
  | Some pd =>
      if performance_truthy pd then
        match dayEnd pd with
        | Value day_end =>
            match object day_end with
            | Value o => key o
            | _ => None
            end
        | _ => None
        end
      else None
  | None => None
  end.

(** A [null] where [get_fund_data] goes on to call [.get]: under [dayEnd],
    or under [returns] or [benchmarkReturns] of the [dayEnd] object. *)
Definition null_object (pd : performance_data) : bool :=
  match dayEnd pd with
  | Absent => false
  | Null => true
  | Value day_end =>
      match returns_field day_end, benchmarkReturns_field day_end with
      | Null, _ => true
      | _, Null => true
      | _, _ => false
      end
  end.

(** The prefixes of exchange-traded codes. *)
Definition exchange_traded (fund_code : string) : bool :=
  String.prefix "51" fund_code || String.prefix "588" fund_code
  || String.prefix "159" fund_code || String.prefix "16" fund_code
  || String.prefix "15" fund_code.

Section Client.

(** [self.fund_names] *)
Variable fund_names : gmap string string.
(** The remote provider. *)
Variable api : provider.

Definition get_fund_data (fund_code : string) : option FundData :=
  let common_data := _fetch_api (common_data_ep api fund_code) in
  let performance_data := _fetch_api (performance_ep api fund_code) in
  let fees_data := _fetch_api (fees_ep api fund_code) in
  match common_data with
  | None => None
  | Some cd =>
      if common_truthy cd then
        let name :=
          or_str (fund_names !! fund_code)
            (or_str (cd_name cd) (or_str (cd_fundName cd) ("基金" +:+ fund_code))) in
        let fund_type := if exchange_traded fund_code then "场内"%string else "场外"%string in
        let establish_date := get_str (cd_inceptionDate cd) in
        let scale :=
          match cd_fundSize cd with
          | Some fund_size_raw =>
              if Qeq_bool fund_size_raw 0 then 0 else round2 (fund_size_raw / 100000000)
          | None => 0
          end in
        let benchmark :=
          match performance_data with
          | Some pd => if performance_truthy pd then get_str (benchmarkName pd) else Some ""%string
          | None => Some ""%string
          end in
        let fees_info := _extract_fees_data fees_data in
        perf ← extract_performance performance_data;
        Some {| code := fund_code;
                name := name;
                management_fee := fi_management_fee fees_info;
                custody_fee := fi_custody_fee fees_info;
                subscription_fee := Some (fi_subscription_fee fees_info);
                redemption_fee := Some (fi_redemption_fee fees_info);
                sales_service_fee := Some (fi_sales_service_fee fees_info);
                transaction_cost := Some (fi_transaction_cost fees_info);
                other_fees := Some (fi_other_fees fees_info);
                total_annual_fee := Some (fi_total_annual_fee fees_info);
                scale := scale;
                yearly_return := pi_yearly_return perf;
                return_3year := pi_return_3year perf;
                return_5year := pi_return_5year perf;
                establish_date := establish_date;
                benchmark := benchmark;
                beats_benchmark := pi_beats_benchmark perf;
                beats_benchmark_amount := pi_beats_benchmark_amount perf;
                fund_type := Some fund_type |}
      else None
  end.

End Client.

(** One entry of [asyncio.gather(..., return_exceptions=True)]: the value a
    call returned, an exception it raised that is an instance of
    [Exception], or the [asyncio.CancelledError] of a call that was
    cancelled, which is a [BaseException] and not an [Exception]. *)
Inductive gathered : Type :=
| Returned (r : option FundData)
| Raised
| Cancelled.

(** An element of [funds]: the loop tests [isinstance(result, Exception)]
    and then [result is not None], so that beside the funds the
    [CancelledError] of a cancelled call is appended as well. *)
Inductive collected : Type :=
| Entity (fund : FundData)
| CancelledError.

Section Batch.

(** [self.max_concurrent]; a semaphore cannot be built on a negative value. *)
Variable max_concurrent : nat.
(** [self.get_fund_data(code)] as [gather] sees it. *)
Variable fetch : string -> gathered.

(** [range(0, stop, step)] for a positive [step]. *)
Definition range_step (stop step : nat) : list nat :=
  (fun k => (k * step)%nat) <$> seq 0 (Nat.div (stop + step - 1) step).

(** The loop over [enumerate(batch_results)]; the state is [(funds, failed)]. *)
Definition collect (batch : list string) (batch_results : list gathered)
    (st : list collected * list string) : list collected * list string :=
  foldl (fun '(funds, failed) '(j, result) =>
           match result with
           | Raised => (funds, failed ++ [default ""%string (batch !! j)])
           | Returned (Some fund) => (funds ++ [Entity fund], failed)
           | Cancelled => (funds ++ [CancelledError], failed)
           | Returned None => (funds, failed)
           end)
        st (imap (fun j result => (j, result)) batch_results).

(** What the fetches of a list of codes leave in [funds], and the codes
    whose fetch raised an [Exception], both in the order of the codes. *)
Fixpoint successes (codes : list string) : list collected :=
  match codes with
  | [] => []
  | c :: rest =>
      match fetch c with
      | Returned (Some fund) => Entity fund :: successes rest
      | Cancelled => CancelledError :: successes rest
      | _ => successes rest
      end
  end.

Fixpoint raised (codes : list string) : list string :=
  match codes with
  | [] => []
  | c :: rest =>
      match fetch c with
      | Raised => c :: raised rest
      | _ => raised rest
      end
  end.

(** A fetch that came back without an entity and without an exception: the
    branch of the loop that appends nothing. *)
Definition came_back_empty (c : string) : bool :=
  match fetch c with
  | Returned None => true
  | _ => false
  end.

(** A fetch that was cancelled, and a [CancelledError] among the funds. *)
Definition was_cancelled (c : string) : bool :=
  match fetch c with
  | Cancelled => true
  | _ => false
  end.

(** The final values of [funds] and [failed]; [range] refuses a zero step. *)
Definition batch_run (fund_codes : list string)
    : result (list collected * list string) :=
  let total := length fund_codes in
  let batch_size := max_concurrent in
  if (batch_size =? 0)%nat then Raise ValueError else
  Ok (foldl (fun st i =>
               let batch := take batch_size (drop i fund_codes) in
               let batch_results := fetch <$> batch in
               collect batch batch_results st)
            ([], []) (range_step total batch_size)).

(** [batch_get_fund_data] returns [funds] alone. *)
Definition batch_get_fund_data (fund_codes : list string) : result (list collected) :=
  match batch_run fund_codes with
  | Ok (funds, failed) => Ok funds
  | Raise e => Raise e
  end.

End Batch.

Definition is_cancelled_error (x : collected) : bool :=
  match x with
  | CancelledError => true
  | Entity _ => false
  end.

(** [get_fund_data] catches every [Exception], its own and those of
    [_fetch_api]: under [gather] it comes back with a value, unless the
    call is cancelled from outside. *)
Definition client_fetch (fund_names : gmap string string) (api : provider)
    (fund_code : string) : gathered :=
  Returned (get_fund_data fund_names api fund_code).

(** The number of entities of a collection that carry a given code. *)
Definition entities_for (fund_code : string) (funds : list FundData) : nat :=
  count_if (fun f => String.eqb (code f) fund_code) funds.

End Morningstar.

(** ** [main.py]: the scoring loop and the sort of [analyze_sector] *)

Module Main.
Import Fund.

(** One element of [scored_funds]. *)
Record scored : Type := mkScored {
  fund : FundData;
  score : Q;
  breakdown : gmap string Q
}.

(** [scored_funds.sort(key=lambda x: x["score"], reverse=True)].  Python's
    sort is stable, also when reversed: among equal keys the input order is
    kept, which determines the sorted list.  It is written here as a stable
    insertion sort, an element going in front of the first one whose key is
    not greater. *)
Fixpoint insert_desc (x : scored) (l : list scored) : list scored :=
  match l with
  | [] => [x]
  | y :: l' =>
      if Qle_bool (score y) (score x) then x :: y :: l'
      else y :: insert_desc x l'
  end.

Definition sort_by_score_desc (l : list scored) : list scored :=
  foldr insert_desc [] l.

(** The order of the sorted list: a score is followed by scores that are
    not greater. *)
Definition desc (x y : scored) : Prop := score y <= score x.

Section Ranking.

Variable root5 : Q -> Q.
Variable strptime : string -> option Z.
Variable clock : nat -> Z.

(** [for fund in funds: score, breakdown = score_fund(fund, all_funds=funds)] *)
Fixpoint score_loop (todo all_funds : list FundData) : M (list scored) :=
  match todo with
  | [] => mret []
  | f :: rest =>
      '(s, b) ← score_fund root5 strptime clock f (Some all_funds);
      scored_funds ← score_loop rest all_funds;
      mret ({| fund := f; score := s; breakdown := b |} :: scored_funds)
  end.

(** Lines 241-251 of [analyze_sector]: [scored_funds] once sorted. *)
Definition rank_funds (funds : list FundData) : M (list scored) :=
  scored_funds ← score_loop funds funds;
  mret (sort_by_score_desc scored_funds).

End Ranking.

(** [v or 0] on an optional float. *)
Definition or_zero (v : option Q) : Q :=
  match v with
  | Some x => if Qeq_bool x 0 then 0 else x
  | None => 0
  end.

(** [export_tool_scores_to_markdown]: the two fee values computed for a
    table row, before they are formatted, and the funds that get a row,
    [scored_funds[:20]]. *)
Definition explicit_fee (fund : FundData) : Q :=
  management_fee fund + custody_fee fund
  + or_zero (subscription_fee fund) + or_zero (sales_service_fee fund).

Definition implicit_fee (fund : FundData) : Q :=
  or_zero (transaction_cost fund) + or_zero (other_fees fund).

Definition table_rows (scored_funds : list scored) : list scored :=
  take 20 scored_funds.

(** The codes and the scores of a ranking, in order, when the run returned. *)
Definition ranking_of (r : result (list scored) * nat) : option (list (string * Q)) :=
  match r with
  | (Ok ranked, _) => Some (map (fun x => (code (fund x), Qred (score x))) ranked)
  | (Raise _, _) => None
  end.

End Main.

(** ** [config.py] and the provider selection of [ai/scorer.py] *)

Module Settings.

(** The class attributes of [Config] read by [validate] and by [AIScorer];
    a key that the environment does not define is [None]. *)
Record Config : Type := mkConfig {
  AI_PROVIDER : string;
  ZHIPU_API_KEY : option string;
  DEEPSEEK_API_KEY : option string;
  OPENAI_API_KEY : option string;
  ZHIPU_MODEL : string;
  DEEPSEEK_MODEL : string;
  OPENAI_MODEL : string
}.

(** Truth value of an optional string. *)
Definition key_truthy (k : option string) : bool :=
  match k with
  | Some s => str_truthy s
  | None => false
  end.

Definition validate (cls : Config) : result unit :=
  if String.eqb (AI_PROVIDER cls) "zhipu" && negb (key_truthy (ZHIPU_API_KEY cls))
  then Raise ValueError
  else if String.eqb (AI_PROVIDER cls) "deepseek" && negb (key_truthy (DEEPSEEK_API_KEY cls))
  then Raise ValueError
  else if String.eqb (AI_PROVIDER cls) "openai" && negb (key_truthy (OPENAI_API_KEY cls))
  then Raise ValueError
  else Ok tt.

(** [AIScorer._get_api_key] and [AIScorer._get_model], on
    [self.provider = Config.AI_PROVIDER]. *)
Definition _get_api_key (cls : Config) : result (option string) :=
  if String.eqb (AI_PROVIDER cls) "zhipu" then Ok (ZHIPU_API_KEY cls)
  else if String.eqb (AI_PROVIDER cls) "deepseek" then Ok (DEEPSEEK_API_KEY cls)
  else if String.eqb (AI_PROVIDER cls) "openai" then Ok (OPENAI_API_KEY cls)
  else Raise ValueError.

Definition _get_model (cls : Config) : result string :=
  if String.eqb (AI_PROVIDER cls) "zhipu" then Ok (ZHIPU_MODEL cls)
  else if String.eqb (AI_PROVIDER cls) "deepseek" then Ok (DEEPSEEK_MODEL cls)
  else if String.eqb (AI_PROVIDER cls) "openai" then Ok (OPENAI_MODEL cls)
  else Raise ValueError.

(** The provider names that [_get_api_key] and [_get_model] know. *)
Definition supported (provider : string) : bool :=
  String.eqb provider "zhipu" || String.eqb provider "deepseek"
  || String.eqb provider "openai".

End Settings.

(** ** The extraction loop of [scrapers/csindex.py]

    A row of the downloaded sheet is held by the text of its two cells,
    [str(row[fund_code_column])] and [str(row[fund_name_column])].
    [str.strip] and [re.search(r'\d{6}', _)] read Unicode code points, white
    space and decimal digits of any script: they are parameters. *)

Module Csindex.

Record row : Type := mkRow {
  code_cell : string;
  name_cell : string
}.

(** [s.replace('.0', '')]: the occurrences are taken from the left and do
    not overlap. *)
Fixpoint replace_dot_zero (s : string) : string :=
  match s with
  | String "."%char (String "0"%char rest) => replace_dot_zero rest
  | String c rest => String c (replace_dot_zero rest)
  | EmptyString => EmptyString
  end.

Section Extract.

(** [s.strip()] *)
Variable strip : string -> string.
(** [re.search(r'\d{6}', s)], with the [group()] of a match. *)
Variable search_6_digits : string -> option string.
(** Whether a name column was found in the sheet. *)
Variable fund_name_column : bool.

(** The body of [for _, row in df.iterrows()]; the state is
    [(fund_codes, fund_names)]. *)
Definition extract_row (st : list string * gmap string string) (r : row)
    : list string * gmap string string :=
  let '(fund_codes, fund_names) := st in
  let code := strip (replace_dot_zero (code_cell r)) in
  if String.eqb code "nan" || negb (str_truthy code) || String.eqb code "None"
  then (fund_codes, fund_names)
  else
    match search_6_digits code with
    | Some clean_code =>
        let fund_codes :=
          if bool_decide (clean_code ∈ fund_codes) then fund_codes
          else fund_codes ++ [clean_code] in
        let fund_names :=
          if fund_name_column
          then <[clean_code := strip (name_cell r)]> fund_names
          else <[clean_code := "基金" +:+ clean_code]> fund_names in
        (fund_codes, fund_names)
    | None => (fund_codes, fund_names)
    end.

Definition extract_rows (rows : list row) : list string * gmap string string :=
  foldl extract_row ([], ∅) rows.

(** The code that a row contributes, if any, and the name it gives it. *)
Definition clean_code_of (r : row) : option string :=
  let code := strip (replace_dot_zero (code_cell r)) in
  if String.eqb code "nan" || negb (str_truthy code) || String.eqb code "None"
  then None
  else search_6_digits code.

Definition name_of (r : row) (clean_code : string) : string :=
  if fund_name_column then strip (name_cell r) else "基金" +:+ clean_code.

End Extract.

End Csindex.

(** ** Concrete instances of the parameters, to run the model

    [strptime_ymd] reads the format [%Y-%m-%d] on ASCII input the way the
    regular expressions of [_strptime] do (four digits, a month [1[0-2]],
    [0[1-9]] or [[1-9]], a day [3[01]], [[12]\d], [0[1-9]] or [[1-9]],
    nothing left over) and numbers the days as [date.toordinal].
    [root5_centi] is the fifth root rounded down to a hundredth, for bases
    up to 243. *)

Module Sample.

Definition digit (c : ascii) : option Z :=
  let n := nat_of_ascii c in
  if ((48 <=? n) && (n <=? 57))%nat then Some (Z.of_nat (n - 48)) else None.

Definition is_dash (c : ascii) : bool := (nat_of_ascii c =? 45)%nat.

Definition is_leap (y : Z) : bool :=
  ((y mod 4 =? 0) && (negb (y mod 100 =? 0) || (y mod 400 =? 0)))%Z.

Definition days_in_month (y m : Z) : Z :=
  if (m =? 2)%Z then (if is_leap y then 29 else 28)%Z
  else if ((m =? 4) || (m =? 6) || (m =? 9) || (m =? 11))%Z then 30%Z
  else 31%Z.

Definition days_before_year (y : Z) : Z :=
  let p := (y - 1)%Z in
  (p * 365 + Z.div p 4 - Z.div p 100 + Z.div p 400)%Z.

Definition days_before_month (y m : Z) : Z :=
  foldr (fun k acc => (days_in_month y (Z.of_nat k) + acc)%Z) 0%Z
        (seq 1 (Z.to_nat (m - 1))).

Definition toordinal (y m d : Z) : Z :=
  (days_before_year y + days_before_month y m + d)%Z.

(** The year: exactly four digits. *)
Definition parse_year (s : string) : option (Z * string) :=
  match s with
  | String a (String b (String c (String d rest))) =>
      match digit a, digit b, digit c, digit d with
      | Some a, Some b, Some c, Some d => Some ((a * 1000 + b * 100 + c * 10 + d)%Z, rest)
      | _, _, _, _ => None
      end
  | _ => None
  end.

(** A month or a day: two digits when they form a number up to [top] whose
    first digit may be zero, else one digit from 1 to 9. *)
Definition parse_upto (top : Z) (s : string) : option (Z * string) :=
  let one c rest :=
    match digit c with
    | Some v => if (1 <=? v)%Z then Some (v, rest) else None
    | None => None
    end in
  match s with
  | String a (String b rest) =>
      match digit a, digit b with
      | Some x, Some y =>
          let v := (x * 10 + y)%Z in
          if ((1 <=? v) && (v <=? top))%Z then Some (v, rest) else one a (String b rest)
      | _, _ => one a (String b rest)
      end
  | String a EmptyString => one a EmptyString
  | EmptyString => None
  end.

Definition expect_dash (s : string) : option string :=
  match s with
  | String c rest => if is_dash c then Some rest else None
  | EmptyString => None
  end.

Definition strptime_ymd (s : string) : option Z :=
  '(y, s) ← parse_year s;
  s ← expect_dash s;
  '(m, s) ← parse_upto 12 s;
  s ← expect_dash s;
  '(d, s) ← parse_upto 31 s;
  match s with
  | EmptyString =>
      if ((1 <=? y) && (d <=? days_in_month y m))%Z then Some (toordinal y m d) else None
  | String _ _ => None
  end.

(** The number of [k] in [1..300] with [k^5 <= floor (x * 10^10)], in
    hundredths. *)
Definition root5_centi (x : Q) : Q :=
  let n := Qfloor (x * 10000000000) in
  inject_Z (Z.of_nat (count_if (fun k => (Z.of_nat k ^ 5 <=? n)%Z) (seq 1 300))) / 100.

(** A clock stopped at the given time of the given day. *)
Definition clock_at (day seconds : Z) : nat -> Z :=
  fun _ => (86400 * day + seconds)%Z.

(** A fund with the given code, total fee, scale, returns, date and excess
    return; the other fields take the defaults of an index fund. *)
Definition fund_of (code : string) (fee : option Q) (scale : Q)
    (ytd r3 r5 : option Q) (date : option string) (excess : option Q)
    : Fund.FundData :=
  {| Fund.code := code;
     Fund.name := code;
     Fund.management_fee := 0.0015;
     Fund.custody_fee := 0.0005;
     Fund.subscription_fee := Some 0;
     Fund.redemption_fee := Some 0;
     Fund.sales_service_fee := Some 0;
     Fund.transaction_cost := Some 0;
     Fund.other_fees := Some 0;
     Fund.total_annual_fee := fee;
     Fund.scale := scale;
     Fund.yearly_return := ytd;
     Fund.return_3year := r3;
     Fund.return_5year := r5;
     Fund.establish_date := date;
     Fund.benchmark := Some ""%string;
     Fund.beats_benchmark := (fun x => negb (Qle_bool x 0)) <$> excess;
     Fund.beats_benchmark_amount := excess;
     Fund.fund_type := Some "场内"%string |}.

(** Three funds: the second has a date with a time of day, which the format
    refuses, and no five-year return; the third discloses no return. *)
Definition fund_a : Fund.FundData :=
  fund_of "515890" (Some 0.0098) 4.61 (Some 4.12) (Some 12.3) (Some 35.5)
          (Some "2020-03-20"%string) (Some (-5.07)).
Definition fund_b : Fund.FundData :=
  fund_of "516160" (Some 0.002) 26 (Some 20.5) (Some 8) None
          (Some "2021-02-04T00:00:00"%string) (Some 5.2).
Definition fund_c : Fund.FundData :=
  fund_of "000001" (Some 0.015) 120 None None None
          (Some "2001-12-18"%string) None.
Definition cohort : list Fund.FundData := [fund_a; fund_b; fund_c].

(** A clock that starts at [start] and advances by one second per reading. *)
Definition ticking (start : Z) : nat -> Z :=
  fun k => (start + Z.of_nat k)%Z.

(** Two funds established one day apart. *)
Definition fund_e : Fund.FundData :=
  fund_of "510300" (Some 0.006) 30 (Some 7) None None (Some "2016-11-03"%string) None.
Definition fund_f : Fund.FundData :=
  fund_of "510500" (Some 0.006) 30 (Some 7) None None (Some "2016-11-04"%string) None.

(** Two funds that only differ by their code. *)
Definition fund_B : Fund.FundData :=
  fund_of "B" (Some 0.006) 30 (Some 7) None None None None.
Definition fund_A : Fund.FundData :=
  fund_of "A" (Some 0.006) 30 (Some 7) None None None None.

(** One second before midnight of 2026-11-03. *)
Definition before_midnight : Z := (86400 * 739923 + 86399)%Z.

(** A clock that is set back by two seconds just after midnight: the
    readings 2 and 3 fall on the last second of 2026-11-03, the others on
    the first second of 2026-11-04. *)
Definition set_back : nat -> Z :=
  fun k =>
    if ((k =? 2) || (k =? 3))%nat then (86400 * 739923 + 86399)%Z
    else (86400 * 739924 + 1)%Z.

(** A fourth fund, ahead of [fund_a] on every dimension. *)
Definition fund_d : Fund.FundData :=
  fund_of "159915" (Some 0.005) 20 (Some 10) (Some 30) (Some 60)
          (Some "2015-06-01"%string) (Some 1.5).
Definition cohort4 : list Fund.FundData := [fund_a; fund_b; fund_c; fund_d].

(** Noon of 2026-11-03. *)
Definition noon : nat -> Z := clock_at 739923 43200.

(** A provider that knows every code but ["999999"], reports no benchmark
    return for ["000001"], and otherwise answers with the same figures. *)
Definition sample_common (fund_code : string) : Morningstar.http_response Morningstar.common_data :=
  if String.eqb fund_code "999999" then Morningstar.HttpStatusError 404
  else Morningstar.HttpOk (Some "200011"%string)
         (Some {| Morningstar.cd_name := Some ("Fund " +:+ fund_code);
                  Morningstar.cd_fundName := None;
                  Morningstar.cd_inceptionDate := Morningstar.Value "2020-03-20"%string;
                  Morningstar.cd_fundSize := Some 461000000;
                  Morningstar.cd_other_keys := true |}).

Definition sample_performance (fund_code : string)
    : Morningstar.http_response Morningstar.performance_data :=
  if String.eqb fund_code "999999" then Morningstar.HttpStatusError 404
  else Morningstar.HttpOk (Some "200011"%string)
         (Some {| Morningstar.benchmarkName := Morningstar.Value "CSI Dividend"%string;
                  Morningstar.dayEnd :=
                    Morningstar.Value
                      {| Morningstar.returns_field :=
                           Morningstar.Value
                             {| Morningstar.YTD := Some 4.12;
                                Morningstar.Y3 := Some 12.3;
                                Morningstar.Y5 := Some 35.5 |};
                         Morningstar.benchmarkReturns_field :=
                           if String.eqb fund_code "000001" then Morningstar.Absent
                           else Morningstar.Value
                                  {| Morningstar.YTD := Some 9.19;
                                     Morningstar.Y3 := None;
                                     Morningstar.Y5 := None |} |};
                  Morningstar.pd_other_keys := true |}).

Definition sample_fees (fund_code : string) : Morningstar.http_response Morningstar.fees_data :=
  if String.eqb fund_code "999999" then Morningstar.HttpStatusError 404
  else Morningstar.HttpOk (Some "200011"%string)
         (Some {| Morningstar.fees_field :=
                    Some {| Morningstar.managementFee := Some 0.5;
                            Morningstar.custodianFee := Some 0.1;
                            Morningstar.distributionFee := None;
                            Morningstar.tradeCost := Some 0.03;
                            Morningstar.otherCost := Some 0.2;
                            Morningstar.fees_other_keys := true |} |}).

Definition sample_api : Morningstar.provider :=
  {| Morningstar.common_data_ep := sample_common;
     Morningstar.performance_ep := sample_performance;
     Morningstar.fees_ep := sample_fees |}.

(** The same provider when its performance requests time out and its fee
    requests are answered by a server error. *)
Definition degraded_api : Morningstar.provider :=
  {| Morningstar.common_data_ep := sample_common;
     Morningstar.performance_ep := fun _ => Morningstar.RequestFailed;
     Morningstar.fees_ep := fun _ => Morningstar.HttpStatusError 500 |}.

(** A name file with one entry. *)
Definition sample_names : gmap string string :=
  {[ "515890"%string := "Dividend ETF"%string ]}.

(** The client of [analyze_sector] on that provider, without a name file. *)
Definition sample_fetch : string -> Morningstar.gathered :=
  Morningstar.client_fetch ∅ sample_api.

(** The same client when the fetch of ["RAISES"] raises an [Exception] and
    the fetch of ["CANCEL"] is cancelled. *)
Definition flaky_fetch (fund_code : string) : Morningstar.gathered :=
  if String.eqb fund_code "RAISES" then Morningstar.Raised
  else if String.eqb fund_code "CANCEL" then Morningstar.Cancelled
  else sample_fetch fund_code.

(** [strip] and the search for six digits on ASCII text. *)
Definition is_space (c : ascii) : bool :=
  let n := nat_of_ascii c in
  ((9 <=? n) && (n <=? 13) || (28 <=? n) && (n <=? 32))%nat.

Fixpoint lstrip (s : string) : string :=
  match s with
  | String c rest => if is_space c then lstrip rest else s
  | EmptyString => EmptyString
  end.

Definition strip_ascii (s : string) : string :=
  String.rev (lstrip (String.rev (lstrip s))).

Fixpoint digits_at (n : nat) (s : string) : option string :=
  match n with
  | O => Some EmptyString
  | S n' =>
      match s with
      | String c rest =>
          match digit c with
          | Some _ => String c <$> digits_at n' rest
          | None => None
          end
      | EmptyString => None
      end
  end.

Fixpoint search_6_digits_ascii (s : string) : option string :=
  match digits_at 6 s with
  | Some m => Some m
  | None =>
      match s with
      | String _ rest => search_6_digits_ascii rest
      | EmptyString => None
      end
  end.

(** A sheet in which the code 516160 comes twice, under two names, with a
    row without a code in between. *)
Definition sample_sheet : list Csindex.row :=
  [ Csindex.mkRow "516160.0" "New Energy ETF";
    Csindex.mkRow "nan" "Total";
    Csindex.mkRow " 159920 KS Equity" "HS ETF ";
    Csindex.mkRow "516160" "New Energy ETF (renamed)" ].

End Sample.

(** * Properties *)

Import Fund.

(** ** Arithmetic of percentiles and of the band tables *)

Ltac qconst :=
  unfold Qdiv in *;
  repeat match goal with
  | |- context [ / (Qmake ?n ?d) ] =>
      let v := eval cbv in (/ (Qmake n d)) in change (/ (Qmake n d)) with v
  | H : context [ / (Qmake ?n ?d) ] |- _ =>
      let v := eval cbv in (/ (Qmake n d)) in change (/ (Qmake n d)) with v in H
  end.

Lemma Qle_bool_false (x y : Q) : Qle_bool x y = false -> y < x.
Proof.
  intros H. apply Qnot_le_lt. intros Hle.
  apply Qle_bool_iff in Hle. congruence.
Qed.

(** Case analysis on every test of a band table. *)
Ltac band_cases :=
  repeat match goal with
  | |- context [ Qle_bool ?a ?b ] =>
      let E := fresh "E" in
      destruct (Qle_bool a b) eqn:E;
      [ apply Qle_bool_iff in E | apply Qle_bool_false in E ]
  end.

Ltac max_cases :=
  repeat match goal with
  | |- context [ Qmax ?a ?b ] =>
      let H := fresh "Hmax" in
      destruct (Q.max_spec a b) as [[? H] | [? H]];
      rewrite H; clear H
  end.

Lemma count_if_le_length {A : Type} (p : A -> bool) (l : list A) :
  (count_if p l <= length l)%nat.
Proof.
  induction l as [|x l IH]; simpl; [lia|]. destruct (p x); lia.
Qed.

Lemma ratio_bounds (n len : nat) : (n <= len)%nat -> 0 <= ratio n len <= 1.
Proof.
  intros Hn. unfold ratio.
  destruct len as [|len].
  - assert (n = 0%nat) by lia. subst. split; [apply Qle_refl | discriminate].
  - assert (Hpos : 0 < inject_Z (Z.of_nat (S len))).
    { rewrite <- (Zlt_Qlt 0). lia. }
    split.
    + apply Qle_shift_div_l; [exact Hpos|]. rewrite Qmult_0_l.
      rewrite <- (Zle_Qle 0). lia.
    + apply Qle_shift_div_r; [exact Hpos|]. rewrite Qmult_1_l.
      rewrite <- Zle_Qle. lia.
Qed.

Lemma ratio_mono (n m len : nat) : (n <= m)%nat -> ratio n len <= ratio m len.
Proof.
  intros Hn. unfold ratio, Qdiv.
  apply Qmult_le_compat_r.
  - rewrite <- Zle_Qle. lia.
  - apply Qinv_le_0_compat. rewrite <- (Zle_Qle 0). lia.
Qed.

(** Every band table maps a percentile of [[0, 1]] into the points of its
    dimension, and is monotone. *)

Lemma fee_band_bounds (p : Q) : 0 <= p <= 1 -> 0 <= fee_band p <= 15.
Proof.
  intros [H0 H1]. unfold fee_band. band_cases; max_cases; qconst; lra.
Qed.

Lemma fee_band_mono (p q : Q) : 0 <= p -> p <= q -> fee_band p <= fee_band q.
Proof.
  intros H0 H1. unfold fee_band. band_cases; max_cases; qconst; lra.
Qed.

Lemma scale_band_bounds (p : Q) : 0 <= p <= 1 -> 0 <= scale_band p <= 15.
Proof.
  intros [H0 H1]. unfold scale_band. band_cases; max_cases; qconst; lra.
Qed.

Lemma scale_band_mono (p q : Q) : 0 <= p -> p <= q -> scale_band p <= scale_band q.
Proof.
  intros H0 H1. unfold scale_band. band_cases; max_cases; qconst; lra.
Qed.

Lemma short_term_band_bounds (p : Q) : 0 <= p <= 1 -> 0 <= short_term_band p <= 20.
Proof.
  intros [H0 H1]. unfold short_term_band. band_cases; max_cases; qconst; lra.
Qed.

Lemma short_term_band_mono (p q : Q) : 0 <= p -> p <= q -> short_term_band p <= short_term_band q.
Proof.
  intros H0 H1. unfold short_term_band. band_cases; max_cases; qconst; lra.
Qed.

Lemma long_term_band_bounds (p : Q) : 0 <= p <= 1 -> 0 <= long_term_band p <= 25.
Proof.
  intros [H0 H1]. unfold long_term_band. band_cases; max_cases; qconst; lra.
Qed.

Lemma long_term_band_mono (p q : Q) : 0 <= p -> p <= q -> long_term_band p <= long_term_band q.
Proof.
  intros H0 H1. unfold long_term_band. band_cases; max_cases; qconst; lra.
Qed.

Lemma benchmark_band_bounds (p : Q) : 0 <= p <= 1 -> 0 <= benchmark_band p <= 10.
Proof.
  intros [H0 H1]. unfold benchmark_band. band_cases; max_cases; qconst; lra.
Qed.

Lemma benchmark_band_mono (p q : Q) : 0 <= p -> p <= q -> benchmark_band p <= benchmark_band q.
Proof.
  intros H0 H1. unfold benchmark_band. band_cases; max_cases; qconst; lra.
Qed.

Lemma stability_band_bounds (p : Q) : 0 <= p <= 1 -> 0 <= stability_band p <= 15.
Proof.
  intros [H0 H1]. unfold stability_band. band_cases; max_cases; qconst; lra.
Qed.

Lemma stability_band_mono (p q : Q) : 0 <= p -> p <= q -> stability_band p <= stability_band q.
Proof.
  intros H0 H1. unfold stability_band. band_cases; max_cases; qconst; lra.
Qed.

Lemma percentile_of_bounds (keep : Q -> bool) (values : list Q) :
  0 <= percentile_of keep values <= 1.
Proof. apply ratio_bounds, count_if_le_length. Qed.

(** If the test [q] holds wherever [p] does, [q] counts at least as much. *)
Lemma count_if_mono {A : Type} (p q : A -> bool) (l : list A) :
  (forall x, p x = true -> q x = true) ->
  (count_if p l <= count_if q l)%nat.
Proof.
  intros Hpq. induction l as [|x l IH]; simpl; [lia|].
  destruct (p x) eqn:Hp; [rewrite (Hpq x Hp); lia | destruct (q x); lia].
Qed.

Lemma percentile_of_mono (p q : Q -> bool) (values : list Q) :
  (forall x, p x = true -> q x = true) ->
  percentile_of p values <= percentile_of q values.
Proof. intros Hpq. apply ratio_mono, count_if_mono, Hpq. Qed.

Lemma count_if_r_le_length {A : Type} (p : A -> result bool) (l : list A) (n : nat) :
  count_if_r p l = Ok n -> (n <= length l)%nat.
Proof.
  revert n. induction l as [|x l IH]; simpl; intros n H.
  - injection H as <-. lia.
  - destruct (p x) as [b|e]; [|discriminate].
    destruct (count_if_r p l) as [k|e]; [|discriminate].
    injection H as <-. specialize (IH k eq_refl). destruct b; lia.
Qed.

(** ** The six factor functions stay within their caps *)

Lemma _score_fees_relative_bounds fund all_funds :
  0 <= _score_fees_relative fund all_funds <= 15.
Proof.
  unfold _score_fees_relative.
  destruct (is_nil _), (total_annual_fee fund);
    try (split; discriminate).
  apply fee_band_bounds, percentile_of_bounds.
Qed.

Lemma _score_scale_relative_bounds fund all_funds :
  0 <= _score_scale_relative fund all_funds <= 15.
Proof.
  unfold _score_scale_relative.
  destruct (is_nil _); [split; discriminate|].
  apply scale_band_bounds, percentile_of_bounds.
Qed.

Lemma _score_short_term_performance_relative_bounds fund all_funds :
  0 <= _score_short_term_performance_relative fund all_funds <= 20.
Proof.
  unfold _score_short_term_performance_relative.
  destruct (is_nil _), (yearly_return fund);
    try (split; discriminate).
  apply short_term_band_bounds, percentile_of_bounds.
Qed.

Lemma _score_beats_benchmark_relative_bounds fund all_funds :
  0 <= _score_beats_benchmark_relative fund all_funds <= 10.
Proof.
  unfold _score_beats_benchmark_relative.
  destruct (is_nil _), (beats_benchmark_amount fund);
    try (split; discriminate).
  apply benchmark_band_bounds, percentile_of_bounds.
Qed.

Section ScoringFacts.

Variable root5 : Q -> Q.
Variable strptime : string -> option Z.
Variable clock : nat -> Z.

Lemma _score_long_term_performance_relative_bounds fund all_funds v :
  _score_long_term_performance_relative root5 fund all_funds = Ok v ->
  0 <= v <= 25.
Proof.
  unfold _score_long_term_performance_relative.
  destruct (is_nil _).
  { intros [= <-]. split; discriminate. }
  destruct (return_5year fund) as [r5|].
  2: { intros [= <-]. split; discriminate. }
  destruct (count_if_r _ _) as [n|e] eqn:Hn; [|discriminate].
  intros [= <-]. apply long_term_band_bounds, ratio_bounds.
  exact (count_if_r_le_length _ _ _ Hn).
Qed.

(** Running a bind: the state reached by the first computation is handed to
    the second, and an exception stops the run. *)
Lemma run_bind {A B : Type} (m : M A) (k : A -> M B) (n : nat) :
  (m ≫= k) n =
  match m n with
  | (Ok a, n') => k a n'
  | (Raise e, n') => (Raise e, n')
  end.
Proof. reflexivity. Qed.

Lemma run_ret {A : Type} (a : A) (n : nat) : (mret a : M A) n = (Ok a, n).
Proof. reflexivity. Qed.

Lemma run_age_years date_obj n :
  age_years clock date_obj n =
  (Ok (inject_Z (timedelta_days (clock n) date_obj) / 365.25), S n).
Proof. reflexivity. Qed.

(** The first loop of the stability score always completes. *)
Lemma collect_ages_returns all_funds n :
  exists ages n', collect_ages strptime clock all_funds n = (Ok ages, n').
Proof.
  revert n. induction all_funds as [|f rest IH]; intros n; simpl.
  - eauto.
  - destruct (establish_date f) as [s|]; [|apply IH].
    destruct (str_truthy s); [|apply IH].
    destruct (strptime s) as [d|]; [|apply IH].
    rewrite run_bind, run_age_years, run_bind.
    destruct (IH (S n)) as (ages & n' & ->). rewrite run_ret. eauto.
Qed.

(** The stability score never raises and stays within its cap. *)
Lemma _score_stability_relative_bounds fund all_funds n :
  exists v n',
    _score_stability_relative strptime clock fund all_funds n = (Ok v, n')
    /\ 0 <= v <= 15.
Proof.
  unfold _score_stability_relative. rewrite run_bind.
  destruct (collect_ages_returns all_funds n) as (ages & n' & ->).
  assert (H8 : 0 <= 8 <= 15) by (split; discriminate).
  destruct (is_nil ages); [rewrite run_ret; eauto|].
  destruct (establish_date fund) as [s|]; [|rewrite run_ret; eauto].
  destruct (str_truthy s); [|rewrite run_ret; eauto].
  destruct (strptime s) as [d|]; [|rewrite run_ret; eauto].
  rewrite run_bind, run_age_years, run_ret.
  eexists _, _. split; [reflexivity|].
  apply stability_band_bounds, percentile_of_bounds.
Qed.

End ScoringFacts.

(** ** The composite score *)

Section Composite.

Variable root5 : Q -> Q.
Variable strptime : string -> option Z.
Variable clock : nat -> Z.

Lemma annualized_pct_real r :
  pow_is_real r -> exists x, annualized_pct root5 r = PyFloat x.
Proof.
  unfold pow_is_real, annualized_pct. intros H.
  apply Qle_bool_iff in H. rewrite H. eauto.
Qed.

Lemma count_if_r_floats (x : Q) (rs : list Q) :
  Forall pow_is_real rs ->
  exists k, count_if_r (fun r => py_le r (PyFloat x)) (map (annualized_pct root5) rs) = Ok k.
Proof.
  induction 1 as [|r rs Hr _ IH]; simpl; [eauto|].
  destruct (annualized_pct_real r Hr) as [y ->]. simpl.
  destruct IH as [k ->]. eauto.
Qed.

(** The long-term score is returned as soon as no five-year return of the
    pool, nor the fund's own, is below -100%. *)
Lemma _score_long_term_performance_relative_returns fund all_funds :
  Forall pow_is_real (present return_5year (fund :: all_funds)) ->
  exists v, _score_long_term_performance_relative root5 fund all_funds = Ok v.
Proof.
  intros H. unfold _score_long_term_performance_relative.
  destruct (is_nil _); [eauto|].
  simpl in H. destruct (return_5year fund) as [r5|]; [|eauto].
  apply Forall_cons in H as [Hr Hall].
  destruct (annualized_pct_real r5 Hr) as [x ->].
  destruct (count_if_r_floats x _ Hall) as [k ->]. eauto.
Qed.

(** C1. [score_fund] returns whenever no five-year return is below -100%;
    and whenever it returns, the breakdown holds the six factor scores, each
    between 0 and the cap of its dimension (15, 15, 20, 25, 10, 15), the
    total is their sum and lies between 0 and 100. *)
Theorem score_fund_composite_bound
    (fund : FundData) (all_funds : option (list FundData)) (n : nat) :
  let cohort := match all_funds with None => [fund] | Some l => l end in
  (Forall pow_is_real (present return_5year (fund :: cohort)) ->
   exists total scores n',
     score_fund root5 strptime clock fund all_funds n = (Ok (total, scores), n'))
  /\
  (forall total scores n',
     score_fund root5 strptime clock fund all_funds n = (Ok (total, scores), n') ->
     exists fee scale short long bench stab,
       scores !! k_fee = Some fee /\ scores !! k_scale = Some scale
       /\ scores !! k_short = Some short /\ scores !! k_long = Some long
       /\ scores !! k_benchmark = Some bench /\ scores !! k_stability = Some stab
       /\ size scores = 6%nat
       /\ total == fee + scale + short + long + bench + stab
       /\ 0 <= total <= 100
       /\ 0 <= fee <= 15 /\ 0 <= scale <= 15 /\ 0 <= short <= 20
       /\ 0 <= long <= 25 /\ 0 <= bench <= 10 /\ 0 <= stab <= 15).
Proof.
  intros cohort.
  pose proof (_score_fees_relative_bounds fund cohort) as Hfee.
  pose proof (_score_scale_relative_bounds fund cohort) as Hscale.
  pose proof (_score_short_term_performance_relative_bounds fund cohort) as Hshort.
  pose proof (_score_beats_benchmark_relative_bounds fund cohort) as Hbench.
  destruct (_score_stability_relative_bounds strptime clock fund cohort n)
    as (stab & n1 & Hrun & Hstab).
  unfold score_fund. fold cohort. rewrite run_bind. unfold lift.
  split.
  - intros Hreal.
    destruct (_score_long_term_performance_relative_returns fund cohort Hreal) as [long ->].
    rewrite run_bind, Hrun, run_ret. eauto.
  - intros total scores n'.
    destruct (_score_long_term_performance_relative root5 fund cohort) as [long|e] eqn:Hl;
      [|discriminate].
    pose proof (_score_long_term_performance_relative_bounds root5 _ _ _ Hl) as Hlong.
    rewrite run_bind, Hrun, run_ret. intros [= <- <- <-].
    exists (_score_fees_relative fund cohort), (_score_scale_relative fund cohort),
      (_score_short_term_performance_relative fund cohort), long,
      (_score_beats_benchmark_relative fund cohort), stab.
    repeat (rewrite lookup_insert_eq || (rewrite lookup_insert_ne by done)).
    repeat (split; [reflexivity|]).
    split; [ring|].
    repeat split; try tauto; lra.
Qed.

End Composite.

Lemma score_fund_composite_bound_witness :
  exists total scores n',
    score_fund Sample.root5_centi Sample.strptime_ymd Sample.noon
      Sample.fund_a (Some Sample.cohort) 0%nat = (Ok (total, scores), n')
    /\ 0 <= total <= 100
    /\ exists fee, scores !! k_fee = Some fee /\ 0 <= fee <= 15.
Proof.
  destruct (score_fund_composite_bound Sample.root5_centi Sample.strptime_ymd
              Sample.noon Sample.fund_a (Some Sample.cohort) 0%nat) as [Hret Hb].
  destruct Hret as (total & scores & n' & H).
  { repeat constructor. vm_compute. discriminate. vm_compute. discriminate. }
  exists total, scores, n'. split; [exact H|].
  destruct (Hb total scores n' H)
    as (fee & scale & short & long & bench & stab & Hfee & _ & _ & _ & _ & _ & _ & _ & Ht & Hf & _).
  split; [exact Ht|]. exists fee. split; [exact Hfee | exact Hf].
Defined.

(** ** Percentiles and factor scores follow the order of the field *)

Lemma fees_monotone (A B : FundData) (all_funds : list FundData) (a b : Q) :
  total_annual_fee A = Some a -> total_annual_fee B = Some b -> a < b ->
  let fees := present total_annual_fee all_funds in
  percentile_of (fun f => Qle_bool b f) fees <= percentile_of (fun f => Qle_bool a f) fees
  /\ _score_fees_relative B all_funds <= _score_fees_relative A all_funds.
Proof.
  intros HA HB Hab fees.
  assert (Hp : percentile_of (fun f => Qle_bool b f) fees
               <= percentile_of (fun f => Qle_bool a f) fees).
  { apply percentile_of_mono. intros f Hf.
    apply Qle_bool_iff in Hf. apply Qle_bool_iff. lra. }
  split; [exact Hp|].
  unfold _score_fees_relative. fold fees. rewrite HA, HB.
  destruct (is_nil fees); [apply Qle_refl|].
  apply fee_band_mono; [apply percentile_of_bounds | exact Hp].
Qed.

Lemma scale_monotone (A B : FundData) (all_funds : list FundData) :
  deviation (scale A) < deviation (scale B) ->
  let deviations := map deviation (map scale all_funds) in
  percentile_of (fun d => Qle_bool (deviation (scale B)) d) deviations
    <= percentile_of (fun d => Qle_bool (deviation (scale A)) d) deviations
  /\ _score_scale_relative B all_funds <= _score_scale_relative A all_funds.
Proof.
  intros Hab deviations.
  assert (Hp : percentile_of (fun d => Qle_bool (deviation (scale B)) d) deviations
               <= percentile_of (fun d => Qle_bool (deviation (scale A)) d) deviations).
  { apply percentile_of_mono. intros f Hf.
    apply Qle_bool_iff in Hf. apply Qle_bool_iff. lra. }
  split; [exact Hp|].
  unfold _score_scale_relative. fold deviations.
  destruct (is_nil _); [apply Qle_refl|].
  apply scale_band_mono; [apply percentile_of_bounds | exact Hp].
Qed.

Lemma short_term_monotone (A B : FundData) (all_funds : list FundData) (a b : Q) :
  yearly_return A = Some a -> yearly_return B = Some b -> b < a ->
  let returns := present yearly_return all_funds in
  percentile_of (fun r => Qle_bool r b) returns <= percentile_of (fun r => Qle_bool r a) returns
  /\ _score_short_term_performance_relative B all_funds
     <= _score_short_term_performance_relative A all_funds.
Proof.
  intros HA HB Hab returns.
  assert (Hp : percentile_of (fun r => Qle_bool r b) returns
               <= percentile_of (fun r => Qle_bool r a) returns).
  { apply percentile_of_mono. intros f Hf.
    apply Qle_bool_iff in Hf. apply Qle_bool_iff. lra. }
  split; [exact Hp|].
  unfold _score_short_term_performance_relative. fold returns. rewrite HA, HB.
  destruct (is_nil returns); [apply Qle_refl|].
  apply short_term_band_mono; [apply percentile_of_bounds | exact Hp].
Qed.

Lemma benchmark_monotone (A B : FundData) (all_funds : list FundData) (a b : Q) :
  beats_benchmark_amount A = Some a -> beats_benchmark_amount B = Some b -> b < a ->
  let excess_returns := present beats_benchmark_amount all_funds in
  percentile_of (fun r => Qle_bool r b) excess_returns
    <= percentile_of (fun r => Qle_bool r a) excess_returns
  /\ _score_beats_benchmark_relative B all_funds
     <= _score_beats_benchmark_relative A all_funds.
Proof.
  intros HA HB Hab excess_returns.
  assert (Hp : percentile_of (fun r => Qle_bool r b) excess_returns
               <= percentile_of (fun r => Qle_bool r a) excess_returns).
  { apply percentile_of_mono. intros f Hf.
    apply Qle_bool_iff in Hf. apply Qle_bool_iff. lra. }
  split; [exact Hp|].
  unfold _score_beats_benchmark_relative. fold excess_returns. rewrite HA, HB.
  destruct (is_nil excess_returns); [apply Qle_refl|].
  apply benchmark_band_mono; [apply percentile_of_bounds | exact Hp].
Qed.

(** When the comparisons of the long-term percentile all succeed on a
    non-empty pool, the pool and the fund's value are floats and the sum is
    an ordinary count. *)
Lemma count_if_r_ok (v : pynum) (l : list pynum) (n : nat) :
  l <> [] ->
  count_if_r (fun r => py_le r v) l = Ok n ->
  exists x xs, v = PyFloat x /\ l = map PyFloat xs
               /\ n = count_if (fun r => Qle_bool r x) xs.
Proof.
  intros Hne. destruct v as [x|].
  2: { destruct l as [|[y|] l]; [congruence | discriminate | discriminate]. }
  clear Hne. revert n. induction l as [|r l IH]; intros n H.
  - exists x, []. injection H as <-. auto.
  - simpl in H. destruct r as [y|]; [|discriminate]. simpl in H.
    destruct (count_if_r _ l) as [k|e]; [|discriminate].
    injection H as <-.
    destruct (IH k eq_refl) as (x' & xs & [= <-] & -> & ->).
    exists x, (y :: xs). auto.
Qed.

Lemma map_PyFloat_inj (xs ys : list Q) :
  map PyFloat xs = map PyFloat ys -> xs = ys.
Proof.
  revert ys. induction xs as [|x xs IH]; intros [|y ys] H; try discriminate; auto.
  injection H as -> H. f_equal. auto.
Qed.

Lemma is_nil_false {A : Type} (l : list A) : is_nil l = false -> l <> [].
Proof. destruct l; [discriminate | congruence]. Qed.

Lemma timedelta_days_day (t date_obj : Z) :
  timedelta_days t date_obj = (Z.div t 86400 - date_obj)%Z.
Proof.
  unfold timedelta_days.
  replace (t - 86400 * date_obj)%Z with (t + (- date_obj) * 86400)%Z by lia.
  rewrite Z.div_add by lia. lia.
Qed.

Section Monotone.

Variable root5 : Q -> Q.
Variable strptime : string -> option Z.
Variable clock : nat -> Z.

(** The fifth root is monotone on the non-negative floats. *)
Hypothesis root5_mono : forall x y, 0 <= x -> x <= y -> root5 x <= root5 y.

(** The clock does not go back, and the run crosses one midnight at most. *)
Hypothesis one_midnight :
  forall i j, (i <= j)%nat ->
    (0 <= Z.div (clock j) 86400 - Z.div (clock i) 86400 <= 1)%Z.

Lemma long_term_score_of_percentile fund all_funds :
  _score_long_term_performance_relative root5 fund all_funds =
  match long_term_percentile root5 fund all_funds with
  | Ok (Some p) => Ok (long_term_band p)
  | Ok None => Ok 12
  | Raise e => Raise e
  end.
Proof.
  unfold _score_long_term_performance_relative, long_term_percentile.
  destruct (is_nil _); [reflexivity|].
  destruct (return_5year fund); [|reflexivity].
  destruct (count_if_r _ _); reflexivity.
Qed.

Lemma annualized_pct_le (a b x y : Q) :
  b < a ->
  annualized_pct root5 a = PyFloat x -> annualized_pct root5 b = PyFloat y ->
  y <= x.
Proof.
  unfold annualized_pct. intros Hab.
  destruct (Qle_bool 0 (1 + a / 100)) eqn:Ha; [|discriminate].
  destruct (Qle_bool 0 (1 + b / 100)) eqn:Hb; [|discriminate].
  intros [= <-] [= <-]. apply Qle_bool_iff in Hb.
  assert (H : root5 (1 + b / 100) <= root5 (1 + a / 100)).
  { apply root5_mono; [exact Hb|]. qconst. lra. }
  lra.
Qed.

Lemma long_term_monotone (A B : FundData) (all_funds : list FundData) (a b : Q) :
  return_5year A = Some a -> return_5year B = Some b -> b < a ->
  forall pA pB,
    long_term_percentile root5 A all_funds = Ok pA ->
    long_term_percentile root5 B all_funds = Ok pB ->
    match pA, pB with
    | Some p, Some q => q <= p /\ 0 <= q
    | None, None => True
    | _, _ => False
    end.
Proof.
  intros HA HB Hab pA pB. unfold long_term_percentile. rewrite HA, HB.
  destruct (is_nil _) eqn:Hnil.
  { intros [= <-] [= <-]. exact I. }
  apply is_nil_false in Hnil.
  destruct (count_if_r _ _) as [nA|] eqn:HnA; [|discriminate]. intros [= <-].
  destruct (count_if_r (fun r => py_le r (annualized_pct root5 b)) _) as [nB|] eqn:HnB;
    [|discriminate]. intros [= <-].
  pose proof (count_if_r_le_length _ _ _ HnB) as HlenB.
  destruct (count_if_r_ok _ _ _ Hnil HnA) as (x & xs & Hx & Hxs & ->).
  destruct (count_if_r_ok _ _ _ Hnil HnB) as (y & ys & Hy & Hys & ->).
  rewrite Hxs in Hys. apply map_PyFloat_inj in Hys as <-.
  pose proof (annualized_pct_le a b x y Hab Hx Hy) as Hyx.
  split.
  - apply ratio_mono, count_if_mono. intros r Hr.
    apply Qle_bool_iff in Hr. apply Qle_bool_iff. lra.
  - apply ratio_bounds. exact HlenB.
Qed.

Lemma long_term_score_monotone (A B : FundData) (all_funds : list FundData) (a b : Q) :
  return_5year A = Some a -> return_5year B = Some b -> b < a ->
  forall sA sB,
    _score_long_term_performance_relative root5 A all_funds = Ok sA ->
    _score_long_term_performance_relative root5 B all_funds = Ok sB ->
    sB <= sA.
Proof.
  intros HA HB Hab sA sB. rewrite !long_term_score_of_percentile.
  pose proof (long_term_monotone A B all_funds a b HA HB Hab) as H.
  destruct (long_term_percentile root5 A all_funds) as [pA|]; [|discriminate].
  destruct (long_term_percentile root5 B all_funds) as [pB|]; [|destruct pA; discriminate].
  specialize (H pA pB eq_refl eq_refl).
  destruct pA as [p|], pB as [q|]; try contradiction.
  - intros [= <-] [= <-]. apply long_term_band_mono; tauto.
  - intros [= <-] [= <-]. apply Qle_refl.
Qed.

(** The first loop reads the clock once per date that parses. *)
Lemma collect_ages_spec (all_funds : list FundData) (n : nat) :
  collect_ages strptime clock all_funds n =
  (Ok (ages_from clock n (parsed_dates strptime all_funds)),
   (n + length (parsed_dates strptime all_funds))%nat).
Proof.
  revert n. induction all_funds as [|f rest IH]; intros n; simpl.
  - rewrite run_ret. do 2 f_equal. lia.
  - destruct (establish_date f) as [s|]; [|apply IH].
    destruct (str_truthy s); [|apply IH].
    destruct (strptime s) as [d|]; [|apply IH].
    rewrite run_bind, run_age_years, run_bind, IH, run_ret.
    simpl. do 2 f_equal. lia.
Qed.

Lemma length_ages_from (n : nat) (dates : list Z) :
  length (ages_from clock n dates) = length dates.
Proof. revert n. induction dates as [|d rest IH]; intros n; simpl; congruence. Qed.

Lemma stability_score_of_percentile fund all_funds n :
  _score_stability_relative strptime clock fund all_funds n =
  match stability_percentile strptime clock fund all_funds n with
  | (Ok (Some p), n') => (Ok (stability_band p), n')
  | (Ok None, n') => (Ok 8, n')
  | (Raise e, n') => (Raise e, n')
  end.
Proof.
  unfold _score_stability_relative, stability_percentile. rewrite !run_bind.
  destruct (collect_ages strptime clock all_funds n) as [[ages|e] n']; [|reflexivity].
  destruct (is_nil ages); [reflexivity|].
  destruct (establish_date fund) as [s|]; [|reflexivity].
  destruct (str_truthy s); [|reflexivity].
  destruct (strptime s); reflexivity.
Qed.

(** The percentile of a fund whose date parses: its own age is taken at the
    reading that follows those of the pool. *)
Lemma stability_percentile_spec fund all_funds s d n :
  establish_date fund = Some s -> str_truthy s = true -> strptime s = Some d ->
  let dates := parsed_dates strptime all_funds in
  let ages := ages_from clock n dates in
  let fund_age := inject_Z (timedelta_days (clock (n + length dates)) d) / 365.25 in
  stability_percentile strptime clock fund all_funds n =
  (Ok (if is_nil ages then None
       else Some (percentile_of (fun a => Qle_bool a fund_age) ages)),
   if is_nil ages then (n + length dates)%nat else S (n + length dates)).
Proof.
  intros Hs Ht Hd dates ages fund_age. unfold stability_percentile.
  rewrite run_bind, collect_ages_spec. fold dates ages.
  destruct (is_nil ages); [reflexivity|].
  rewrite Hs, Ht, Hd, run_bind, run_age_years, run_ret. reflexivity.
Qed.

(** Ages compare as their numbers of days do. *)
Lemma age_le_days (x y : Z) :
  Qle_bool (inject_Z x / 365.25) (inject_Z y / 365.25) = true <-> (x <= y)%Z.
Proof.
  rewrite Qle_bool_iff, Zle_Qle. split; intros H; qconst; lra.
Qed.

(** Entry by entry, a pool entry that is no older than the younger fund [B]
    in the run of [B] is no older than [A] in the run of [A]. *)
Lemma ages_count_mono (dates : list Z) (n m nA mB : nat) (da db : Z) :
  (da < db)%Z ->
  (n + length dates <= nA)%nat -> (m + length dates <= mB)%nat ->
  (count_if (fun a => Qle_bool a (inject_Z (timedelta_days (clock mB) db) / 365.25))
     (ages_from clock m dates)
   <= count_if (fun a => Qle_bool a (inject_Z (timedelta_days (clock nA) da) / 365.25))
        (ages_from clock n dates))%nat.
Proof.
  intros Hlt. revert n m. induction dates as [|d rest IH]; intros n m Hn Hm.
  - reflexivity.
  - cbn [ages_from count_if length] in *.
    specialize (IH (S n) (S m) ltac:(lia) ltac:(lia)).
    destruct (Qle_bool (inject_Z (timedelta_days (clock m) d) / 365.25) _) eqn:EB.
    + apply age_le_days in EB. rewrite !timedelta_days_day in EB.
      pose proof (one_midnight m mB ltac:(lia)) as HB.
      pose proof (one_midnight n nA ltac:(lia)) as HA.
      assert (EA : Qle_bool (inject_Z (timedelta_days (clock n) d) / 365.25)
                     (inject_Z (timedelta_days (clock nA) da) / 365.25) = true).
      { apply age_le_days. rewrite !timedelta_days_day. lia. }
      rewrite EA. lia.
    + destruct (Qle_bool _ _); lia.
Qed.

Lemma stability_monotone (A B : FundData) (all_funds : list FundData)
    (sa sb : string) (da db : Z) (n m : nat) :
  establish_date A = Some sa -> str_truthy sa = true -> strptime sa = Some da ->
  establish_date B = Some sb -> str_truthy sb = true -> strptime sb = Some db ->
  (da < db)%Z ->
  exists pA pB n' m',
    stability_percentile strptime clock A all_funds n = (Ok pA, n')
    /\ stability_percentile strptime clock B all_funds m = (Ok pB, m')
    /\ match pA, pB with
       | Some p, Some q => q <= p /\ 0 <= q
       | None, None => True
       | _, _ => False
       end.
Proof.
  intros HA HtA HdA HB HtB HdB Hlt.
  rewrite (stability_percentile_spec A all_funds sa da n HA HtA HdA).
  rewrite (stability_percentile_spec B all_funds sb db m HB HtB HdB).
  cbv zeta.
  destruct (parsed_dates strptime all_funds) as [|d rest] eqn:Hdates.
  - eexists _, _, _, _. repeat split.
  - cbn [ages_from is_nil]. rewrite <- Hdates.
    eexists _, _, _, _. split; [reflexivity|]. split; [reflexivity|]. split.
    + unfold percentile_of. cbn [length]. rewrite !length_ages_from.
      apply ratio_mono.
      replace (inject_Z (timedelta_days (clock m) d) / 365.25
               :: ages_from clock (S m) rest)
        with (ages_from clock m (d :: rest)) by reflexivity.
      replace (inject_Z (timedelta_days (clock n) d) / 365.25
               :: ages_from clock (S n) rest)
        with (ages_from clock n (d :: rest)) by reflexivity.
      rewrite <- Hdates. apply ages_count_mono; [exact Hlt | lia | lia].
    + apply percentile_of_bounds.
Qed.

Lemma stability_score_monotone (A B : FundData) (all_funds : list FundData)
    (sa sb : string) (da db : Z) (n m : nat) :
  establish_date A = Some sa -> str_truthy sa = true -> strptime sa = Some da ->
  establish_date B = Some sb -> str_truthy sb = true -> strptime sb = Some db ->
  (da < db)%Z ->
  exists sA sB n' m',
    _score_stability_relative strptime clock A all_funds n = (Ok sA, n')
    /\ _score_stability_relative strptime clock B all_funds m = (Ok sB, m')
    /\ sB <= sA.
Proof.
  intros HA HtA HdA HB HtB HdB Hlt.
  destruct (stability_monotone A B all_funds sa sb da db n m HA HtA HdA HB HtB HdB Hlt)
    as (pA & pB & n' & m' & HpA & HpB & Hle).
  rewrite !stability_score_of_percentile, HpA, HpB.
  destruct pA as [p|], pB as [q|]; try contradiction.
  - eexists _, _, _, _. split; [reflexivity|]. split; [reflexivity|].
    apply stability_band_mono; tauto.
  - eexists _, _, _, _. split; [reflexivity|]. split; [reflexivity|]. apply Qle_refl.
Qed.

End Monotone.

(** C2, as the code has it.  In a fixed cohort and on each of the six
    dimensions, a fund [A] whose field is strictly better than that of [B]
    (lower fee, smaller distance to the ideal scale, higher return, higher
    excess return, earlier date) has a percentile at least as high as [B]
    and a factor score at least as high.  The fifth root is monotone and,
    for the stability dimension, the clock does not go back and the run
    crosses one midnight at most. *)
Theorem factor_scores_monotone
    (root5 : Q -> Q) (strptime : string -> option Z) (clock : nat -> Z)
    (root5_mono : forall x y, 0 <= x -> x <= y -> root5 x <= root5 y)
    (one_midnight :
       forall i j, (i <= j)%nat ->
         (0 <= Z.div (clock j) 86400 - Z.div (clock i) 86400 <= 1)%Z)
    (A B : FundData) (all_funds : list FundData) (n m : nat) :
  (forall a b,
     total_annual_fee A = Some a -> total_annual_fee B = Some b -> a < b ->
     let fees := present total_annual_fee all_funds in
     percentile_of (fun f => Qle_bool b f) fees <= percentile_of (fun f => Qle_bool a f) fees
     /\ _score_fees_relative B all_funds <= _score_fees_relative A all_funds)
  /\
  (deviation (scale A) < deviation (scale B) ->
   let deviations := map deviation (map scale all_funds) in
   percentile_of (fun d => Qle_bool (deviation (scale B)) d) deviations
     <= percentile_of (fun d => Qle_bool (deviation (scale A)) d) deviations
   /\ _score_scale_relative B all_funds <= _score_scale_relative A all_funds)
  /\
  (forall a b,
     yearly_return A = Some a -> yearly_return B = Some b -> b < a ->
     let returns := present yearly_return all_funds in
     percentile_of (fun r => Qle_bool r b) returns <= percentile_of (fun r => Qle_bool r a) returns
     /\ _score_short_term_performance_relative B all_funds
        <= _score_short_term_performance_relative A all_funds)
  /\
  (forall a b,
     return_5year A = Some a -> return_5year B = Some b -> b < a ->
     (forall pA pB,
        long_term_percentile root5 A all_funds = Ok pA ->
        long_term_percentile root5 B all_funds = Ok pB ->
        match pA, pB with
        | Some p, Some q => q <= p /\ 0 <= q
        | None, None => True
        | _, _ => False
        end)
     /\ (forall sA sB,
          _score_long_term_performance_relative root5 A all_funds = Ok sA ->
          _score_long_term_performance_relative root5 B all_funds = Ok sB ->
          sB <= sA))
  /\
  (forall a b,
     beats_benchmark_amount A = Some a -> beats_benchmark_amount B = Some b -> b < a ->
     let excess_returns := present beats_benchmark_amount all_funds in
     percentile_of (fun r => Qle_bool r b) excess_returns
       <= percentile_of (fun r => Qle_bool r a) excess_returns
     /\ _score_beats_benchmark_relative B all_funds
        <= _score_beats_benchmark_relative A all_funds)
  /\
  (forall sa sb da db,
     establish_date A = Some sa -> str_truthy sa = true -> strptime sa = Some da ->
     establish_date B = Some sb -> str_truthy sb = true -> strptime sb = Some db ->
     (da < db)%Z ->
     (exists pA pB n' m',
        stability_percentile strptime clock A all_funds n = (Ok pA, n')
        /\ stability_percentile strptime clock B all_funds m = (Ok pB, m')
        /\ match pA, pB with
           | Some p, Some q => q <= p /\ 0 <= q
           | None, None => True
           | _, _ => False
           end)
     /\ (exists sA sB n' m',
          _score_stability_relative strptime clock A all_funds n = (Ok sA, n')
          /\ _score_stability_relative strptime clock B all_funds m = (Ok sB, m')
          /\ sB <= sA)).
Proof.
  split; [intros a b; apply fees_monotone|].
  split; [apply scale_monotone|].
  split; [intros a b; apply short_term_monotone|].
  split.
  { intros a b HA HB Hab. split.
    - exact (long_term_monotone root5 root5_mono A B all_funds a b HA HB Hab).
    - exact (long_term_score_monotone root5 root5_mono A B all_funds a b HA HB Hab). }
  split; [intros a b; apply benchmark_monotone|].
  intros sa sb da db HA HtA HdA HB HtB HdB Hlt. split.
  - exact (stability_monotone strptime clock one_midnight A B all_funds
             sa sb da db n m HA HtA HdA HB HtB HdB Hlt).
  - exact (stability_score_monotone strptime clock one_midnight A B all_funds
             sa sb da db n m HA HtA HdA HB HtB HdB Hlt).
Qed.

(** The sample fifth root is monotone. *)
Lemma root5_centi_mono (x y : Q) :
  0 <= x -> x <= y -> Sample.root5_centi x <= Sample.root5_centi y.
Proof.
  intros _ Hxy. unfold Sample.root5_centi, Qdiv.
  apply Qmult_le_compat_r; [|discriminate].
  rewrite <- Zle_Qle. apply inj_le, count_if_mono.
  intros k Hk. apply Z.leb_le in Hk. apply Z.leb_le.
  etransitivity; [exact Hk|].
  apply Qfloor_resp_le, Qmult_le_compat_r; [exact Hxy | discriminate].
Qed.

Lemma noon_one_midnight (i j : nat) :
  (i <= j)%nat ->
  (0 <= Z.div (Sample.noon j) 86400 - Z.div (Sample.noon i) 86400 <= 1)%Z.
Proof. intros _. unfold Sample.noon, Sample.clock_at. lia. Qed.

Lemma factor_scores_monotone_witness :
  _score_fees_relative Sample.fund_a Sample.cohort4
    <= _score_fees_relative Sample.fund_d Sample.cohort4
  /\ _score_scale_relative Sample.fund_a Sample.cohort4
     <= _score_scale_relative Sample.fund_d Sample.cohort4
  /\ _score_short_term_performance_relative Sample.fund_a Sample.cohort4
     <= _score_short_term_performance_relative Sample.fund_d Sample.cohort4
  /\ _score_beats_benchmark_relative Sample.fund_a Sample.cohort4
     <= _score_beats_benchmark_relative Sample.fund_d Sample.cohort4
  /\ (exists sA sB,
        _score_long_term_performance_relative Sample.root5_centi
          Sample.fund_d Sample.cohort4 = Ok sA
        /\ _score_long_term_performance_relative Sample.root5_centi
             Sample.fund_a Sample.cohort4 = Ok sB
        /\ sB <= sA)
  /\ (exists sA sB n' m',
        _score_stability_relative Sample.strptime_ymd Sample.noon
          Sample.fund_d Sample.cohort4 0%nat = (Ok sA, n')
        /\ _score_stability_relative Sample.strptime_ymd Sample.noon
             Sample.fund_a Sample.cohort4 0%nat = (Ok sB, m')
        /\ sB <= sA).
Proof.
  destruct (factor_scores_monotone Sample.root5_centi Sample.strptime_ymd Sample.noon
              root5_centi_mono noon_one_midnight
              Sample.fund_d Sample.fund_a Sample.cohort4 0%nat 0%nat)
    as (Hfee & Hscale & Hshort & Hlong & Hbench & Hstab).
  split.
  { apply (Hfee 0.005 0.0098); reflexivity. }
  split.
  { apply Hscale. reflexivity. }
  split.
  { apply (Hshort 10 4.12); reflexivity. }
  split.
  { apply (Hbench 1.5 (-5.07)); reflexivity. }
  split.
  { destruct (Hlong 60 35.5) as [_ Hs]; try reflexivity.
    eexists _, _. split; [vm_compute; reflexivity|]. split; [vm_compute; reflexivity|].
    apply Hs; vm_compute; reflexivity. }
  destruct (Hstab "2015-06-01"%string "2020-03-20"%string 735750%Z 737504%Z)
    as [_ Hs]; try reflexivity.
  exact Hs.
Defined.

(** C2, as the claim has it, fails on the stability dimension.  The clock is
    read again for every age; when it is set back over midnight while the
    cohort is scored, the fund established a day earlier gets the lower
    percentile and the lower score. *)
Lemma earlier_date_can_score_lower :
  exists dE dF pE pF sE sF,
    establish_date Sample.fund_e = Some "2016-11-03"%string
    /\ establish_date Sample.fund_f = Some "2016-11-04"%string
    /\ Sample.strptime_ymd "2016-11-03" = Some dE
    /\ Sample.strptime_ymd "2016-11-04" = Some dF
    /\ (dE < dF)%Z
    /\ stability_percentile Sample.strptime_ymd Sample.set_back
         Sample.fund_e [Sample.fund_e; Sample.fund_f] 0%nat = (Ok (Some pE), 3%nat)
    /\ stability_percentile Sample.strptime_ymd Sample.set_back
         Sample.fund_f [Sample.fund_e; Sample.fund_f] 3%nat = (Ok (Some pF), 6%nat)
    /\ pE < pF
    /\ _score_stability_relative Sample.strptime_ymd Sample.set_back
         Sample.fund_e [Sample.fund_e; Sample.fund_f] 0%nat = (Ok sE, 3%nat)
    /\ _score_stability_relative Sample.strptime_ymd Sample.set_back
         Sample.fund_f [Sample.fund_e; Sample.fund_f] 3%nat = (Ok sF, 6%nat)
    /\ sE == 8.5 /\ sF == 15.
Proof.
  eexists _, _, _, _, _, _.
  split; [reflexivity|]. split; [reflexivity|].
  split; [vm_compute; reflexivity|]. split; [vm_compute; reflexivity|].
  split; [reflexivity|].
  split; [vm_compute; reflexivity|]. split; [vm_compute; reflexivity|].
  split; [reflexivity|].
  split; [vm_compute; reflexivity|]. split; [vm_compute; reflexivity|].
  split; reflexivity.
Qed.

(** ** Long-term performance: the five-year return alone *)

Lemma present_app {A : Type} (g : FundData -> option A) (l1 l2 : list FundData) :
  present g (l1 ++ l2) = present g l1 ++ present g l2.
Proof.
  induction l1 as [|f l1 IH]; simpl; [reflexivity|].
  destruct (g f); simpl; congruence.
Qed.

Lemma present_return_5year_set_return_3year (vs : FundData -> option Q) (l : list FundData) :
  present return_5year (map (fun f => set_return_3year (vs f) f) l)
  = present return_5year l.
Proof.
  induction l as [|f l IH]; simpl; [reflexivity|].
  destruct (return_5year f); simpl; congruence.
Qed.

(** C7. In the long-term score only the five-year return is compared, as
    the annualized value [(1 + r/100) ** (1/5) - 1]: a fund without a
    five-year return adds nothing to the pool that the other funds are
    compared with, itself receives exactly the default 12, and the
    three-year returns of the fund and of the cohort play no part. *)
Theorem long_term_uses_five_year_only
    (root5 : Q -> Q) (fund : FundData) (all_funds : list FundData) :
  (forall g l1 l2,
     return_5year g = None ->
     all_funds = l1 ++ g :: l2 ->
     _score_long_term_performance_relative root5 fund all_funds
     = _score_long_term_performance_relative root5 fund (l1 ++ l2))
  /\
  (return_5year fund = None ->
   _score_long_term_performance_relative root5 fund all_funds = Ok 12)
  /\
  (forall vs : FundData -> option Q,
     _score_long_term_performance_relative root5
       (set_return_3year (vs fund) fund)
       (map (fun f => set_return_3year (vs f) f) all_funds)
     = _score_long_term_performance_relative root5 fund all_funds)
  /\
  (forall r5 v,
     return_5year fund = Some r5 ->
     present return_5year all_funds <> [] ->
     _score_long_term_performance_relative root5 fund all_funds = Ok v ->
     exists n,
       count_if_r (fun r => py_le r (annualized_pct root5 r5))
         (map (annualized_pct root5) (present return_5year all_funds)) = Ok n
       /\ v = long_term_band (ratio n (length (present return_5year all_funds)))).
Proof.
  split.
  { intros g l1 l2 Hg ->. unfold _score_long_term_performance_relative.
    rewrite !present_app. simpl. rewrite Hg. reflexivity. }
  split.
  { intros H. unfold _score_long_term_performance_relative. rewrite H.
    destruct (is_nil _); reflexivity. }
  split.
  { intros vs. unfold _score_long_term_performance_relative.
    rewrite present_return_5year_set_return_3year. reflexivity. }
  intros r5 v H5 Hne. unfold _score_long_term_performance_relative. rewrite H5.
  destruct (present return_5year all_funds) as [|x xs] eqn:Hp; [congruence|].
  cbn [map is_nil].
  destruct (count_if_r _ _) as [n|e]; [|discriminate].
  intros [= <-]. exists n. split; [reflexivity|].
  rewrite length_map. reflexivity.
Qed.

Lemma long_term_uses_five_year_only_witness :
  _score_long_term_performance_relative Sample.root5_centi Sample.fund_a Sample.cohort
  = _score_long_term_performance_relative Sample.root5_centi Sample.fund_a
      [Sample.fund_a; Sample.fund_c]
  /\ _score_long_term_performance_relative Sample.root5_centi Sample.fund_b Sample.cohort
     = Ok 12.
Proof.
  destruct (long_term_uses_five_year_only Sample.root5_centi Sample.fund_a Sample.cohort)
    as (Hpool & _).
  destruct (long_term_uses_five_year_only Sample.root5_centi Sample.fund_b Sample.cohort)
    as (_ & Hdefault & _).
  split.
  - apply (Hpool Sample.fund_b [Sample.fund_a] [Sample.fund_c]); reflexivity.
  - apply Hdefault. reflexivity.
Defined.

(** ** Stability: dates that do not parse *)

Section MalformedDate.

Variable strptime : string -> option Z.
Variable clock : nat -> Z.

Lemma collect_ages_app (l1 l2 : list FundData) (n : nat) :
  collect_ages strptime clock (l1 ++ l2) n =
  match collect_ages strptime clock l1 n with
  | (Ok ages1, n1) =>
      match collect_ages strptime clock l2 n1 with
      | (Ok ages2, n2) => (Ok (ages1 ++ ages2), n2)
      | (Raise e, n2) => (Raise e, n2)
      end
  | (Raise e, n1) => (Raise e, n1)
  end.
Proof.
  revert n. induction l1 as [|f l1 IH]; intros n; simpl.
  - destruct (collect_ages strptime clock l2 n) as [[ages|e] n2]; reflexivity.
  - destruct (establish_date f) as [s|]; [|apply IH].
    destruct (str_truthy s); [|apply IH].
    destruct (strptime s) as [d|]; [|apply IH].
    rewrite !run_bind, run_age_years, !run_bind, IH.
    destruct (collect_ages strptime clock l1 (S n)) as [[ages1|e] n1]; [|reflexivity].
    rewrite ?run_ret.
    destruct (collect_ages strptime clock l2 n1) as [[ages2|e] n2];
      rewrite ?run_ret; reflexivity.
Qed.

(** A fund whose date does not parse leaves the pool of ages, and the
    clock, as they are without it. *)
Lemma collect_ages_skips_malformed (g : FundData) (s : string) (l1 l2 : list FundData) (n : nat) :
  establish_date g = Some s -> strptime s = None ->
  collect_ages strptime clock (l1 ++ g :: l2) n
  = collect_ages strptime clock (l1 ++ l2) n.
Proof.
  intros Hs Hp. rewrite !collect_ages_app.
  destruct (collect_ages strptime clock l1 n) as [[ages1|e] n1]; [|reflexivity].
  simpl. rewrite Hs, Hp. destruct (str_truthy s); reflexivity.
Qed.

(** C10. A fund whose [establish_date] is a non-empty string that does not
    parse raises nothing in the stability score: the pool of ages is the one
    of the cohort without it, so the scores of the other funds ignore it,
    and the fund itself receives the default 8, from the relative function
    as from the absolute one. *)
Theorem malformed_date_is_neutral (fund : FundData) (s : string) :
  establish_date fund = Some s ->
  s <> ""%string ->
  strptime s = None ->
  (forall all_funds n,
     exists n', _score_stability_relative strptime clock fund all_funds n = (Ok 8, n'))
  /\ (forall l1 l2 n,
        collect_ages strptime clock (l1 ++ fund :: l2) n
        = collect_ages strptime clock (l1 ++ l2) n)
  /\ (forall other l1 l2 n,
        _score_stability_relative strptime clock other (l1 ++ fund :: l2) n
        = _score_stability_relative strptime clock other (l1 ++ l2) n)
  /\ (forall n, _score_stability strptime clock (Some s) n = (Ok 8, n)).
Proof.
  intros Hs Hne Hp.
  assert (Ht : str_truthy s = true) by (destruct s; [congruence | reflexivity]).
  split.
  { intros all_funds n. unfold _score_stability_relative. rewrite run_bind.
    destruct (collect_ages_returns strptime clock all_funds n) as (ages & n' & ->).
    rewrite Hs, Ht, Hp. destruct (is_nil ages); rewrite run_ret; eauto. }
  split.
  { intros l1 l2 n. exact (collect_ages_skips_malformed fund s l1 l2 n Hs Hp). }
  split.
  { intros other l1 l2 n. unfold _score_stability_relative.
    rewrite !run_bind, (collect_ages_skips_malformed fund s l1 l2 n Hs Hp).
    reflexivity. }
  intros n. unfold _score_stability. rewrite Ht, Hp. reflexivity.
Qed.

End MalformedDate.

Lemma malformed_date_is_neutral_witness :
  Sample.strptime_ymd "2021-02-04T00:00:00" = None
  /\ (exists n', _score_stability_relative Sample.strptime_ymd Sample.noon
                  Sample.fund_b Sample.cohort 0%nat = (Ok 8, n'))
  /\ _score_stability_relative Sample.strptime_ymd Sample.noon
       Sample.fund_a Sample.cohort 0%nat
     = _score_stability_relative Sample.strptime_ymd Sample.noon
         Sample.fund_a [Sample.fund_a; Sample.fund_c] 0%nat.
Proof.
  destruct (malformed_date_is_neutral Sample.strptime_ymd Sample.noon
              Sample.fund_b "2021-02-04T00:00:00")
    as (Hself & _ & Hother & _); [reflexivity | discriminate | reflexivity |].
  split; [reflexivity|]. split.
  - apply Hself.
  - apply (Hother Sample.fund_a [Sample.fund_a] [Sample.fund_c]).
Defined.

(** ** What the scores owe to the clock *)

Section TwoClocks.

Variable root5 : Q -> Q.
Variable strptime : string -> option Z.
Variables clock1 clock2 : nat -> Z.

(** Corresponding readings of the two clocks fall on the same day. *)
Hypothesis same_days : forall k, Z.div (clock1 k) 86400 = Z.div (clock2 k) 86400.

Lemma age_years_days date_obj n :
  age_years clock1 date_obj n = age_years clock2 date_obj n.
Proof. rewrite !run_age_years, !timedelta_days_day, same_days. reflexivity. Qed.

Lemma collect_ages_days all_funds n :
  collect_ages strptime clock1 all_funds n = collect_ages strptime clock2 all_funds n.
Proof.
  revert n. induction all_funds as [|f rest IH]; intros n; simpl; [reflexivity|].
  destruct (establish_date f) as [s|]; [|apply IH].
  destruct (str_truthy s); [|apply IH].
  destruct (strptime s) as [d|]; [|apply IH].
  rewrite !run_bind, age_years_days.
  destruct (age_years clock2 d n) as [[y|e] n1]; [|reflexivity].
  rewrite !run_bind, IH. reflexivity.
Qed.

Lemma _score_stability_relative_days fund all_funds n :
  _score_stability_relative strptime clock1 fund all_funds n
  = _score_stability_relative strptime clock2 fund all_funds n.
Proof.
  unfold _score_stability_relative. rewrite !run_bind, collect_ages_days.
  destruct (collect_ages strptime clock2 all_funds n) as [[ages|e] n1]; [|reflexivity].
  destruct (is_nil ages); [reflexivity|].
  destruct (establish_date fund) as [s|]; [|reflexivity].
  destruct (str_truthy s); [|reflexivity].
  destruct (strptime s) as [d|]; [|reflexivity].
  rewrite !run_bind, age_years_days. reflexivity.
Qed.

Lemma score_fund_days fund all_funds n :
  score_fund root5 strptime clock1 fund all_funds n
  = score_fund root5 strptime clock2 fund all_funds n.
Proof.
  unfold score_fund. rewrite !run_bind.
  destruct (lift _ n) as [[long|e] n1]; [|reflexivity].
  rewrite !run_bind, _score_stability_relative_days. reflexivity.
Qed.

Lemma score_loop_days todo all_funds n :
  Main.score_loop root5 strptime clock1 todo all_funds n
  = Main.score_loop root5 strptime clock2 todo all_funds n.
Proof.
  revert n. induction todo as [|f rest IH]; intros n; simpl; [reflexivity|].
  rewrite !run_bind, score_fund_days.
  destruct (score_fund root5 strptime clock2 f (Some all_funds) n) as [[[s b]|e] n1];
    [|reflexivity].
  rewrite !run_bind, IH. reflexivity.
Qed.

(** C9, as the code has it.  The scores are a function of the cohort and of
    the days on which the successive readings of the clock fall: two runs
    whose corresponding readings fall on the same days return the same
    scores, fund by fund and for the whole ranking. *)
Theorem scores_depend_on_reading_days
    (fund : FundData) (all_funds : option (list FundData)) (funds : list FundData) (n : nat) :
  score_fund root5 strptime clock1 fund all_funds n
  = score_fund root5 strptime clock2 fund all_funds n
  /\ Main.rank_funds root5 strptime clock1 funds n
     = Main.rank_funds root5 strptime clock2 funds n.
Proof.
  split; [apply score_fund_days|].
  unfold Main.rank_funds. rewrite !run_bind, score_loop_days. reflexivity.
Qed.

End TwoClocks.

Lemma scores_depend_on_reading_days_witness :
  score_fund Sample.root5_centi Sample.strptime_ymd (Sample.clock_at 739923 0)
    Sample.fund_a (Some Sample.cohort) 0%nat
  = score_fund Sample.root5_centi Sample.strptime_ymd (Sample.clock_at 739923 86399)
      Sample.fund_a (Some Sample.cohort) 0%nat.
Proof.
  apply (scores_depend_on_reading_days Sample.root5_centi Sample.strptime_ymd
           (Sample.clock_at 739923 0) (Sample.clock_at 739923 86399)
           (fun k => eq_refl) Sample.fund_a (Some Sample.cohort) Sample.cohort 0%nat).
Defined.

(** C9, as the claim has it, fails: the clock is read again for every age.
    Started one second before midnight, the run that scores [fund_f] reads
    the clock on both sides of midnight and returns another total than the
    run in which the first reading is held fixed. *)
Lemma current_moment_is_not_held_fixed :
  Sample.ticking Sample.before_midnight 0 = Sample.clock_at 739923 86399 0
  /\ (exists v1 v2 n1 n2,
        _score_stability_relative Sample.strptime_ymd
          (Sample.ticking Sample.before_midnight)
          Sample.fund_f [Sample.fund_e; Sample.fund_f] 0%nat = (Ok v1, n1)
        /\ _score_stability_relative Sample.strptime_ymd
             (Sample.clock_at 739923 86399)
             Sample.fund_f [Sample.fund_e; Sample.fund_f] 0%nat = (Ok v2, n2)
        /\ v1 == 15 /\ v2 == 8.5)
  /\ (exists t1 t2,
        returned_total
          (score_fund Sample.root5_centi Sample.strptime_ymd
             (Sample.ticking Sample.before_midnight)
             Sample.fund_f (Some [Sample.fund_e; Sample.fund_f]) 0%nat) = Some t1
        /\ returned_total
             (score_fund Sample.root5_centi Sample.strptime_ymd
                (Sample.clock_at 739923 86399)
                Sample.fund_f (Some [Sample.fund_e; Sample.fund_f]) 0%nat) = Some t2
        /\ ~ t1 == t2).
Proof.
  split; [reflexivity|]. split.
  - eexists _, _, _, _.
    split; [vm_compute; reflexivity|]. split; [vm_compute; reflexivity|].
    split; reflexivity.
  - eexists _, _.
    split; [vm_compute; reflexivity|]. split; [vm_compute; reflexivity|].
    vm_compute. discriminate.
Qed.

(** ** The batch orchestrator *)

Section BatchFacts.
Import Morningstar.

Variable max_concurrent : nat.
Variable fetch : string -> gathered.

Lemma successes_app (l1 l2 : list string) :
  successes fetch (l1 ++ l2) = successes fetch l1 ++ successes fetch l2.
Proof.
  induction l1 as [|c l1 IH]; simpl; [reflexivity|].
  destruct (fetch c) as [[f|]| |]; simpl; congruence.
Qed.

Lemma raised_app (l1 l2 : list string) :
  raised fetch (l1 ++ l2) = raised fetch l1 ++ raised fetch l2.
Proof.
  induction l1 as [|c l1 IH]; simpl; [reflexivity|].
  destruct (fetch c) as [[f|]| |]; simpl; congruence.
Qed.

(** The loop over the results of one batch, started at position [k]. *)
Lemma collect_from (batch : list string) (k : nat) (rest : list string)
    (funds : list collected) (failed : list string) :
  drop k batch = rest ->
  foldl (fun '(funds, failed) '(j, result) =>
           match result with
           | Raised => (funds, failed ++ [default ""%string (batch !! j)])
           | Returned (Some fund) => (funds ++ [Entity fund], failed)
           | Cancelled => (funds ++ [CancelledError], failed)
           | Returned None => (funds, failed)
           end)
        (funds, failed) (imap (fun j result => ((k + j)%nat, result)) (fetch <$> rest))
  = (funds ++ successes fetch rest, failed ++ raised fetch rest).
Proof.
  revert k funds failed. induction rest as [|c rest IH]; intros k funds failed Hdrop.
  - simpl. rewrite !app_nil_r. reflexivity.
  - assert (Hc : batch !! (k + 0)%nat = Some c).
    { rewrite <- lookup_drop, Hdrop. reflexivity. }
    assert (Hrest : drop (S k) batch = rest).
    { replace (S k) with (k + 1)%nat by lia.
      rewrite <- (drop_drop batch 1 k), Hdrop. reflexivity. }
    cbn [fmap list_fmap imap foldl successes raised].
    rewrite (imap_ext _ (fun j result => ((S k + j)%nat, result)))
      by (intros; simpl; f_equal; lia).
    rewrite Hc. cbn [default].
    destruct (fetch c) as [[f|]| |]; rewrite (IH (S k) _ _ Hrest).
    + rewrite <- app_assoc. reflexivity.
    + reflexivity.
    + rewrite <- app_assoc. reflexivity.
    + rewrite <- app_assoc. reflexivity.
Qed.

Lemma collect_batch (batch : list string) (st : list collected * list string) :
  collect batch (fetch <$> batch) st
  = (st.1 ++ successes fetch batch, st.2 ++ raised fetch batch).
Proof.
  destruct st as [funds failed]. unfold collect.
  exact (collect_from batch 0 batch funds failed eq_refl).
Qed.

(** [k] batches from the [a]-th one cover the next [k * batch_size] codes. *)
Lemma batches_cover (fund_codes : list string) (k a : nat) (st : list collected * list string) :
  foldl (fun st i =>
           let batch := take max_concurrent (drop i fund_codes) in
           let batch_results := fetch <$> batch in
           collect batch batch_results st)
        st ((fun j => (j * max_concurrent)%nat) <$> seq a k)
  = (st.1 ++ successes fetch (take (k * max_concurrent) (drop (a * max_concurrent) fund_codes)),
     st.2 ++ raised fetch (take (k * max_concurrent) (drop (a * max_concurrent) fund_codes))).
Proof.
  revert a st. induction k as [|k IH]; intros a st.
  - simpl. rewrite !app_nil_r. destruct st; reflexivity.
  - cbn [seq fmap list_fmap foldl]. cbv zeta. rewrite collect_batch, IH. cbn [fst snd].
    replace (S k * max_concurrent)%nat with (max_concurrent + k * max_concurrent)%nat by lia.
    rewrite <- (take_take_drop (drop (a * max_concurrent) fund_codes)
                  max_concurrent (k * max_concurrent)).
    rewrite drop_drop, successes_app, raised_app, !app_assoc.
    replace (a * max_concurrent + max_concurrent)%nat with (S a * max_concurrent)%nat by lia.
    reflexivity.
Qed.

Lemma batches_reach_the_end (total : nat) :
  (0 < max_concurrent)%nat ->
  (total <= Nat.div (total + max_concurrent - 1) max_concurrent * max_concurrent)%nat.
Proof.
  intros Hpos.
  pose proof (Nat.div_mod_eq (total + max_concurrent - 1) max_concurrent) as Hdm.
  pose proof (Nat.mod_upper_bound (total + max_concurrent - 1) max_concurrent) as Hub.
  nia.
Qed.

(** With a positive batch size the run visits every code once, in order. *)
Lemma batch_run_spec (fund_codes : list string) :
  (0 < max_concurrent)%nat ->
  batch_run max_concurrent fetch fund_codes
  = Ok (successes fetch fund_codes, raised fetch fund_codes).
Proof.
  intros Hpos. unfold batch_run.
  destruct (Nat.eqb_spec max_concurrent 0) as [->|_]; [lia|].
  unfold range_step. rewrite batches_cover. cbn [fst snd app].
  rewrite Nat.mul_0_l, drop_0, take_ge
    by (apply batches_reach_the_end; exact Hpos).
  reflexivity.
Qed.

End BatchFacts.

Section ClientBatch.
Import Morningstar.

Variable fund_names : gmap string string.
Variable api : provider.

Lemma get_fund_data_code (fund_code : string) (f : FundData) :
  get_fund_data fund_names api fund_code = Some f -> code f = fund_code.
Proof.
  unfold get_fund_data.
  destruct (_fetch_api (common_data_ep api fund_code)) as [cd|]; [|discriminate].
  destruct (common_truthy cd); [|discriminate].
  destruct (extract_performance _) as [perf|]; [|discriminate].
  intros [= <-]. reflexivity.
Qed.

(** A 404 on the [common-data] endpoint makes the whole fetch fail. *)
Lemma get_fund_data_not_found (fund_code : string) :
  common_data_ep api fund_code = HttpStatusError 404 ->
  get_fund_data fund_names api fund_code = None.
Proof. intros H. unfold get_fund_data. rewrite H. reflexivity. Qed.

Lemma successes_client (fund_codes : list string) :
  successes (client_fetch fund_names api) fund_codes
  = Entity <$> omap (get_fund_data fund_names api) fund_codes.
Proof.
  induction fund_codes as [|c rest IH]; [reflexivity|].
  cbn [successes omap list_omap]. unfold client_fetch at 1.
  destruct (get_fund_data fund_names api c); rewrite IH; reflexivity.
Qed.

Lemma raised_client (fund_codes : list string) :
  raised (client_fetch fund_names api) fund_codes = [].
Proof. induction fund_codes as [|c rest IH]; simpl; [reflexivity | exact IH]. Qed.

Lemma codes_of_fetched (fund_codes : list string) :
  map code (omap (get_fund_data fund_names api) fund_codes)
  = filter (fun c => is_Some (get_fund_data fund_names api c)) fund_codes.
Proof.
  induction fund_codes as [|c rest IH]; [reflexivity|].
  cbn [omap list_omap]. rewrite filter_cons.
  destruct (get_fund_data fund_names api c) as [f|] eqn:Hc.
  - rewrite decide_True by eauto. cbn [map].
    rewrite (get_fund_data_code c f Hc), IH. reflexivity.
  - rewrite decide_False by (intros [? ?]; discriminate). exact IH.
Qed.

Lemma entities_for_fetched (c : string) (fund_codes : list string) :
  entities_for c (omap (get_fund_data fund_names api) fund_codes)
  = match get_fund_data fund_names api c with
    | Some _ => count_if (fun c' => String.eqb c' c) fund_codes
    | None => 0%nat
    end.
Proof.
  unfold entities_for.
  induction fund_codes as [|c' rest IH].
  - destruct (get_fund_data fund_names api c); reflexivity.
  - cbn [omap list_omap count_if].
    destruct (get_fund_data fund_names api c') as [f'|] eqn:Hc'; cbn [count_if].
    + rewrite (get_fund_data_code c' f' Hc'), IH.
      destruct (String.eqb_spec c' c) as [->|Hne].
      * rewrite Hc'. reflexivity.
      * destruct (get_fund_data fund_names api c); reflexivity.
    + rewrite IH. destruct (String.eqb_spec c' c) as [->|Hne].
      * rewrite Hc'. reflexivity.
      * reflexivity.
Qed.

(** C3, as the code has it.  The orchestrator fetches every position of the
    identifier sequence, duplicates included: what it returns are entities,
    and their codes are the identifiers whose fetch succeeds, in input order
    and with their multiplicity. *)
Theorem batch_keeps_duplicates (max_concurrent : nat) (fund_codes : list string) :
  (0 < max_concurrent)%nat ->
  exists funds,
    batch_get_fund_data max_concurrent (client_fetch fund_names api) fund_codes
    = Ok (Entity <$> funds)
    /\ funds = omap (get_fund_data fund_names api) fund_codes
    /\ map code funds
       = filter (fun c => is_Some (get_fund_data fund_names api c)) fund_codes
    /\ forall c,
         entities_for c funds
         = match get_fund_data fund_names api c with
           | Some _ => count_if (fun c' => String.eqb c' c) fund_codes
           | None => 0%nat
           end.
Proof.
  intros Hpos. exists (omap (get_fund_data fund_names api) fund_codes).
  split.
  { unfold batch_get_fund_data. rewrite batch_run_spec by exact Hpos.
    rewrite successes_client. reflexivity. }
  split; [reflexivity|].
  split; [apply codes_of_fetched|].
  intros c. apply entities_for_fetched.
Qed.

(** C5, as the code has it.  A failed fetch never aborts the batch: the
    orchestrator returns the entities whose fetch succeeded, in input order,
    and nothing else: no failure list is part of the result and no failure
    is classified.  With three identifiers of which the second is unknown to
    the provider (404), the two other entities are returned. *)
Theorem batch_returns_successes_only (max_concurrent : nat) (fund_codes : list string) :
  (0 < max_concurrent)%nat ->
  batch_get_fund_data max_concurrent (client_fetch fund_names api) fund_codes
  = Ok (Entity <$> omap (get_fund_data fund_names api) fund_codes)
  /\ forall a b c fa fc,
       fund_codes = [a; b; c] ->
       get_fund_data fund_names api a = Some fa ->
       common_data_ep api b = HttpStatusError 404 ->
       get_fund_data fund_names api c = Some fc ->
       batch_get_fund_data max_concurrent (client_fetch fund_names api) fund_codes
       = Ok [Entity fa; Entity fc].
Proof.
  intros Hpos.
  assert (Hrun : batch_run max_concurrent (client_fetch fund_names api) fund_codes
                 = Ok (Entity <$> omap (get_fund_data fund_names api) fund_codes, [])).
  { rewrite batch_run_spec by exact Hpos.
    rewrite successes_client, raised_client. reflexivity. }
  split.
  { unfold batch_get_fund_data. rewrite Hrun. reflexivity. }
  intros a b c fa fc -> Ha Hb Hc.
  unfold batch_get_fund_data. rewrite Hrun. cbn [omap list_omap].
  rewrite Ha, (get_fund_data_not_found b Hb), Hc. reflexivity.
Qed.

End ClientBatch.

Lemma batch_keeps_duplicates_witness :
  exists funds,
    Morningstar.batch_get_fund_data 10 Sample.sample_fetch
      ["515890"; "999999"; "515890"]%string = Ok (Morningstar.Entity <$> funds)
    /\ map code funds = ["515890"; "515890"]%string.
Proof.
  destruct (batch_keeps_duplicates ∅ Sample.sample_api 10
              ["515890"; "999999"; "515890"]%string)
    as (funds & Hrun & _ & Hcodes & _); [lia|].
  exists funds. split; [exact Hrun|]. rewrite Hcodes. reflexivity.
Defined.

(** C3, as the claim has it, fails: on the identifiers A, B, A the returned
    collection holds two entities for A. *)
Lemma batch_does_not_deduplicate :
  exists funds,
    Morningstar.batch_get_fund_data 10 Sample.sample_fetch ["A"; "B"; "A"]%string
    = Ok (Morningstar.Entity <$> funds)
    /\ map code funds = ["A"; "B"; "A"]%string
    /\ Morningstar.entities_for "A" funds = 2%nat
    /\ Morningstar.entities_for "B" funds = 1%nat.
Proof.
  exists (omap (Morningstar.get_fund_data ∅ Sample.sample_api) ["A"; "B"; "A"]%string).
  split; [vm_compute; reflexivity|].
  repeat split; reflexivity.
Qed.

Lemma batch_returns_successes_only_witness :
  exists fa fc,
    Morningstar.batch_get_fund_data 10 Sample.sample_fetch
      ["515890"; "999999"; "000001"]%string
    = Ok [Morningstar.Entity fa; Morningstar.Entity fc]
    /\ code fa = "515890"%string /\ code fc = "000001"%string.
Proof.
  destruct (batch_returns_successes_only ∅ Sample.sample_api 10
              ["515890"; "999999"; "000001"]%string) as (_ & H); [lia|].
  eexists _, _. split.
  - apply (H "515890" "999999" "000001")%string; reflexivity.
  - split; reflexivity.
Defined.

(** C5, as the claim has it, fails: with one identifier out of three
    answered by a 404, two entities are collected but the failure list of
    the run is empty, and only the entities are returned. *)
Lemma not_found_is_not_listed :
  Morningstar.common_data_ep Sample.sample_api "999999" = Morningstar.HttpStatusError 404
  /\ exists funds failed,
       Morningstar.batch_run 10 Sample.sample_fetch
         ["515890"; "999999"; "000001"]%string = Ok (funds, failed)
       /\ length funds = 2%nat
       /\ length failed = 0%nat.
Proof.
  split; [reflexivity|].
  eexists _, _. split; [vm_compute; reflexivity|].
  split; reflexivity.
Qed.

(** ** Normalization: units of the fees and of the returns *)

Lemma round_half_even_close (x : Q) :
  Qabs (inject_Z (round_half_even x) - x) <= 1 # 2.
Proof.
  pose proof (Qfloor_le x) as Hlo. pose proof (Qlt_floor x) as Hhi.
  rewrite inject_Z_plus in Hhi. change (inject_Z 1) with 1 in Hhi.
  apply Qabs_Qle_condition. unfold round_half_even.
  destruct (Qcompare_spec (x - inject_Z (Qfloor x)) (1 # 2)) as [He|Hl|Hg].
  - destruct (Z.even (Qfloor x)); rewrite ?inject_Z_plus;
      change (inject_Z 1) with 1; split; lra.
  - split; lra.
  - rewrite inject_Z_plus. change (inject_Z 1) with 1. split; lra.
Qed.

(** Rounding to two decimals moves a value by half a hundredth at most: it
    does not change its unit. *)
Lemma round2_close (x : Q) : Qabs (round2 x - x) <= 0.005.
Proof.
  pose proof (round_half_even_close (x * 100)) as H.
  apply Qabs_Qle_condition in H. apply Qabs_Qle_condition.
  unfold round2. qconst. split; lra.
Qed.

Section Normalization.
Import Morningstar.

Lemma extract_performance_spec (performance_data : option performance_data)
    (info : performance_info) :
  extract_performance performance_data = Some info ->
  pi_yearly_return info = round2 <$> reported returns_field YTD performance_data
  /\ pi_return_3year info = round2 <$> reported returns_field Y3 performance_data
  /\ pi_return_5year info = round2 <$> reported returns_field Y5 performance_data
  /\ match reported returns_field YTD performance_data,
           reported benchmarkReturns_field YTD performance_data with
     | Some y, Some b =>
         pi_beats_benchmark info = Some (negb (Qle_bool y b))
         /\ pi_beats_benchmark_amount info = Some (round2 (y - b))
     | _, _ =>
         pi_beats_benchmark info = None /\ pi_beats_benchmark_amount info = None
     end.
Proof.
  unfold extract_performance, reported.
  destruct performance_data as [pd|]; [|intros [= <-]; repeat split].
  destruct (performance_truthy pd); [|intros [= <-]; repeat split].
  destruct (dayEnd pd) as [| |day_end]; cbn; [intros [= <-]; repeat split | discriminate |].
  destruct (returns_field day_end) as [| |returns]; cbn; [|discriminate|].
  - destruct (benchmarkReturns_field day_end) as [| |bench]; cbn;
      [|discriminate|]; intros [= <-]; repeat split.
  - destruct (benchmarkReturns_field day_end) as [| |bench]; cbn; [|discriminate|].
    + destruct (YTD returns); intros [= <-]; repeat split.
    + destruct (YTD returns) as [y|], (YTD bench) as [b|];
        intros [= <-]; repeat split.
Qed.

Variable fund_names : gmap string string.
Variable api : provider.

(** The fields that a fetched entity owes to the fee and performance
    objects. *)
Lemma get_fund_data_fields (fund_code : string) (f : FundData) :
  get_fund_data fund_names api fund_code = Some f ->
  let fees_info := _extract_fees_data (_fetch_api (fees_ep api fund_code)) in
  exists perf,
    extract_performance (_fetch_api (performance_ep api fund_code)) = Some perf
    /\ management_fee f = fi_management_fee fees_info
    /\ custody_fee f = fi_custody_fee fees_info
    /\ subscription_fee f = Some (fi_subscription_fee fees_info)
    /\ redemption_fee f = Some (fi_redemption_fee fees_info)
    /\ sales_service_fee f = Some (fi_sales_service_fee fees_info)
    /\ transaction_cost f = Some (fi_transaction_cost fees_info)
    /\ other_fees f = Some (fi_other_fees fees_info)
    /\ total_annual_fee f = Some (fi_total_annual_fee fees_info)
    /\ yearly_return f = pi_yearly_return perf
    /\ return_3year f = pi_return_3year perf
    /\ return_5year f = pi_return_5year perf
    /\ beats_benchmark f = pi_beats_benchmark perf
    /\ beats_benchmark_amount f = pi_beats_benchmark_amount perf.
Proof.
  unfold get_fund_data.
  destruct (_fetch_api (common_data_ep api fund_code)) as [cd|]; [|discriminate].
  destruct (common_truthy cd); [|discriminate].
  destruct (extract_performance _) as [perf|]; [|discriminate].
  intros [= <-]. exists perf. repeat split.
Qed.

(** C8. In a fetched entity the excess return and the beats-benchmark flag
    come from the two year-to-date figures of the provider when both are
    there; when one is missing, the benchmark's in particular, both fields
    are absent and the excess-return score of the entity is the default 5
    in every cohort. *)
Theorem excess_return_needs_both_returns (fund_code : string) (f : FundData) :
  get_fund_data fund_names api fund_code = Some f ->
  let performance_data := _fetch_api (performance_ep api fund_code) in
  match reported returns_field YTD performance_data,
        reported benchmarkReturns_field YTD performance_data with
  | Some y, Some b =>
      beats_benchmark f = Some (negb (Qle_bool y b))
      /\ beats_benchmark_amount f = Some (round2 (y - b))
  | _, _ =>
      beats_benchmark f = None
      /\ beats_benchmark_amount f = None
      /\ forall all_funds, _score_beats_benchmark_relative f all_funds = 5
  end.
Proof.
  intros Hf performance_data.
  destruct (get_fund_data_fields fund_code f Hf)
    as (perf & Hperf & _ & _ & _ & _ & _ & _ & _ & _ & _ & _ & _ & Hb & Ha).
  apply extract_performance_spec in Hperf as (_ & _ & _ & Hspec).
  fold performance_data in Hspec.
  assert (Hscore : beats_benchmark_amount f = None ->
                   forall all_funds, _score_beats_benchmark_relative f all_funds = 5).
  { intros Hn all_funds. unfold _score_beats_benchmark_relative. rewrite Hn.
    destruct (is_nil _); reflexivity. }
  destruct (reported returns_field YTD performance_data) as [y|];
    [destruct (reported benchmarkReturns_field YTD performance_data) as [b|]|];
    destruct Hspec as [Hb' Ha']; rewrite Hb, Ha; auto.
  - split; [exact Hb'|]. split; [exact Ha'|]. apply Hscore. congruence.
  - split; [exact Hb'|]. split; [exact Ha'|]. apply Hscore. congruence.
Qed.

End Normalization.

Lemma excess_return_needs_both_returns_witness :
  exists f,
    Morningstar.get_fund_data ∅ Sample.sample_api "000001" = Some f
    /\ beats_benchmark f = None
    /\ beats_benchmark_amount f = None
    /\ _score_beats_benchmark_relative f [f] = 5.
Proof.
  destruct (Morningstar.get_fund_data ∅ Sample.sample_api "000001") as [f|] eqn:Hf.
  2: { vm_compute in Hf. discriminate. }
  exists f. split; [reflexivity|].
  assert (H := excess_return_needs_both_returns ∅ Sample.sample_api "000001" f Hf).
  cbv zeta in H.
  set (r1 := Morningstar.reported Morningstar.returns_field Morningstar.YTD _) in H.
  set (r2 := Morningstar.reported Morningstar.benchmarkReturns_field Morningstar.YTD _) in H.
  assert (E1 : r1 = Some 4.12) by reflexivity.
  assert (E2 : r2 = None) by reflexivity.
  rewrite E1, E2 in H. cbv beta iota in H.
  destruct H as (Hb & Ha & Hs).
  split; [exact Hb|]. split; [exact Ha|]. apply Hs.
Defined.

Section Units.
Import Morningstar.

Variable fund_names : gmap string string.
Variable api : provider.

(** C6, as the code has it.  In a fetched entity the five annual fee rates
    read from the provider are divided by 100 (with 0.15 and 0.05 standing
    in for a missing or null management or custody rate), the subscription
    and redemption fees are 0 and the total is the sum of the five; the
    three returns are the provider's percentages rounded to two decimals,
    at most 0.005 away from the reported figure, and are not divided. *)
Theorem fees_are_fractions_returns_stay_percentages (fund_code : string) (f : FundData) :
  get_fund_data fund_names api fund_code = Some f ->
  let performance_data := _fetch_api (performance_ep api fund_code) in
  (forall fd fees,
     _fetch_api (fees_ep api fund_code) = Some fd ->
     fees_field fd = Some fees ->
     fees_obj_truthy fees = true ->
     management_fee f = or_default (managementFee fees) 0.15 / 100
     /\ custody_fee f = or_default (custodianFee fees) 0.05 / 100
     /\ sales_service_fee f = Some (or_default (distributionFee fees) 0 / 100)
     /\ transaction_cost f = Some (or_default (tradeCost fees) 0 / 100)
     /\ other_fees f = Some (or_default (otherCost fees) 0 / 100)
     /\ subscription_fee f = Some 0
     /\ redemption_fee f = Some 0
     /\ total_annual_fee f
        = Some (or_default (managementFee fees) 0.15 / 100
                + or_default (custodianFee fees) 0.05 / 100
                + or_default (distributionFee fees) 0 / 100
                + or_default (tradeCost fees) 0 / 100
                + or_default (otherCost fees) 0 / 100))
  /\ yearly_return f = round2 <$> reported returns_field YTD performance_data
  /\ return_3year f = round2 <$> reported returns_field Y3 performance_data
  /\ return_5year f = round2 <$> reported returns_field Y5 performance_data
  /\ (forall x, Qabs (round2 x - x) <= 0.005).
Proof.
  intros Hf performance_data.
  destruct (get_fund_data_fields fund_names api fund_code f Hf)
    as (perf & Hperf & Hm & Hc & Hsub & Hred & Hsal & Htr & Hoth & Htot & Hy & H3 & H5 & _).
  apply extract_performance_spec in Hperf as (Hy' & H3' & H5' & _).
  split.
  { intros fd fees Hfd Hfees Htruthy.
    rewrite Hm, Hc, Hsub, Hred, Hsal, Htr, Hoth, Htot.
    unfold _extract_fees_data. rewrite Hfd, Hfees, Htruthy.
    repeat split. }
  rewrite Hy, H3, H5, Hy', H3', H5'.
  repeat split. apply round2_close.
Qed.

End Units.

Lemma fees_are_fractions_returns_stay_percentages_witness :
  exists f,
    Morningstar.get_fund_data ∅ Sample.sample_api "515890" = Some f
    /\ yearly_return f
       = round2 <$> Morningstar.reported Morningstar.returns_field Morningstar.YTD
                      (Morningstar._fetch_api
                         (Morningstar.performance_ep Sample.sample_api "515890"))
    /\ Qabs (round2 4.12 - 4.12) <= 0.005.
Proof.
  destruct (Morningstar.get_fund_data ∅ Sample.sample_api "515890") as [f|] eqn:Hf.
  2: { vm_compute in Hf. discriminate. }
  exists f. split; [reflexivity|].
  destruct (fees_are_fractions_returns_stay_percentages ∅ Sample.sample_api
              "515890" f Hf) as (_ & Hy & _ & _ & Hclose).
  split; [exact Hy | apply Hclose].
Defined.

(** C6, as the claim has it, fails: the fee reported as 0.5 (percent) is
    stored as 0.005, but the year-to-date return reported as 4.12 (percent)
    is stored as 4.12, not as 0.0412. *)
Lemma returns_are_not_converted :
  Morningstar.reported Morningstar.returns_field Morningstar.YTD
    (Morningstar._fetch_api (Morningstar.performance_ep Sample.sample_api "515890"))
  = Some 4.12
  /\ exists f v,
       Morningstar.get_fund_data ∅ Sample.sample_api "515890" = Some f
       /\ management_fee f == 0.5 / 100
       /\ yearly_return f = Some v
       /\ v == 4.12
       /\ ~ v == 4.12 / 100.
Proof.
  split; [reflexivity|].
  eexists _, _. split; [vm_compute; reflexivity|].
  split; [reflexivity|]. split; [reflexivity|]. split; [reflexivity|].
  vm_compute. discriminate.
Qed.

(** ** The ranking *)

Section Sorting.
Import Main.

Lemma insert_desc_perm (x : scored) (l : list scored) :
  Permutation (insert_desc x l) (x :: l).
Proof.
  induction l as [|y l IH]; simpl; [reflexivity|].
  destruct (Qle_bool (score y) (score x)); [reflexivity|].
  rewrite IH. apply perm_swap.
Qed.

Lemma sort_by_score_desc_perm (l : list scored) :
  Permutation (sort_by_score_desc l) l.
Proof.
  induction l as [|x l IH]; simpl; [reflexivity|].
  rewrite insert_desc_perm, IH. reflexivity.
Qed.

Lemma insert_desc_sorted (x : scored) (l : list scored) :
  Sorted desc l -> Sorted desc (insert_desc x l).
Proof.
  induction 1 as [|y l Hl IH Hy]; simpl.
  - repeat constructor.
  - destruct (Qle_bool (score y) (score x)) eqn:E.
    + apply Qle_bool_iff in E. repeat constructor; assumption.
    + apply Qle_bool_false in E. constructor; [exact IH|].
      destruct l as [|z l]; simpl.
      * constructor. unfold desc. lra.
      * destruct (Qle_bool (score z) (score x)).
        -- constructor. unfold desc. lra.
        -- constructor. inversion Hy. assumption.
Qed.

Lemma sort_by_score_desc_sorted (l : list scored) :
  StronglySorted desc (sort_by_score_desc l).
Proof.
  apply Sorted_StronglySorted.
  { intros x y z Hxy Hyz. unfold desc in *. lra. }
  induction l as [|x l IH]; simpl; [constructor|].
  apply insert_desc_sorted, IH.
Qed.

(** Insertion does not disturb the order in which the elements of one score
    appear. *)
Lemma insert_desc_stable (q : Q) (x : scored) (l : list scored) :
  List.filter (fun y => Qeq_bool (score y) q) (insert_desc x l)
  = List.filter (fun y => Qeq_bool (score y) q) (x :: l).
Proof.
  induction l as [|y l IH]; [reflexivity|].
  cbn [insert_desc]. destruct (Qle_bool (score y) (score x)) eqn:E; [reflexivity|].
  apply Qle_bool_false in E.
  cbn [List.filter] in *. rewrite IH.
  destruct (Qeq_bool (score x) q) eqn:Ex, (Qeq_bool (score y) q) eqn:Ey; try reflexivity.
  apply Qeq_bool_iff in Ex. apply Qeq_bool_iff in Ey. lra.
Qed.

Lemma sort_by_score_desc_stable (q : Q) (l : list scored) :
  List.filter (fun y => Qeq_bool (score y) q) (sort_by_score_desc l)
  = List.filter (fun y => Qeq_bool (score y) q) l.
Proof.
  induction l as [|x l IH]; [reflexivity|].
  cbn [sort_by_score_desc foldr]. rewrite insert_desc_stable.
  cbn [List.filter]. fold (sort_by_score_desc l). rewrite IH. reflexivity.
Qed.

Variable root5 : Q -> Q.
Variable strptime : string -> option Z.
Variable clock : nat -> Z.

Lemma score_loop_funds (todo all_funds : list FundData) (n n' : nat) (scored_funds : list scored) :
  score_loop root5 strptime clock todo all_funds n = (Ok scored_funds, n') ->
  map fund scored_funds = todo.
Proof.
  revert n scored_funds. induction todo as [|f rest IH]; intros n scored_funds; simpl.
  - intros [= <- _]. reflexivity.
  - rewrite run_bind.
    destruct (score_fund root5 strptime clock f (Some all_funds) n) as [[[s b]|e] n1];
      [|discriminate].
    rewrite run_bind.
    destruct (score_loop root5 strptime clock rest all_funds n1) as [[l|e] n2] eqn:Hl;
      [|discriminate].
    rewrite run_ret. intros [= <- ->]. simpl. f_equal. exact (IH _ _ Hl).
Qed.

(** C4, as the code has it.  The ranked sequence holds the scored funds of
    the cohort, sorted by score in descending order; funds with the same
    score keep the order they had in the fetched collection. *)
Theorem ranking_is_descending_and_stable (funds : list FundData) (n n' : nat)
    (ranked : list scored) :
  rank_funds root5 strptime clock funds n = (Ok ranked, n') ->
  exists scored_funds,
    score_loop root5 strptime clock funds funds n = (Ok scored_funds, n')
    /\ map fund scored_funds = funds
    /\ Permutation ranked scored_funds
    /\ StronglySorted (fun x y => score y <= score x) ranked
    /\ forall q,
         List.filter (fun x => Qeq_bool (score x) q) ranked
         = List.filter (fun x => Qeq_bool (score x) q) scored_funds.
Proof.
  unfold rank_funds. rewrite run_bind.
  destruct (score_loop root5 strptime clock funds funds n) as [[scored_funds|e] n1] eqn:Hl;
    [|discriminate].
  rewrite run_ret. intros [= <- <-]. exists scored_funds.
  split; [reflexivity|].
  split; [exact (score_loop_funds _ _ _ _ _ Hl)|].
  split; [apply sort_by_score_desc_perm|].
  split; [apply sort_by_score_desc_sorted|].
  intros q. apply sort_by_score_desc_stable.
Qed.

End Sorting.

Lemma ranking_is_descending_and_stable_witness :
  exists ranked n',
    Main.rank_funds Sample.root5_centi Sample.strptime_ymd Sample.noon
      Sample.cohort 0%nat = (Ok ranked, n')
    /\ StronglySorted (fun x y => Main.score y <= Main.score x) ranked
    /\ Permutation (map Main.fund ranked) Sample.cohort.
Proof.
  destruct (Main.rank_funds Sample.root5_centi Sample.strptime_ymd Sample.noon
              Sample.cohort 0%nat) as [[ranked|e] n'] eqn:Hrun.
  2: { vm_compute in Hrun. discriminate. }
  exists ranked, n'. split; [reflexivity|].
  destruct (ranking_is_descending_and_stable Sample.root5_centi Sample.strptime_ymd
              Sample.noon Sample.cohort 0%nat n' ranked Hrun)
    as (scored_funds & _ & Hfunds & Hperm & Hsorted & _).
  split; [exact Hsorted|].
  rewrite <- Hfunds. apply Permutation_map. exact Hperm.
Defined.

(** C4, as the claim has it, fails: two funds with the same score come out
    in the order in which they came in.  Fetched as B then A they are ranked
    B then A, although A is the smaller identifier; fetched as A then B they
    are ranked A then B. *)
Lemma ties_keep_input_order :
  exists s,
    Main.ranking_of
      (Main.rank_funds Sample.root5_centi Sample.strptime_ymd Sample.noon
         [Sample.fund_B; Sample.fund_A] 0%nat)
    = Some [("B"%string, s); ("A"%string, s)]
    /\ String.ltb "A" "B" = true
    /\ Main.ranking_of
         (Main.rank_funds Sample.root5_centi Sample.strptime_ymd Sample.noon
            [Sample.fund_A; Sample.fund_B] 0%nat)
       = Some [("A"%string, s); ("B"%string, s)].
Proof.
  eexists. split; [vm_compute; reflexivity|].
  split; [reflexivity|]. vm_compute. reflexivity.
Qed.

(** * Further properties of the code *)

(** ** The absolute scoring functions *)

Lemma Qlt_bool_iff (x y : Q) : Qlt_bool x y = true <-> x < y.
Proof.
  unfold Qlt_bool. destruct (Qle_bool y x) eqn:E; simpl.
  - apply Qle_bool_iff in E. split; [discriminate | lra].
  - apply Qle_bool_false in E. tauto.
Qed.

Lemma Qlt_bool_false (x y : Q) : Qlt_bool x y = false -> y <= x.
Proof.
  unfold Qlt_bool. destruct (Qle_bool y x) eqn:E; simpl; [|discriminate].
  intros _. apply Qle_bool_iff. exact E.
Qed.

(** Case analysis on the comparisons of a scoring function, then on its
    [min] and [max]. *)
Ltac cmp_cases :=
  repeat match goal with
  | |- context [ Qlt_bool ?a ?b ] =>
      let E := fresh "E" in
      destruct (Qlt_bool a b) eqn:E;
      [ apply Qlt_bool_iff in E | apply Qlt_bool_false in E ]
  | |- context [ Qle_bool ?a ?b ] =>
      let E := fresh "E" in
      destruct (Qle_bool a b) eqn:E;
      [ apply Qle_bool_iff in E | apply Qle_bool_false in E ]
  end;
  cbn [andb negb].

Ltac minmax_cases :=
  repeat match goal with
  | |- context [ Qmax ?a ?b ] =>
      let H := fresh "Hmax" in
      destruct (Q.max_spec a b) as [[? H] | [? H]]; rewrite H; clear H
  | |- context [ Qmin ?a ?b ] =>
      let H := fresh "Hmin" in
      destruct (Q.min_spec a b) as [[? H] | [? H]]; rewrite H; clear H
  end.

(** X1. The absolute fee score is never negative and is at most 15 for a
    fee that is not negative.  A negative fee is not refused: a fee at or
    below 0 scores 15 or more. *)
Theorem _score_fees_within_cap (fee : Q) :
  0 <= _score_fees (Some fee)
  /\ (0 <= fee -> _score_fees (Some fee) <= 15)
  /\ (fee <= 0 -> 15 <= _score_fees (Some fee)).
Proof.
  unfold _score_fees. cmp_cases; minmax_cases; qconst;
    (split; [lra | split; intros; lra]).
Qed.

Lemma _score_fees_within_cap_witness :
  _score_fees (Some 0.002) <= 15 /\ 15 <= _score_fees (Some (-0.001)).
Proof.
  split.
  - apply (_score_fees_within_cap 0.002). discriminate.
  - apply (_score_fees_within_cap (-0.001)). discriminate.
Defined.

(** X2. The absolute fee score does not increase with the fee. *)
Theorem _score_fees_antitone (fee1 fee2 : Q) :
  fee1 <= fee2 -> _score_fees (Some fee2) <= _score_fees (Some fee1).
Proof.
  intros H. unfold _score_fees. cmp_cases; minmax_cases; qconst; lra.
Qed.

Lemma _score_fees_antitone_witness :
  _score_fees (Some 0.015) <= _score_fees (Some 0.002).
Proof. apply _score_fees_antitone. discriminate. Defined.

(** X3. The absolute scale score is at most 15 and equals 15 for every
    scale from 10 to 30.  It is not negative for a scale that is not
    negative; a negative scale is not refused, and a scale at or below 0
    scores 0 or less. *)
Theorem _score_scale_peak (scale : Q) :
  _score_scale scale <= 15
  /\ (0 <= scale -> 0 <= _score_scale scale)
  /\ (scale <= 0 -> _score_scale scale <= 0)
  /\ (10 <= scale <= 30 -> _score_scale scale == 15).
Proof.
  unfold _score_scale. cmp_cases; minmax_cases; qconst;
    (split; [lra | split; [intros; lra | split; intros; lra]]).
Qed.

Lemma _score_scale_peak_witness :
  0 <= _score_scale 4.61 /\ _score_scale (-2) <= 0 /\ _score_scale 30 == 15.
Proof.
  split; [|split].
  - apply (_score_scale_peak 4.61). discriminate.
  - apply (_score_scale_peak (-2)). discriminate.
  - apply (_score_scale_peak 30). split; discriminate.
Defined.

(** X4. The absolute short-term score lies between 0 and 20 for every
    return, disclosed or not. *)
Theorem _score_short_term_performance_bounds (yearly_return : option Q) :
  0 <= _score_short_term_performance yearly_return <= 20.
Proof.
  destruct yearly_return as [r|]; [|split; discriminate].
  unfold _score_short_term_performance. cmp_cases; minmax_cases; qconst; split; lra.
Qed.

(** X28. The absolute short-term score never goes down when the
    year-to-date return goes up. *)
Theorem _score_short_term_performance_monotone (r1 r2 : Q) :
  r1 <= r2 ->
  _score_short_term_performance (Some r1) <= _score_short_term_performance (Some r2).
Proof.
  intros H. unfold _score_short_term_performance. cmp_cases; minmax_cases; qconst; lra.
Qed.

Lemma _score_short_term_performance_monotone_witness :
  _score_short_term_performance (Some (-3)) <= _score_short_term_performance (Some 12.5).
Proof. apply _score_short_term_performance_monotone. discriminate. Defined.

Section AbsoluteLongTermFacts.

Variable root3 : Q -> Q.
Variable root5 : Q -> Q.

Lemma long_term_points_bounds (x v : Q) :
  long_term_points (PyFloat x) = Ok v -> 0 <= v <= 25.
Proof.
  unfold long_term_points. intros [= <-].
  cmp_cases; minmax_cases; qconst; split; lra.
Qed.

(** X5. The absolute long-term score looks at the five-year return when
    there is one and at the three-year return otherwise.  It raises
    [TypeError] exactly when that return is below -100% (the power is then
    complex); in every other case it returns a score between 0 and 25, the
    default 12 when neither return is disclosed. *)
Theorem _score_long_term_performance_cases (return_3year return_5year : option Q) :
  let used :=
    match return_5year with
    | Some r => Some r
    | None => return_3year
    end in
  match used with
  | None => _score_long_term_performance root3 root5 return_3year return_5year = Ok 12
  | Some r =>
      if Qlt_bool (1 + r / 100) 0
      then _score_long_term_performance root3 root5 return_3year return_5year
           = Raise TypeError
      else exists v,
             _score_long_term_performance root3 root5 return_3year return_5year = Ok v
             /\ 0 <= v <= 25
  end.
Proof.
  unfold _score_long_term_performance, annualized_pct_by, Qlt_bool.
  destruct return_5year as [r5|]; [|destruct return_3year as [r3|]]; cbn;
    try reflexivity.
  - destruct (Qle_bool 0 (1 + r5 / 100)); cbn; [|reflexivity].
    eexists. split; [reflexivity|]. eapply long_term_points_bounds. reflexivity.
  - destruct (Qle_bool 0 (1 + r3 / 100)); cbn; [|reflexivity].
    eexists. split; [reflexivity|]. eapply long_term_points_bounds. reflexivity.
Qed.

End AbsoluteLongTermFacts.

Section AbsoluteStability.

Variable strptime : string -> option Z.
Variable clock : nat -> Z.

(** X6. For a date that parses, the absolute stability score reads the clock
    once; it lies between 0 and 15 when the date is not after the day of the
    reading, equals 15 from 1827 days of age on, and is negative for a date
    in the future. *)
Theorem _score_stability_by_age (s : string) (date_obj : Z) (n : nat) :
  s <> ""%string ->
  strptime s = Some date_obj ->
  let days := timedelta_days (clock n) date_obj in
  exists v,
    _score_stability strptime clock (Some s) n = (Ok v, S n)
    /\ ((0 <= days)%Z -> 0 <= v <= 15)
    /\ ((1827 <= days)%Z -> v == 15)
    /\ ((days < 0)%Z -> v < 0).
Proof.
  intros Hne Hp days.
  assert (Ht : str_truthy s = true) by (destruct s; [congruence | reflexivity]).
  unfold _score_stability. rewrite Ht, Hp, run_bind, run_age_years, run_ret.
  fold days. eexists. split; [reflexivity|].
  assert (H0 : (0 <= days)%Z -> 0 <= inject_Z days).
  { intros H. rewrite <- (Zle_Qle 0). exact H. }
  assert (H1 : (1827 <= days)%Z -> 1827 <= inject_Z days).
  { intros H. rewrite <- (Zle_Qle 1827). exact H. }
  assert (H2 : (days < 0)%Z -> inject_Z days < 0).
  { intros H. rewrite Zlt_Qlt in H. exact H. }
  split; [|split].
  - intros H. apply H0 in H. clear H0 H1 H2.
    cmp_cases; minmax_cases; qconst; split; lra.
  - intros H. apply H1 in H. clear H0 H1 H2.
    cmp_cases; minmax_cases; qconst; lra.
  - intros H. apply H2 in H. clear H0 H1 H2.
    cmp_cases; minmax_cases; qconst; lra.
Qed.

End AbsoluteStability.

Lemma _score_stability_by_age_witness :
  exists v,
    _score_stability Sample.strptime_ymd Sample.noon (Some "2020-03-20"%string) 0%nat
    = (Ok v, 1%nat)
    /\ v == 15.
Proof.
  destruct (_score_stability_by_age Sample.strptime_ymd Sample.noon
              "2020-03-20" 737504 0%nat) as (v & Hrun & _ & Hcap & _);
    [discriminate | reflexivity |].
  exists v. split; [exact Hrun|]. apply Hcap. vm_compute. discriminate.
Defined.

(** ** The relative factor functions and the shape of the cohort *)

Lemma count_if_perm {A : Type} (p : A -> bool) (l l' : list A) :
  Permutation l l' -> count_if p l = count_if p l'.
Proof.
  induction 1 as [|x l l' _ IH|x y l|l l' l'' _ IH1 _ IH2]; simpl;
    [reflexivity | lia | lia | congruence].
Qed.

Lemma present_perm {A : Type} (g : FundData -> option A) (l l' : list FundData) :
  Permutation l l' -> Permutation (present g l) (present g l').
Proof.
  induction 1 as [|x l l' _ IH|x y l|l l' l'' _ IH1 _ IH2]; simpl.
  - reflexivity.
  - destruct (g x); [constructor|]; exact IH.
  - destruct (g x), (g y); try reflexivity. apply perm_swap.
  - etransitivity; eassumption.
Qed.

Lemma is_nil_perm {A : Type} (l l' : list A) :
  Permutation l l' -> is_nil l = is_nil l'.
Proof.
  intros H. destruct l as [|x l], l' as [|y l']; try reflexivity.
  - apply Permutation_nil_l in H. discriminate.
  - symmetry in H. apply Permutation_nil_l in H. discriminate.
Qed.

Lemma percentile_of_perm (keep : Q -> bool) (l l' : list Q) :
  Permutation l l' -> percentile_of keep l = percentile_of keep l'.
Proof.
  intros H. unfold percentile_of.
  rewrite (count_if_perm keep l l' H), (Permutation_length H). reflexivity.
Qed.

(** The comparisons of the long-term percentile only raise [TypeError]:
    their outcome does not depend on the order of the pool. *)
Lemma count_if_r_py_le_perm (v : pynum) (l l' : list pynum) :
  Permutation l l' ->
  count_if_r (fun r => py_le r v) l = count_if_r (fun r => py_le r v) l'.
Proof.
  induction 1 as [|x l l' _ IH|x y l|l l' l'' _ IH1 _ IH2]; simpl.
  - reflexivity.
  - rewrite IH. reflexivity.
  - destruct x as [x|], y as [y|], v as [v|]; simpl; try reflexivity.
    destruct (count_if_r _ l) as [k|e]; [|reflexivity].
    f_equal. destruct (Qle_bool x v), (Qle_bool y v); lia.
  - congruence.
Qed.

(** X7. The fee, scale, short-term, excess-return and long-term scores of a
    fund do not depend on the order in which the cohort is listed. *)
Theorem relative_scores_ignore_cohort_order
    (root5 : Q -> Q) (fund : FundData) (all_funds all_funds' : list FundData) :
  Permutation all_funds all_funds' ->
  _score_fees_relative fund all_funds = _score_fees_relative fund all_funds'
  /\ _score_scale_relative fund all_funds = _score_scale_relative fund all_funds'
  /\ _score_short_term_performance_relative fund all_funds
     = _score_short_term_performance_relative fund all_funds'
  /\ _score_beats_benchmark_relative fund all_funds
     = _score_beats_benchmark_relative fund all_funds'
  /\ _score_long_term_performance_relative root5 fund all_funds
     = _score_long_term_performance_relative root5 fund all_funds'.
Proof.
  intros H.
  unfold _score_fees_relative, _score_scale_relative,
    _score_short_term_performance_relative, _score_beats_benchmark_relative,
    _score_long_term_performance_relative.
  pose proof (present_perm total_annual_fee _ _ H) as Hfee.
  pose proof (present_perm yearly_return _ _ H) as Hret.
  pose proof (present_perm beats_benchmark_amount _ _ H) as Hexc.
  pose proof (present_perm return_5year _ _ H) as H5.
  pose proof (Permutation_map scale H) as Hscale.
  pose proof (Permutation_map deviation Hscale) as Hdev.
  pose proof (Permutation_map (annualized_pct root5) H5) as Hann.
  repeat split.
  - rewrite (is_nil_perm _ _ Hfee).
    destruct (is_nil _), (total_annual_fee fund); try reflexivity.
    rewrite (percentile_of_perm _ _ _ Hfee). reflexivity.
  - rewrite (is_nil_perm _ _ Hscale).
    destruct (is_nil _); [reflexivity|].
    rewrite (percentile_of_perm _ _ _ Hdev). reflexivity.
  - rewrite (is_nil_perm _ _ Hret).
    destruct (is_nil _), (yearly_return fund); try reflexivity.
    rewrite (percentile_of_perm _ _ _ Hret). reflexivity.
  - rewrite (is_nil_perm _ _ Hexc).
    destruct (is_nil _), (beats_benchmark_amount fund); try reflexivity.
    rewrite (percentile_of_perm _ _ _ Hexc). reflexivity.
  - rewrite (is_nil_perm _ _ Hann).
    destruct (is_nil _); [reflexivity|].
    destruct (return_5year fund) as [r5|]; [|reflexivity].
    rewrite (count_if_r_py_le_perm _ _ _ Hann), (Permutation_length Hann).
    reflexivity.
Qed.

Lemma relative_scores_ignore_cohort_order_witness :
  _score_fees_relative Sample.fund_a Sample.cohort
  = _score_fees_relative Sample.fund_a [Sample.fund_c; Sample.fund_b; Sample.fund_a]
  /\ _score_long_term_performance_relative Sample.root5_centi Sample.fund_a Sample.cohort
     = _score_long_term_performance_relative Sample.root5_centi Sample.fund_a
         [Sample.fund_c; Sample.fund_b; Sample.fund_a].
Proof.
  destruct (relative_scores_ignore_cohort_order Sample.root5_centi Sample.fund_a
              Sample.cohort [Sample.fund_c; Sample.fund_b; Sample.fund_a])
    as (Hfee & _ & _ & _ & Hlong).
  { unfold Sample.cohort. apply (Permutation_rev [Sample.fund_a; Sample.fund_b; Sample.fund_c]). }
  split; [exact Hfee | exact Hlong].
Defined.

Lemma count_if_all {A : Type} (p : A -> bool) (l : list A) :
  Forall (fun x => p x = true) l -> count_if p l = length l.
Proof.
  induction 1 as [|x l Hx _ IH]; simpl; [reflexivity|]. rewrite Hx, IH. reflexivity.
Qed.

Lemma ratio_full (n : nat) : (0 < n)%nat -> ratio n n == 1.
Proof.
  intros H. unfold ratio. apply Qmult_inv_r.
  intros E. unfold Qeq in E. simpl in E. lia.
Qed.

(** A percentile of 1 is worth the cap of the dimension. *)
Lemma bands_at_one (p : Q) :
  p == 1 ->
  fee_band p == 15 /\ scale_band p == 15 /\ short_term_band p == 20
  /\ long_term_band p == 25 /\ benchmark_band p == 10 /\ stability_band p == 15.
Proof.
  intros H.
  unfold fee_band, scale_band, short_term_band, long_term_band, benchmark_band,
    stability_band.
  repeat split; band_cases; max_cases; qconst; lra.
Qed.

Lemma percentile_of_all (keep : Q -> bool) (values : list Q) :
  values <> [] ->
  Forall (fun x => keep x = true) values ->
  percentile_of keep values == 1.
Proof.
  intros Hne Hall. unfold percentile_of. rewrite (count_if_all _ _ Hall).
  apply ratio_full. destruct values; [congruence | simpl; lia].
Qed.

Lemma Forall_Qle_bool_l (x : Q) (l : list Q) :
  Forall (fun y => x <= y) l -> Forall (fun y => Qle_bool x y = true) l.
Proof.
  intros H. eapply Forall_impl; [exact H|]. intros y. apply Qle_bool_iff.
Qed.

Lemma Forall_Qle_bool_r (x : Q) (l : list Q) :
  Forall (fun y => y <= x) l -> Forall (fun y => Qle_bool y x = true) l.
Proof.
  intros H. eapply Forall_impl; [exact H|]. intros y. apply Qle_bool_iff.
Qed.

(** X8. A fund that no fund of the cohort beats on a dimension receives the
    cap of that dimension: 15 for the lowest fee, 15 for the smallest
    distance to the ideal scale, 20 for the highest year-to-date return, 10
    for the highest excess return. *)
Theorem best_of_cohort_gets_the_cap (fund : FundData) (all_funds : list FundData) :
  (forall fee,
     total_annual_fee fund = Some fee ->
     present total_annual_fee all_funds <> [] ->
     Forall (fun f => fee <= f) (present total_annual_fee all_funds) ->
     _score_fees_relative fund all_funds == 15)
  /\ (all_funds <> [] ->
      Forall (fun g => deviation (scale fund) <= deviation (scale g)) all_funds ->
      _score_scale_relative fund all_funds == 15)
  /\ (forall r,
        yearly_return fund = Some r ->
        present yearly_return all_funds <> [] ->
        Forall (fun x => x <= r) (present yearly_return all_funds) ->
        _score_short_term_performance_relative fund all_funds == 20)
  /\ (forall e,
        beats_benchmark_amount fund = Some e ->
        present beats_benchmark_amount all_funds <> [] ->
        Forall (fun x => x <= e) (present beats_benchmark_amount all_funds) ->
        _score_beats_benchmark_relative fund all_funds == 10).
Proof.
  repeat split.
  - intros fee Hfee Hne Hall. unfold _score_fees_relative. rewrite Hfee.
    destruct (present total_annual_fee all_funds) as [|x xs] eqn:E; [congruence|].
    cbn [is_nil]. apply bands_at_one, percentile_of_all; [discriminate|].
    apply Forall_Qle_bool_l, Hall.
  - intros Hne Hall. unfold _score_scale_relative.
    destruct all_funds as [|g rest]; [congruence|]. cbn [map is_nil].
    apply bands_at_one, (percentile_of_all _ (deviation (scale g) :: _)); [discriminate|].
    apply Forall_Qle_bool_l.
    change (deviation (scale g) :: map deviation (map scale rest))
      with (map deviation (map scale (g :: rest))).
    rewrite map_map. apply Forall_map. exact Hall.
  - intros r Hr Hne Hall. unfold _score_short_term_performance_relative. rewrite Hr.
    destruct (present yearly_return all_funds) as [|x xs] eqn:E; [congruence|].
    cbn [is_nil]. apply bands_at_one, percentile_of_all; [discriminate|].
    apply Forall_Qle_bool_r, Hall.
  - intros e He Hne Hall. unfold _score_beats_benchmark_relative. rewrite He.
    destruct (present beats_benchmark_amount all_funds) as [|x xs] eqn:E; [congruence|].
    cbn [is_nil]. apply bands_at_one, percentile_of_all; [discriminate|].
    apply Forall_Qle_bool_r, Hall.
Qed.

Lemma best_of_cohort_gets_the_cap_witness :
  _score_fees_relative Sample.fund_b Sample.cohort == 15
  /\ _score_scale_relative Sample.fund_b Sample.cohort == 15.
Proof.
  destruct (best_of_cohort_gets_the_cap Sample.fund_b Sample.cohort)
    as (Hfee & Hscale & _).
  split.
  - apply (Hfee 0.002); [reflexivity | discriminate |].
    repeat constructor; discriminate.
  - apply Hscale; [discriminate|]. repeat constructor; discriminate.
Defined.

Section Alone.

Variable root5 : Q -> Q.
Variable strptime : string -> option Z.
Variable clock : nat -> Z.

Lemma _score_fees_relative_alone fund :
  _score_fees_relative fund [fund]
  == match total_annual_fee fund with Some _ => 15 | None => 8 end.
Proof.
  unfold _score_fees_relative. cbn [present].
  destruct (total_annual_fee fund) as [fee|]; cbn [is_nil]; [|reflexivity].
  apply bands_at_one, percentile_of_all; [discriminate|].
  repeat constructor. apply Qle_bool_iff, Qle_refl.
Qed.

Lemma _score_scale_relative_alone fund : _score_scale_relative fund [fund] == 15.
Proof.
  unfold _score_scale_relative. cbn [map is_nil].
  apply bands_at_one, percentile_of_all; [discriminate|].
  repeat constructor. apply Qle_bool_iff, Qle_refl.
Qed.

Lemma _score_short_term_performance_relative_alone fund :
  _score_short_term_performance_relative fund [fund]
  == match yearly_return fund with Some _ => 20 | None => 10 end.
Proof.
  unfold _score_short_term_performance_relative. cbn [present].
  destruct (yearly_return fund) as [r|]; cbn [is_nil]; [|reflexivity].
  apply bands_at_one, percentile_of_all; [discriminate|].
  repeat constructor. apply Qle_bool_iff, Qle_refl.
Qed.

Lemma _score_beats_benchmark_relative_alone fund :
  _score_beats_benchmark_relative fund [fund]
  == match beats_benchmark_amount fund with Some _ => 10 | None => 5 end.
Proof.
  unfold _score_beats_benchmark_relative. cbn [present].
  destruct (beats_benchmark_amount fund) as [e|]; cbn [is_nil]; [|reflexivity].
  apply bands_at_one, percentile_of_all; [discriminate|].
  repeat constructor. apply Qle_bool_iff, Qle_refl.
Qed.

Lemma _score_long_term_performance_relative_alone fund :
  (forall r, return_5year fund = Some r -> pow_is_real r) ->
  exists v,
    _score_long_term_performance_relative root5 fund [fund] = Ok v
    /\ v == match return_5year fund with Some _ => 25 | None => 12 end.
Proof.
  intros Hreal. unfold _score_long_term_performance_relative. cbn [present].
  destruct (return_5year fund) as [r|]; cbn [map is_nil].
  2: { eexists. split; reflexivity. }
  destruct (annualized_pct_real root5 r (Hreal r eq_refl)) as [x ->].
  cbn [count_if_r py_le].
  assert (Hx : Qle_bool x x = true) by apply Qle_bool_iff, Qle_refl.
  rewrite Hx. eexists. split; [reflexivity|].
  apply bands_at_one. reflexivity.
Qed.

Lemma _score_stability_relative_alone fund n :
  (Z.div (clock n) 86400 <= Z.div (clock (S n)) 86400)%Z ->
  exists v n',
    _score_stability_relative strptime clock fund [fund] n = (Ok v, n')
    /\ v == match establish_date fund with
            | Some s =>
                if str_truthy s
                then match strptime s with Some _ => 15 | None => 8 end
                else 8
            | None => 8
            end.
Proof.
  intros Hclock. unfold _score_stability_relative.
  rewrite run_bind, collect_ages_spec. cbn [parsed_dates].
  destruct (establish_date fund) as [s|].
  2: { cbn [ages_from is_nil]. rewrite run_ret. eexists _, _. split; reflexivity. }
  destruct (str_truthy s).
  2: { cbn [ages_from is_nil]. rewrite run_ret. eexists _, _. split; reflexivity. }
  destruct (strptime s) as [d|].
  2: { cbn [ages_from is_nil]. rewrite run_ret. eexists _, _. split; reflexivity. }
  cbn [ages_from is_nil length].
  replace (n + 1)%nat with (S n) by lia.
  rewrite run_bind, run_age_years, run_ret.
  eexists _, _. split; [reflexivity|].
  apply bands_at_one, percentile_of_all; [discriminate|].
  repeat constructor. apply age_le_days. rewrite !timedelta_days_day. lia.
Qed.

(** X9. A fund scored without a cohort is compared with itself alone: every
    dimension for which it has data is worth its cap, the others their
    default, so that the total goes from 58 to 100.  The five-year return
    is at least -100% and the clock does not step back a day between its
    two readings. *)
Theorem score_fund_alone (fund : FundData) (n : nat) :
  (forall r, return_5year fund = Some r -> pow_is_real r) ->
  (Z.div (clock n) 86400 <= Z.div (clock (S n)) 86400)%Z ->
  exists total scores n',
    score_fund root5 strptime clock fund None n = (Ok (total, scores), n')
    /\ total
       == match total_annual_fee fund with Some _ => 15 | None => 8 end
          + 15
          + match yearly_return fund with Some _ => 20 | None => 10 end
          + match return_5year fund with Some _ => 25 | None => 12 end
          + match beats_benchmark_amount fund with Some _ => 10 | None => 5 end
          + match establish_date fund with
            | Some s =>
                if str_truthy s
                then match strptime s with Some _ => 15 | None => 8 end
                else 8
            | None => 8
            end
    /\ 58 <= total <= 100.
Proof.
  intros Hreal Hclock.
  destruct (_score_long_term_performance_relative_alone fund Hreal) as (long & Hl & Hlong).
  destruct (_score_stability_relative_alone fund n Hclock) as (stab & n' & Hs & Hstab).
  pose proof (_score_fees_relative_alone fund) as Hfee.
  pose proof (_score_scale_relative_alone fund) as Hscale.
  pose proof (_score_short_term_performance_relative_alone fund) as Hshort.
  pose proof (_score_beats_benchmark_relative_alone fund) as Hbench.
  unfold score_fund. rewrite run_bind. unfold lift. rewrite Hl, run_bind, Hs, run_ret.
  eexists _, _, _. split; [reflexivity|].
  assert (Ht : 0 + _score_fees_relative fund [fund] + _score_scale_relative fund [fund]
               + _score_short_term_performance_relative fund [fund] + long
               + _score_beats_benchmark_relative fund [fund] + stab
               == match total_annual_fee fund with Some _ => 15 | None => 8 end
                  + 15
                  + match yearly_return fund with Some _ => 20 | None => 10 end
                  + match return_5year fund with Some _ => 25 | None => 12 end
                  + match beats_benchmark_amount fund with Some _ => 10 | None => 5 end
                  + match establish_date fund with
                    | Some s =>
                        if str_truthy s
                        then match strptime s with Some _ => 15 | None => 8 end
                        else 8
                    | None => 8
                    end).
  { rewrite Hfee, Hscale, Hshort, Hlong, Hbench, Hstab. ring. }
  split; [exact Ht|]. rewrite Ht.
  destruct (total_annual_fee fund), (yearly_return fund), (return_5year fund),
    (beats_benchmark_amount fund), (establish_date fund) as [s|];
    try destruct (str_truthy s); try destruct (strptime s);
    split; discriminate.
Qed.

End Alone.

Lemma score_fund_alone_witness :
  exists total,
    returned_total
      (score_fund Sample.root5_centi Sample.strptime_ymd Sample.noon
         Sample.fund_a None 0%nat) = Some total
    /\ total == 100.
Proof.
  destruct (score_fund_alone Sample.root5_centi Sample.strptime_ymd Sample.noon
              Sample.fund_a 0%nat) as (total & scores & n' & Hrun & Ht & _).
  { intros r [= <-]. vm_compute. discriminate. }
  { vm_compute. discriminate. }
  exists total. rewrite Hrun. split; [reflexivity | exact Ht].
Defined.

Lemma count_if_pos {A : Type} (p : A -> bool) (x : A) (l : list A) :
  In x l -> p x = true -> (1 <= count_if p l)%nat.
Proof.
  induction l as [|y l IH]; simpl; [tauto|].
  intros [->|Hin] Hp; [rewrite Hp; lia|].
  specialize (IH Hin Hp). destruct (p y); lia.
Qed.

Lemma ratio_pos (n len : nat) : (1 <= n)%nat -> (n <= len)%nat -> 0 < ratio n len.
Proof.
  intros H1 H2. unfold ratio. apply Qlt_shift_div_l.
  - rewrite <- (Zlt_Qlt 0). lia.
  - rewrite Qmult_0_l, <- (Zlt_Qlt 0). lia.
Qed.

Lemma percentile_of_pos (keep : Q -> bool) (x : Q) (values : list Q) :
  In x values -> keep x = true -> 0 < percentile_of keep values.
Proof.
  intros Hin Hk. apply ratio_pos; [exact (count_if_pos keep x values Hin Hk)|].
  apply count_if_le_length.
Qed.

Lemma present_In {A : Type} (g : FundData -> option A) (f : FundData) (v : A)
    (l : list FundData) :
  In f l -> g f = Some v -> In v (present g l).
Proof.
  induction l as [|h l IH]; simpl; [tauto|].
  intros [->|Hin] Hg.
  - rewrite Hg. left. reflexivity.
  - destruct (g h); [right|]; auto.
Qed.

(** A positive percentile earns points in every band table. *)
Lemma bands_pos (p : Q) :
  0 < p ->
  0 < fee_band p /\ 0 < scale_band p /\ 0 < short_term_band p
  /\ 0 < long_term_band p /\ 0 < benchmark_band p /\ 0 < stability_band p.
Proof.
  intros H.
  unfold fee_band, scale_band, short_term_band, long_term_band, benchmark_band,
    stability_band.
  repeat split; band_cases; max_cases; qconst; lra.
Qed.

(** X10. A fund that belongs to the cohort it is scored against never gets
    0 on the fee, scale, short-term, excess-return or long-term dimension:
    it always counts itself in its percentile. *)
Theorem cohort_member_scores_above_zero
    (root5 : Q -> Q) (fund : FundData) (all_funds : list FundData) :
  In fund all_funds ->
  0 < _score_fees_relative fund all_funds
  /\ 0 < _score_scale_relative fund all_funds
  /\ 0 < _score_short_term_performance_relative fund all_funds
  /\ 0 < _score_beats_benchmark_relative fund all_funds
  /\ forall v,
       _score_long_term_performance_relative root5 fund all_funds = Ok v -> 0 < v.
Proof.
  intros Hin.
  assert (Hrefl : forall x, Qle_bool x x = true) by (intros x; apply Qle_bool_iff, Qle_refl).
  repeat split.
  - unfold _score_fees_relative.
    destruct (total_annual_fee fund) as [fee|] eqn:E;
      [|destruct (is_nil _); reflexivity].
    destruct (is_nil _); [reflexivity|].
    apply bands_pos, (percentile_of_pos _ fee); [|apply Hrefl].
    exact (present_In total_annual_fee fund fee all_funds Hin E).
  - unfold _score_scale_relative. destruct (is_nil _); [reflexivity|].
    apply bands_pos, (percentile_of_pos _ (deviation (scale fund))); [|apply Hrefl].
    apply in_map, in_map, Hin.
  - unfold _score_short_term_performance_relative.
    destruct (yearly_return fund) as [r|] eqn:E;
      [|destruct (is_nil _); reflexivity].
    destruct (is_nil _); [reflexivity|].
    apply bands_pos, (percentile_of_pos _ r); [|apply Hrefl].
    exact (present_In yearly_return fund r all_funds Hin E).
  - unfold _score_beats_benchmark_relative.
    destruct (beats_benchmark_amount fund) as [e|] eqn:E;
      [|destruct (is_nil _); reflexivity].
    destruct (is_nil _); [reflexivity|].
    apply bands_pos, (percentile_of_pos _ e); [|apply Hrefl].
    exact (present_In beats_benchmark_amount fund e all_funds Hin E).
  - intros v. unfold _score_long_term_performance_relative.
    destruct (is_nil _) eqn:Hnil; [intros [= <-]; reflexivity|].
    destruct (return_5year fund) as [r|] eqn:E; [|intros [= <-]; reflexivity].
    destruct (count_if_r _ _) as [k|e] eqn:Hk; [|discriminate].
    intros [= <-]. pose proof (count_if_r_le_length _ _ _ Hk) as Hlen.
    destruct (count_if_r_ok _ _ _ (is_nil_false _ Hnil) Hk) as (x & xs & Hx & Hxs & ->).
    apply bands_pos, ratio_pos; [|exact Hlen].
    apply (count_if_pos _ x); [|apply Hrefl].
    assert (Hmem : In (annualized_pct root5 r)
                     (map (annualized_pct root5) (present return_5year all_funds))).
    { apply in_map. exact (present_In return_5year fund r all_funds Hin E). }
    rewrite Hxs, Hx in Hmem. apply in_map_iff in Hmem as (y & [= <-] & Hy). exact Hy.
Qed.

Lemma cohort_member_scores_above_zero_witness :
  0 < _score_fees_relative Sample.fund_c Sample.cohort
  /\ 0 < _score_scale_relative Sample.fund_c Sample.cohort.
Proof.
  destruct (cohort_member_scores_above_zero Sample.root5_centi Sample.fund_c Sample.cohort)
    as (Hfee & Hscale & _).
  { right. right. left. reflexivity. }
  split; [exact Hfee | exact Hscale].
Defined.

Lemma count_if_ext {A : Type} (p q : A -> bool) (l : list A) :
  (forall x, p x = q x) -> count_if p l = count_if q l.
Proof.
  intros H. induction l as [|x l IH]; simpl; [reflexivity|]. rewrite H, IH. reflexivity.
Qed.

Lemma percentile_of_ext (p q : Q -> bool) (values : list Q) :
  (forall x, p x = q x) -> percentile_of p values = percentile_of q values.
Proof. intros H. unfold percentile_of. rewrite (count_if_ext p q values H). reflexivity. Qed.

(** X11. Ties share their score: two funds whose fees are equal, whose
    scales are equally far from the ideal one, whose year-to-date returns or
    whose excess returns are equal receive the same score on that
    dimension. *)
Theorem equal_fields_share_the_score (A B : FundData) (all_funds : list FundData) :
  (forall a b,
     total_annual_fee A = Some a -> total_annual_fee B = Some b -> a == b ->
     _score_fees_relative A all_funds = _score_fees_relative B all_funds)
  /\ (deviation (scale A) == deviation (scale B) ->
      _score_scale_relative A all_funds = _score_scale_relative B all_funds)
  /\ (forall a b,
        yearly_return A = Some a -> yearly_return B = Some b -> a == b ->
        _score_short_term_performance_relative A all_funds
        = _score_short_term_performance_relative B all_funds)
  /\ (forall a b,
        beats_benchmark_amount A = Some a -> beats_benchmark_amount B = Some b -> a == b ->
        _score_beats_benchmark_relative A all_funds
        = _score_beats_benchmark_relative B all_funds).
Proof.
  repeat split.
  - intros a b HA HB Hab. unfold _score_fees_relative. rewrite HA, HB.
    destruct (is_nil _); [reflexivity|]. f_equal.
    apply percentile_of_ext. intros x. rewrite Hab. reflexivity.
  - intros Hab. unfold _score_scale_relative.
    destruct (is_nil _); [reflexivity|]. f_equal.
    apply percentile_of_ext. intros x. rewrite Hab. reflexivity.
  - intros a b HA HB Hab. unfold _score_short_term_performance_relative. rewrite HA, HB.
    destruct (is_nil _); [reflexivity|]. f_equal.
    apply percentile_of_ext. intros x. rewrite Hab. reflexivity.
  - intros a b HA HB Hab. unfold _score_beats_benchmark_relative. rewrite HA, HB.
    destruct (is_nil _); [reflexivity|]. f_equal.
    apply percentile_of_ext. intros x. rewrite Hab. reflexivity.
Qed.

Lemma equal_fields_share_the_score_witness :
  _score_scale_relative Sample.fund_d Sample.cohort4
  = _score_scale_relative
      (Sample.fund_of "159920" (Some 0.005) 32 None None None None None) Sample.cohort4.
Proof.
  destruct (equal_fields_share_the_score Sample.fund_d
              (Sample.fund_of "159920" (Some 0.005) 32 None None None None None)
              Sample.cohort4) as (_ & Hscale & _).
  apply Hscale. reflexivity.
Defined.

(** X12. The relative stability score reads the clock once for every fund
    of the cohort whose date parses and, unless none does, once more for the
    scored fund when its own date parses. *)
Theorem stability_clock_readings
    (strptime : string -> option Z) (clock : nat -> Z)
    (fund : FundData) (all_funds : list FundData) (n : nat) :
  snd (_score_stability_relative strptime clock fund all_funds n)
  = (n + length (parsed_dates strptime all_funds)
     + match parsed_dates strptime all_funds with
       | [] => 0
       | _ :: _ => length (parsed_dates strptime [fund])
       end)%nat.
Proof.
  unfold _score_stability_relative. rewrite run_bind, collect_ages_spec.
  destruct (parsed_dates strptime all_funds) as [|d rest]; cbn [ages_from is_nil length].
  - rewrite run_ret. cbn [snd]. lia.
  - cbn [parsed_dates].
    destruct (establish_date fund) as [s|]; [|rewrite run_ret; cbn [snd length]; lia].
    destruct (str_truthy s); [|rewrite run_ret; cbn [snd length]; lia].
    destruct (strptime s) as [d'|]; [|rewrite run_ret; cbn [snd length]; lia].
    rewrite run_bind, run_age_years, run_ret. cbn [snd length]. lia.
Qed.

(** ** What a fetched entity holds *)

Lemma round_half_even_sign (x : Q) :
  (0 <= x -> (0 <= round_half_even x)%Z) /\ (x <= 0 -> (round_half_even x <= 0)%Z).
Proof.
  pose proof (round_half_even_close x) as H. apply Qabs_Qle_condition in H.
  split; intros Hx.
  - assert (Hq : inject_Z (-1) < inject_Z (round_half_even x)).
    { change (inject_Z (-1)) with (-1). lra. }
    rewrite <- Zlt_Qlt in Hq. lia.
  - assert (Hq : inject_Z (round_half_even x) < inject_Z 1).
    { change (inject_Z 1) with 1. lra. }
    rewrite <- Zlt_Qlt in Hq. lia.
Qed.

Lemma round2_sign (x : Q) : (0 <= x -> 0 <= round2 x) /\ (x <= 0 -> round2 x <= 0).
Proof.
  destruct (round_half_even_sign (x * 100)) as [Hpos Hneg].
  unfold round2. split; intros Hx.
  - assert (H : (0 <= round_half_even (x * 100))%Z) by (apply Hpos; lra).
    rewrite Zle_Qle in H. qconst. change (inject_Z 0) with 0 in H. lra.
  - assert (H : (round_half_even (x * 100) <= 0)%Z) by (apply Hneg; lra).
    rewrite Zle_Qle in H. qconst. change (inject_Z 0) with 0 in H. lra.
Qed.



Section Entity.
Import Morningstar.

Variable fund_names : gmap string string.
Variable api : provider.

(** A successful fetch, taken apart. *)
Lemma get_fund_data_inv (fund_code : string) (f : FundData) :
  get_fund_data fund_names api fund_code = Some f ->
  exists cd perf,
    _fetch_api (common_data_ep api fund_code) = Some cd
    /\ common_truthy cd = true
    /\ extract_performance (_fetch_api (performance_ep api fund_code)) = Some perf
    /\ code f = fund_code
    /\ name f = or_str (fund_names !! fund_code)
                  (or_str (cd_name cd) (or_str (cd_fundName cd) ("基金" +:+ fund_code)))
    /\ fund_type f = Some (if exchange_traded fund_code then "场内" else "场外")%string
    /\ scale f = match cd_fundSize cd with
                 | Some fund_size_raw =>
                     if Qeq_bool fund_size_raw 0 then 0
                     else round2 (fund_size_raw / 100000000)
                 | None => 0
                 end.
Proof.
  unfold get_fund_data.
  destruct (_fetch_api (common_data_ep api fund_code)) as [cd|]; [|discriminate].
  destruct (common_truthy cd) eqn:Ht; [|discriminate].
  destruct (extract_performance _) as [perf|] eqn:Hp; [|discriminate].
  intros [= <-]. exists cd, perf. repeat split; assumption.
Qed.

(** X13. In a fetched entity the total annual fee is the sum of the
    management, custody, sales-service, transaction and other rates, whether
    they come from the provider or from the defaults; the subscription and
    redemption fees are 0. *)
Theorem total_annual_fee_is_the_sum (fund_code : string) (f : FundData) :
  get_fund_data fund_names api fund_code = Some f ->
  exists sales transaction other total,
    sales_service_fee f = Some sales
    /\ transaction_cost f = Some transaction
    /\ other_fees f = Some other
    /\ total_annual_fee f = Some total
    /\ total == management_fee f + custody_fee f + sales + transaction + other
    /\ subscription_fee f = Some 0
    /\ redemption_fee f = Some 0.
Proof.
  intros Hf.
  destruct (get_fund_data_fields fund_names api fund_code f Hf)
    as (perf & _ & Hm & Hc & Hsub & Hred & Hsal & Htr & Hoth & Htot & _).
  rewrite Hm, Hc, Hsub, Hred, Hsal, Htr, Hoth, Htot.
  eexists _, _, _, _. do 4 (split; [reflexivity|]).
  unfold _extract_fees_data.
  destruct (_fetch_api (fees_ep api fund_code)) as [fd|]; [|repeat split].
  destruct (fees_field fd) as [fees|]; [|repeat split].
  destruct (fees_obj_truthy fees); repeat split.
Qed.


(** X15. The performance and fee endpoints are optional: when the
    [common-data] object is there, a failed performance request still gives
    an entity, without returns, excess return or benchmark name; and an
    entity whose fee request failed carries the default fee profile. *)
Theorem optional_endpoints_degrade (fund_code : string) :
  (forall cd,
     _fetch_api (common_data_ep api fund_code) = Some cd ->
     common_truthy cd = true ->
     _fetch_api (performance_ep api fund_code) = None ->
     exists f,
       get_fund_data fund_names api fund_code = Some f
       /\ yearly_return f = None /\ return_3year f = None /\ return_5year f = None
       /\ beats_benchmark f = None /\ beats_benchmark_amount f = None
       /\ benchmark f = Some ""%string)
  /\ (forall f,
        get_fund_data fund_names api fund_code = Some f ->
        _fetch_api (fees_ep api fund_code) = None ->
        management_fee f = 0.0015 /\ custody_fee f = 0.0005
        /\ sales_service_fee f = Some 0 /\ transaction_cost f = Some 0
        /\ other_fees f = Some 0 /\ total_annual_fee f = Some 0.002).
Proof.
  split.
  - intros cd Hcd Ht Hperf. unfold get_fund_data. rewrite Hcd, Ht, Hperf.
    cbn. eexists. repeat split.
  - intros f Hf Hfees.
    destruct (get_fund_data_fields fund_names api fund_code f Hf)
      as (perf & _ & Hm & Hc & _ & _ & Hsal & Htr & Hoth & Htot & _).
    rewrite Hm, Hc, Hsal, Htr, Hoth, Htot, Hfees. repeat split.
Qed.

Lemma extract_performance_none (performance_data : option performance_data) :
  extract_performance performance_data = None
  <-> exists pd,
        performance_data = Some pd
        /\ performance_truthy pd = true /\ null_object pd = true.
Proof.
  destruct performance_data as [pd|]; cbn [extract_performance].
  2: { split; [discriminate | intros (pd & [=] & _)]. }
  split.
  - intros H. exists pd. split; [reflexivity|]. revert H. unfold null_object.
    destruct (performance_truthy pd); [|discriminate].
    destruct (dayEnd pd) as [| |d]; cbn; try discriminate; auto.
    destruct (returns_field d) as [| |r], (benchmarkReturns_field d) as [| |b]; cbn;
      try destruct (YTD r); try destruct (YTD b); try discriminate; auto.
  - intros (pd' & [= <-] & Ht & Hn). rewrite Ht. revert Hn. unfold null_object.
    destruct (dayEnd pd) as [| |d]; cbn; try discriminate; try reflexivity.
    destruct (returns_field d) as [| |r], (benchmarkReturns_field d) as [| |b]; cbn;
      try discriminate; reflexivity.
Qed.

(** X16. A fetch fails in three cases only: no [common-data] object came
    back, that object is empty, or the performance object holds a [null]
    where an object is expected. *)
Theorem get_fund_data_fails_iff (fund_code : string) :
  get_fund_data fund_names api fund_code = None
  <-> _fetch_api (common_data_ep api fund_code) = None
      \/ (exists cd,
            _fetch_api (common_data_ep api fund_code) = Some cd
            /\ common_truthy cd = false)
      \/ (exists pd,
            _fetch_api (performance_ep api fund_code) = Some pd
            /\ performance_truthy pd = true /\ null_object pd = true).
Proof.
  pose proof (extract_performance_none (_fetch_api (performance_ep api fund_code))) as Hperf.
  unfold get_fund_data.
  destruct (_fetch_api (common_data_ep api fund_code)) as [cd|]; [|tauto].
  destruct (common_truthy cd) eqn:Ht.
  - destruct (extract_performance _) as [perf|] eqn:Hp.
    + split; [discriminate|]. intros [H|[(cd' & [= <-] & H)|H]]; [discriminate|congruence|].
      apply Hperf in H. discriminate.
    + split; [|reflexivity]. intros _. right. right. apply Hperf. reflexivity.
  - split; [|reflexivity]. intros _. right. left. eauto.
Qed.

End Entity.

Lemma total_annual_fee_is_the_sum_witness :
  exists f total,
    Morningstar.get_fund_data ∅ Sample.sample_api "515890" = Some f
    /\ total_annual_fee f = Some total
    /\ total == 0.0083.
Proof.
  destruct (Morningstar.get_fund_data ∅ Sample.sample_api "515890") as [f|] eqn:Hf.
  2: { vm_compute in Hf. discriminate. }
  destruct (total_annual_fee_is_the_sum ∅ Sample.sample_api "515890" f Hf)
    as (sales & transaction & other & total & Hs & Ht & Ho & Htot & Hsum & _).
  exists f, total. split; [reflexivity|]. split; [exact Htot|].
  rewrite Hsum. vm_compute in Hf. injection Hf as <-.
  injection Hs as <-. injection Ht as <-. injection Ho as <-. reflexivity.
Defined.


Lemma optional_endpoints_degrade_witness :
  exists f,
    Morningstar.get_fund_data ∅ Sample.degraded_api "515890" = Some f
    /\ yearly_return f = None
    /\ total_annual_fee f = Some 0.002.
Proof.
  destruct (optional_endpoints_degrade ∅ Sample.degraded_api "515890") as [Hperf Hfees].
  destruct (Morningstar._fetch_api (Morningstar.common_data_ep Sample.degraded_api "515890"))
    as [cd|] eqn:Hcd.
  2: { vm_compute in Hcd. discriminate. }
  destruct (Hperf cd eq_refl) as (f & Hf & Hy & _).
  { vm_compute in Hcd. injection Hcd as <-. reflexivity. }
  { reflexivity. }
  exists f. split; [exact Hf|]. split; [exact Hy|].
  apply (Hfees f Hf). reflexivity.
Defined.

Lemma get_fund_data_fails_iff_witness :
  Morningstar.get_fund_data ∅ Sample.sample_api "999999" = None.
Proof.
  apply (get_fund_data_fails_iff ∅ Sample.sample_api "999999"). left. reflexivity.
Defined.

Section EntityFields.
Import Morningstar.

Variable fund_names : gmap string string.
Variable api : provider.

Lemma or_str_truthy (a : option string) (b : string) :
  b <> ""%string -> or_str a b <> ""%string.
Proof.
  intros Hb. unfold or_str. destruct a as [s|]; [|exact Hb].
  destruct s; [exact Hb | discriminate].
Qed.

Lemma or_str_first (s b : string) : s <> ""%string -> or_str (Some s) b = s.
Proof. intros Hs. destruct s; [congruence | reflexivity]. Qed.

(** X17. The name of a fetched entity is never empty.  A non-empty entry of
    the name file wins; without one, a non-empty [name] of the provider is
    used. *)
Theorem fetched_name_is_never_empty (fund_code : string) (f : FundData) :
  get_fund_data fund_names api fund_code = Some f ->
  name f <> ""%string
  /\ (forall nm, fund_names !! fund_code = Some nm -> nm <> ""%string -> name f = nm)
  /\ (forall cd nm,
        fund_names !! fund_code = None ->
        _fetch_api (common_data_ep api fund_code) = Some cd ->
        cd_name cd = Some nm -> nm <> ""%string -> name f = nm).
Proof.
  intros Hf.
  destruct (get_fund_data_inv fund_names api fund_code f Hf)
    as (cd & perf & Hcd & _ & _ & _ & Hname & _).
  rewrite Hname. split; [|split].
  - do 3 apply or_str_truthy. discriminate.
  - intros nm -> Hnm. apply or_str_first, Hnm.
  - intros cd' nm -> Hcd' Hn Hnm. assert (cd' = cd) as -> by congruence.
    rewrite Hn. cbn [or_str]. apply or_str_first, Hnm.
Qed.

Lemma prefix_159_15 (fund_code : string) :
  String.prefix "159" fund_code = true -> String.prefix "15" fund_code = true.
Proof.
  destruct fund_code as [|a [|b [|c rest]]]; cbn -[ascii_dec]; try discriminate;
    repeat (destruct (ascii_dec _ _); try discriminate); reflexivity.
Qed.

(** X18. A fetched entity is exchange-traded exactly when its code starts
    with 51, 588, 16 or 15, and over-the-counter otherwise; the prefix 159
    of the source is covered by 15. *)
Theorem fund_type_by_prefix (fund_code : string) (f : FundData) :
  get_fund_data fund_names api fund_code = Some f ->
  fund_type f
  = Some (if String.prefix "51" fund_code || String.prefix "588" fund_code
             || String.prefix "16" fund_code || String.prefix "15" fund_code
          then "场内" else "场外")%string.
Proof.
  intros Hf.
  destruct (get_fund_data_inv fund_names api fund_code f Hf)
    as (cd & perf & _ & _ & _ & _ & _ & Htype & _).
  rewrite Htype. unfold exchange_traded. f_equal.
  pose proof (prefix_159_15 fund_code) as H159.
  destruct (String.prefix "51" fund_code), (String.prefix "588" fund_code),
    (String.prefix "159" fund_code), (String.prefix "16" fund_code),
    (String.prefix "15" fund_code); try reflexivity.
  specialize (H159 eq_refl). discriminate.
Qed.

(** X19. The flag and the amount of the excess return go together and agree
    in sign: both are absent, or the flag is true with an amount that is not
    negative, or false with an amount that is not positive. *)
Theorem beats_benchmark_agrees_with_amount (fund_code : string) (f : FundData) :
  get_fund_data fund_names api fund_code = Some f ->
  match beats_benchmark f, beats_benchmark_amount f with
  | None, None => True
  | Some true, Some amount => 0 <= amount
  | Some false, Some amount => amount <= 0
  | _, _ => False
  end.
Proof.
  intros Hf.
  destruct (get_fund_data_fields fund_names api fund_code f Hf)
    as (perf & Hperf & _ & _ & _ & _ & _ & _ & _ & _ & _ & _ & _ & Hb & Ha).
  apply extract_performance_spec in Hperf as (_ & _ & _ & Hspec).
  rewrite Hb, Ha.
  destruct (reported returns_field YTD _) as [y|];
    [destruct (reported benchmarkReturns_field YTD _) as [b|]|];
    destruct Hspec as [-> ->]; try exact I.
  destruct (round2_sign (y - b)) as [Hpos Hneg].
  destruct (Qle_bool y b) eqn:E; cbn [negb].
  - apply Qle_bool_iff in E. apply Hneg. lra.
  - apply Qle_bool_false in E. apply Hpos. lra.
Qed.

(** X20. The scale of a fetched entity is the provider's fund size in units
    of a hundred million, rounded to two decimals: it is within 0.005 of
    [fundSize / 10^8], not negative when the size is not, and 0 when the
    size is missing. *)
Theorem scale_is_in_hundred_millions (fund_code : string) (f : FundData) :
  get_fund_data fund_names api fund_code = Some f ->
  exists cd,
    _fetch_api (common_data_ep api fund_code) = Some cd
    /\ match cd_fundSize cd with
       | Some fund_size_raw =>
           Qabs (scale f - fund_size_raw / 100000000) <= 0.005
           /\ (0 <= fund_size_raw -> 0 <= scale f)
       | None => scale f = 0
       end.
Proof.
  intros Hf.
  destruct (get_fund_data_inv fund_names api fund_code f Hf)
    as (cd & perf & Hcd & _ & _ & _ & _ & _ & Hscale).
  exists cd. split; [exact Hcd|]. rewrite Hscale.
  destruct (cd_fundSize cd) as [size|]; [|reflexivity].
  destruct (Qeq_bool size 0) eqn:E.
  - apply Qeq_bool_iff in E. split.
    + apply Qabs_Qle_condition. qconst. split; lra.
    + intros _. apply Qle_refl.
  - split; [apply round2_close|].
    intros Hsize. apply round2_sign. qconst. lra.
Qed.

End EntityFields.

Lemma fetched_name_is_never_empty_witness :
  exists f,
    Morningstar.get_fund_data Sample.sample_names Sample.sample_api "515890" = Some f
    /\ name f = "Dividend ETF"%string.
Proof.
  destruct (Morningstar.get_fund_data Sample.sample_names Sample.sample_api "515890")
    as [f|] eqn:Hf.
  2: { vm_compute in Hf. discriminate. }
  destruct (fetched_name_is_never_empty Sample.sample_names Sample.sample_api "515890" f Hf)
    as (_ & Hfile & _).
  exists f. split; [reflexivity|].
  apply Hfile; [reflexivity | discriminate].
Defined.

Lemma fund_type_by_prefix_witness :
  exists f,
    Morningstar.get_fund_data ∅ Sample.sample_api "159920" = Some f
    /\ fund_type f = Some "场内"%string.
Proof.
  destruct (Morningstar.get_fund_data ∅ Sample.sample_api "159920") as [f|] eqn:Hf.
  2: { vm_compute in Hf. discriminate. }
  exists f. split; [reflexivity|].
  rewrite (fund_type_by_prefix ∅ Sample.sample_api "159920" f Hf). reflexivity.
Defined.

Lemma beats_benchmark_agrees_with_amount_witness :
  exists f amount,
    Morningstar.get_fund_data ∅ Sample.sample_api "515890" = Some f
    /\ beats_benchmark f = Some false
    /\ beats_benchmark_amount f = Some amount
    /\ amount <= 0.
Proof.
  destruct (Morningstar.get_fund_data ∅ Sample.sample_api "515890") as [f|] eqn:Hf.
  2: { vm_compute in Hf. discriminate. }
  pose proof (beats_benchmark_agrees_with_amount ∅ Sample.sample_api "515890" f Hf) as H.
  destruct (beats_benchmark f) as [[|]|] eqn:Hb.
  1, 3: vm_compute in Hf; injection Hf as <-; discriminate.
  destruct (beats_benchmark_amount f) as [amount|] eqn:Ha; [|contradiction].
  exists f, amount. split; [reflexivity|]. split; [exact Hb|].
  split; [exact Ha | exact H].
Defined.

Lemma scale_is_in_hundred_millions_witness :
  exists f,
    Morningstar.get_fund_data ∅ Sample.sample_api "515890" = Some f
    /\ Qabs (scale f - 461000000 / 100000000) <= 0.005
    /\ 0 <= scale f.
Proof.
  destruct (Morningstar.get_fund_data ∅ Sample.sample_api "515890") as [f|] eqn:Hf.
  2: { vm_compute in Hf. discriminate. }
  destruct (scale_is_in_hundred_millions ∅ Sample.sample_api "515890" f Hf)
    as (cd & Hcd & H).
  vm_compute in Hcd. injection Hcd as <-. cbn [Morningstar.cd_fundSize] in H.
  exists f. split; [reflexivity|]. destruct H as [Hclose Hsign].
  split; [exact Hclose | apply Hsign; discriminate].
Defined.

(** ** The fee values of an exported row *)

Lemma or_zero_some (x : Q) : Main.or_zero (Some x) == x.
Proof.
  unfold Main.or_zero. destruct (Qeq_bool x 0) eqn:E; [|reflexivity].
  apply Qeq_bool_iff in E. symmetry. exact E.
Qed.

(** X21. The fee values that [export_tool_scores_to_markdown] computes for
    the row of a fetched entity, before it formats them: the explicit fee is
    the management, custody and sales-service rates (the subscription fee
    adds 0), the implicit fee is the transaction and other rates, and the
    total annual fee of the entity is the explicit fee plus those two
    rates. *)
Theorem row_fee_values_split_the_total (fund_names : gmap string string)
    (api : Morningstar.provider) (fund_code : string) (f : FundData) :
  Morningstar.get_fund_data fund_names api fund_code = Some f ->
  exists sales transaction other total,
    sales_service_fee f = Some sales
    /\ transaction_cost f = Some transaction
    /\ other_fees f = Some other
    /\ total_annual_fee f = Some total
    /\ Main.explicit_fee f == management_fee f + custody_fee f + sales
    /\ Main.implicit_fee f == transaction + other
    /\ total == Main.explicit_fee f + transaction + other.
Proof.
  intros Hf.
  destruct (get_fund_data_fields fund_names api fund_code f Hf)
    as (perf & _ & Hm & Hc & Hsub & _ & Hsal & Htr & Hoth & Htot & _).
  unfold Main.explicit_fee, Main.implicit_fee.
  rewrite Hm, Hc, Hsub, Hsal, Htr, Hoth, Htot.
  eexists _, _, _, _. do 4 (split; [reflexivity|]).
  rewrite !or_zero_some.
  unfold Morningstar._extract_fees_data.
  destruct (Morningstar._fetch_api (Morningstar.fees_ep api fund_code)) as [fd|];
    [|repeat split].
  destruct (Morningstar.fees_field fd) as [fees|]; [|repeat split].
  destruct (Morningstar.fees_obj_truthy fees); [|repeat split].
  cbn. repeat split; ring.
Qed.

Lemma row_fee_values_split_the_total_witness :
  exists f total,
    Morningstar.get_fund_data ∅ Sample.sample_api "515890" = Some f
    /\ total_annual_fee f = Some total
    /\ Main.implicit_fee f == 0.0003 + 0.002
    /\ total == Main.explicit_fee f + 0.0003 + 0.002.
Proof.
  destruct (Morningstar.get_fund_data ∅ Sample.sample_api "515890") as [f|] eqn:Hf.
  2: { vm_compute in Hf. discriminate. }
  destruct (row_fee_values_split_the_total ∅ Sample.sample_api "515890" f Hf)
    as (sales & transaction & other & total & _ & Ht & Ho & Htot & _ & Himp & Hsum).
  exists f, total. split; [reflexivity|]. split; [exact Htot|].
  vm_compute in Hf. injection Hf as <-.
  injection Ht as <-. injection Ho as <-.
  split; [exact Himp | exact Hsum].
Defined.

(** ** The batch orchestrator, whatever the fetches do *)

Section BatchAccounts.
Import Morningstar.

Variable fetch : string -> gathered.

Lemma successes_raised_length (fund_codes : list string) :
  (length (successes fetch fund_codes) + length (raised fetch fund_codes)
   + count_if (came_back_empty fetch) fund_codes)%nat
  = length fund_codes.
Proof.
  unfold came_back_empty.
  induction fund_codes as [|c rest IH]; [reflexivity|].
  cbn [successes raised count_if length].
  destruct (fetch c) as [[f|]| |]; cbn [length]; lia.
Qed.

Lemma cancelled_among_successes (fund_codes : list string) :
  count_if is_cancelled_error (successes fetch fund_codes)
  = count_if (was_cancelled fetch) fund_codes.
Proof.
  unfold was_cancelled.
  induction fund_codes as [|c rest IH]; [reflexivity|].
  cbn [successes count_if].
  destruct (fetch c) as [[f|]| |]; cbn [count_if is_cancelled_error]; lia.
Qed.

Lemma elem_of_raised (c : string) (fund_codes : list string) :
  c ∈ raised fetch fund_codes <-> c ∈ fund_codes /\ fetch c = Raised.
Proof.
  induction fund_codes as [|c' rest IH]; cbn [raised].
  - split; [intros H | intros [H _]]; inversion H.
  - destruct (fetch c') as [[f|]| |] eqn:E; rewrite ?elem_of_cons, IH;
      split; try (intros [? ?]; split; [right|]; assumption);
      try (intros [[->|?] ?]; [congruence | split; assumption]).
    + intros [->|[? ?]]; [split; [left; reflexivity | exact E] | split; [right|]; assumption].
    + intros [[->|?] ?]; [left; reflexivity | right; split; assumption].
Qed.

(** X22. The size of the batches does not change what the orchestrator
    collects: with any two positive limits the same entities and the same
    failed codes come out, in the same order.  With the limit 0 the loop
    raises [ValueError], also on an empty list of codes. *)
Theorem batch_size_does_not_change_the_outcome (fund_codes : list string) :
  (forall m1 m2 : nat,
     (0 < m1)%nat -> (0 < m2)%nat ->
     batch_run m1 fetch fund_codes = batch_run m2 fetch fund_codes)
  /\ batch_run 0 fetch fund_codes = Raise ValueError.
Proof.
  split; [|reflexivity].
  intros m1 m2 H1 H2. rewrite !batch_run_spec by assumption. reflexivity.
Qed.

(** X23. Every code is accounted for once.  The failed list holds exactly
    the codes whose fetch raised an [Exception].  A fetch that was cancelled
    is not among them: its [CancelledError] is not an [Exception] and is
    appended to the funds, which hold as many of these as there were
    cancelled fetches.  The elements of the funds, the failed codes and the
    fetches that came back with [None] add up to the number of codes. *)
Theorem batch_accounts_for_every_code (max_concurrent : nat) (fund_codes : list string) :
  (0 < max_concurrent)%nat ->
  exists funds failed,
    batch_run max_concurrent fetch fund_codes = Ok (funds, failed)
    /\ (forall c, c ∈ failed <-> c ∈ fund_codes /\ fetch c = Raised)
    /\ count_if is_cancelled_error funds = count_if (was_cancelled fetch) fund_codes
    /\ (length funds + length failed + count_if (came_back_empty fetch) fund_codes)%nat
       = length fund_codes.
Proof.
  intros Hpos. eexists _, _. split; [apply batch_run_spec, Hpos|].
  split; [intros c; apply elem_of_raised|].
  split; [apply cancelled_among_successes | apply successes_raised_length].
Qed.

End BatchAccounts.

Lemma batch_size_does_not_change_the_outcome_witness :
  Morningstar.batch_run 1 Sample.flaky_fetch ["515890"; "RAISES"; "CANCEL"; "999999"]%string
  = Morningstar.batch_run 10 Sample.flaky_fetch ["515890"; "RAISES"; "CANCEL"; "999999"]%string.
Proof.
  apply (batch_size_does_not_change_the_outcome Sample.flaky_fetch
           ["515890"; "RAISES"; "CANCEL"; "999999"]%string); lia.
Defined.

Lemma batch_accounts_for_every_code_witness :
  exists funds failed,
    Morningstar.batch_run 2 Sample.flaky_fetch
      ["515890"; "RAISES"; "CANCEL"; "999999"]%string
    = Ok (funds, failed)
    /\ count_if Morningstar.is_cancelled_error funds = 1%nat
    /\ (length funds + length failed + 1)%nat = 4%nat.
Proof.
  destruct (batch_accounts_for_every_code Sample.flaky_fetch 2
              ["515890"; "RAISES"; "CANCEL"; "999999"]%string)
    as (funds & failed & Hrun & _ & Hcancelled & Hlen); [lia|].
  exists funds, failed. split; [exact Hrun|].
  split; [exact Hcancelled | exact Hlen].
Defined.

Section ClientFailures.
Import Morningstar.

Variable fund_names : gmap string string.
Variable api : provider.

Lemma length_fetched (fund_codes : list string) :
  (length (omap (get_fund_data fund_names api) fund_codes)
   + count_if (fun c => match get_fund_data fund_names api c with
                        | Some _ => false
                        | None => true
                        end) fund_codes)%nat
  = length fund_codes.
Proof.
  induction fund_codes as [|c rest IH]; [reflexivity|].
  cbn [omap list_omap count_if length].
  destruct (get_fund_data fund_names api c); cbn [length]; lia.
Qed.

(** X24. With the client's own fetch the failed list stays empty whatever
    the provider answers, since a fetch that fails comes back with [None]
    and not with an exception: the funds are entities, the failure count
    reported at the end is 0, and the codes that gave no entity are the
    difference between the number of codes and the number of entities. *)
Theorem failed_list_stays_empty (max_concurrent : nat) (fund_codes : list string) :
  (0 < max_concurrent)%nat ->
  exists funds,
    batch_run max_concurrent (client_fetch fund_names api) fund_codes
    = Ok (Entity <$> funds, [])
    /\ (length funds
        + count_if (fun c => match get_fund_data fund_names api c with
                             | Some _ => false
                             | None => true
                             end) fund_codes)%nat
       = length fund_codes.
Proof.
  intros Hpos. eexists. split.
  - rewrite batch_run_spec by exact Hpos.
    rewrite successes_client, raised_client. reflexivity.
  - apply length_fetched.
Qed.

End ClientFailures.

Lemma failed_list_stays_empty_witness :
  exists funds,
    Morningstar.batch_run 10 Sample.sample_fetch ["515890"; "999999"; "000001"]%string
    = Ok (Morningstar.Entity <$> funds, [])
    /\ length funds = 2%nat.
Proof.
  destruct (failed_list_stays_empty ∅ Sample.sample_api 10
              ["515890"; "999999"; "000001"]%string) as (funds & Hrun & Hlen); [lia|].
  exists funds. split; [exact Hrun|].
  cbn [length] in Hlen.
  assert (Hnone : count_if (fun c => match Morningstar.get_fund_data ∅ Sample.sample_api c with
                                      | Some _ => false
                                      | None => true
                                      end) ["515890"; "999999"; "000001"]%string = 1%nat)
    by (vm_compute; reflexivity).
  rewrite Hnone in Hlen. lia.
Defined.

(** ** The rows of the exported table *)

Section TopRows.
Import Main.

Variable root5 : Q -> Q.
Variable strptime : string -> option Z.
Variable clock : nat -> Z.

Lemma rank_funds_inv (funds : list FundData) (n n' : nat) (ranked : list scored) :
  rank_funds root5 strptime clock funds n = (Ok ranked, n') ->
  exists scored_funds,
    score_loop root5 strptime clock funds funds n = (Ok scored_funds, n')
    /\ ranked = sort_by_score_desc scored_funds.
Proof.
  unfold rank_funds. rewrite run_bind.
  destruct (score_loop root5 strptime clock funds funds n) as [[scored_funds|e] n1];
    [|discriminate].
  rewrite run_ret. intros [= <- <-]. exists scored_funds. split; reflexivity.
Qed.

(** X25. The exported table has a row for the first 20 funds of the
    ranking: as many rows as funds when there are fewer, never more than 20,
    and no fund that is left out has a higher score than a fund with a
    row. *)
Theorem table_rows_are_the_top (funds : list FundData) (n n' : nat)
    (ranked : list scored) :
  rank_funds root5 strptime clock funds n = (Ok ranked, n') ->
  length ranked = length funds
  /\ length (table_rows ranked) = Nat.min 20 (length funds)
  /\ forall x y, x ∈ table_rows ranked -> y ∈ drop 20 ranked -> score y <= score x.
Proof.
  intros Hrun.
  destruct (rank_funds_inv funds n n' ranked Hrun) as (scored_funds & Hloop & ->).
  assert (Hlen : length (sort_by_score_desc scored_funds) = length funds).
  { rewrite (Permutation_length (sort_by_score_desc_perm scored_funds)).
    rewrite <- (length_map fund scored_funds). f_equal.
    exact (score_loop_funds _ _ _ _ _ _ _ _ Hloop). }
  split; [exact Hlen|]. split.
  - unfold table_rows. rewrite length_take, Hlen. reflexivity.
  - intros x y Hx Hy. unfold table_rows in Hx.
    pose proof (sort_by_score_desc_sorted scored_funds) as Hsorted.
    rewrite <- (take_drop 20 (sort_by_score_desc scored_funds)) in Hsorted.
    exact (StronglySorted_app_1_elem_of _ _ _ x y Hsorted Hx Hy).
Qed.

End TopRows.

Lemma table_rows_are_the_top_witness :
  exists ranked n',
    Main.rank_funds Sample.root5_centi Sample.strptime_ymd Sample.noon
      Sample.cohort 0%nat = (Ok ranked, n')
    /\ length (Main.table_rows ranked) = length Sample.cohort.
Proof.
  destruct (Main.rank_funds Sample.root5_centi Sample.strptime_ymd Sample.noon
              Sample.cohort 0%nat) as [[ranked|e] n'] eqn:Hrun.
  2: { vm_compute in Hrun. discriminate. }
  exists ranked, n'. split; [reflexivity|].
  destruct (table_rows_are_the_top Sample.root5_centi Sample.strptime_ymd
              Sample.noon Sample.cohort 0%nat n' ranked Hrun) as (_ & Hrows & _).
  rewrite Hrows. reflexivity.
Defined.

(** ** The configuration and the provider selection *)

Section Provider.
Import Settings.

(** X26. A configuration that passes [validate] with one of the three
    supported providers gives the scorer a key that is not empty, the key of
    that provider, and a model. *)
Theorem validated_provider_has_a_key (cls : Config) :
  validate cls = Ok tt ->
  supported (AI_PROVIDER cls) = true ->
  exists key model,
    _get_api_key cls = Ok (Some key) /\ key <> ""%string
    /\ _get_model cls = Ok model.
Proof.
  unfold validate, supported, _get_api_key, _get_model, key_truthy.
  destruct (String.eqb (AI_PROVIDER cls) "zhipu");
    [|destruct (String.eqb (AI_PROVIDER cls) "deepseek");
      [|destruct (String.eqb (AI_PROVIDER cls) "openai"); [|discriminate]]];
    cbn [andb orb negb].
  - destruct (ZHIPU_API_KEY cls) as [[|a k]|]; cbn; try discriminate.
    intros _ _. eexists _, _. repeat split. discriminate.
  - destruct (DEEPSEEK_API_KEY cls) as [[|a k]|]; cbn; try discriminate.
    intros _ _. eexists _, _. repeat split. discriminate.
  - destruct (OPENAI_API_KEY cls) as [[|a k]|]; cbn; try discriminate.
    intros _ _. eexists _, _. repeat split. discriminate.
Qed.

(** X27. [validate] accepts every provider name it does not know, with or
    without keys; the scorer then raises [ValueError] when it looks up the
    key, and the same for the model. *)
Theorem unknown_provider_passes_validation (cls : Config) :
  supported (AI_PROVIDER cls) = false ->
  validate cls = Ok tt
  /\ _get_api_key cls = Raise ValueError
  /\ _get_model cls = Raise ValueError.
Proof.
  unfold validate, supported, _get_api_key, _get_model.
  destruct (String.eqb (AI_PROVIDER cls) "zhipu"); [discriminate|].
  destruct (String.eqb (AI_PROVIDER cls) "deepseek"); [discriminate|].
  destruct (String.eqb (AI_PROVIDER cls) "openai"); [discriminate|].
  intros _. repeat split.
Qed.

End Provider.

Lemma validated_provider_has_a_key_witness :
  exists model,
    Settings._get_api_key
      (Settings.mkConfig "deepseek" None (Some "sk-1") None "glm-4.7" "deepseek-chat" "gpt-4o-mini")
    = Ok (Some "sk-1"%string)
    /\ Settings._get_model
         (Settings.mkConfig "deepseek" None (Some "sk-1") None "glm-4.7" "deepseek-chat" "gpt-4o-mini")
       = Ok model.
Proof.
  destruct (validated_provider_has_a_key
              (Settings.mkConfig "deepseek" None (Some "sk-1") None
                 "glm-4.7" "deepseek-chat" "gpt-4o-mini"))
    as (key & model & Hkey & _ & Hmodel); [reflexivity | reflexivity |].
  exists model. split; [reflexivity | exact Hmodel].
Defined.

Lemma unknown_provider_passes_validation_witness :
  Settings.validate
    (Settings.mkConfig "claude" None None None "glm-4.7" "deepseek-chat" "gpt-4o-mini")
  = Ok tt
  /\ Settings._get_api_key
       (Settings.mkConfig "claude" None None None "glm-4.7" "deepseek-chat" "gpt-4o-mini")
     = Raise ValueError.
Proof.
  destruct (unknown_provider_passes_validation
              (Settings.mkConfig "claude" None None None
                 "glm-4.7" "deepseek-chat" "gpt-4o-mini")) as (Hv & Hk & _);
    [reflexivity|].
  split; [exact Hv | exact Hk].
Defined.

(** ** The codes taken from the downloaded sheet *)

Section Sheet.
Import Csindex.

Variable strip : string -> string.
Variable search_6_digits : string -> option string.
Variable fund_name_column : bool.

Lemma extract_row_spec (st : list string * gmap string string) (r : row) :
  extract_row strip search_6_digits fund_name_column st r
  = match clean_code_of strip search_6_digits r with
    | Some c =>
        (if bool_decide (c ∈ st.1) then st.1 else st.1 ++ [c],
         <[c := name_of strip fund_name_column r c]> st.2)
    | None => st
    end.
Proof.
  destruct st as [fund_codes fund_names].
  unfold extract_row, clean_code_of, name_of. cbn [fst snd].
  destruct (String.eqb _ "nan" || negb (str_truthy _) || String.eqb _ "None");
    [reflexivity|].
  destruct (search_6_digits _) as [c|]; [|reflexivity].
  destruct fund_name_column; reflexivity.
Qed.

Lemma extract_rows_snoc (rows : list row) (r : row) :
  extract_rows strip search_6_digits fund_name_column (rows ++ [r])
  = extract_row strip search_6_digits fund_name_column
      (extract_rows strip search_6_digits fund_name_column rows) r.
Proof. unfold extract_rows. apply foldl_snoc. Qed.

(** X29. The codes taken from the sheet are pairwise distinct; a code is
    among them exactly when some row contributes it, and exactly then the
    name mapping has an entry for it. *)
Theorem extracted_codes_are_distinct (rows : list row) :
  let '(fund_codes, fund_names) :=
    extract_rows strip search_6_digits fund_name_column rows in
  NoDup fund_codes
  /\ (forall c, c ∈ fund_codes
        <-> exists r, r ∈ rows /\ clean_code_of strip search_6_digits r = Some c)
  /\ (forall c, c ∈ fund_codes <-> is_Some (fund_names !! c)).
Proof.
  induction rows as [|r rows IH] using rev_ind.
  - cbn. split; [constructor|]. split; intros c.
    + split; [intros H | intros (r & H & _)]; inversion H.
    + rewrite lookup_empty. split; [intros H; inversion H | intros [x H]; discriminate].
  - rewrite extract_rows_snoc, extract_row_spec.
    destruct (extract_rows strip search_6_digits fund_name_column rows)
      as [fund_codes fund_names].
    destruct IH as (Hnodup & Hrows & Hnames). cbn [fst snd].
    destruct (clean_code_of strip search_6_digits r) as [c|] eqn:Hr.
    + assert (Hcodes : forall c', c' ∈ (if bool_decide (c ∈ fund_codes) then fund_codes
                                        else fund_codes ++ [c])
                                  <-> c' ∈ fund_codes \/ c' = c).
      { intros c'. destruct (bool_decide_reflect (c ∈ fund_codes)) as [Hin|Hout].
        - split; [tauto | intros [H| ->]; assumption].
        - rewrite elem_of_app, list_elem_of_singleton. tauto. }
      split; [|split].
      * destruct (bool_decide_reflect (c ∈ fund_codes)) as [Hin|Hout]; [exact Hnodup|].
        apply NoDup_app. split; [exact Hnodup|]. split; [|apply NoDup_singleton].
        intros x Hx Hx'. apply list_elem_of_singleton in Hx'. congruence.
      * intros c'. rewrite Hcodes, Hrows. split.
        -- intros [(r' & Hr' & Hc')| ->].
           ++ exists r'. rewrite elem_of_app. tauto.
           ++ exists r. rewrite elem_of_app, list_elem_of_singleton. tauto.
        -- intros (r' & Hr' & Hc').
           apply elem_of_app in Hr' as [Hr'|Hr'].
           ++ left. exists r'. tauto.
           ++ apply list_elem_of_singleton in Hr'. subst r'. right. congruence.
      * intros c'. rewrite Hcodes, Hnames.
        destruct (decide (c = c')) as [->|Hne].
        -- rewrite lookup_insert_eq. split; [eauto | tauto].
        -- rewrite lookup_insert_ne by exact Hne. split; [intros [H|H]; [exact H | congruence] | tauto].
    + split; [exact Hnodup|]. split; [|exact Hnames].
      intros c. rewrite Hrows. split.
      * intros (r' & Hr' & Hc'). exists r'. rewrite elem_of_app. tauto.
      * intros (r' & Hr' & Hc'). exists r'. split; [|exact Hc'].
        apply elem_of_app in Hr' as [Hr'|Hr']; [exact Hr'|].
        apply list_elem_of_singleton in Hr'. subst r'. congruence.
Qed.

Lemma extract_row_keeps_name (st : list string * gmap string string) (r : row) (c : string) :
  clean_code_of strip search_6_digits r <> Some c ->
  (extract_row strip search_6_digits fund_name_column st r).2 !! c = st.2 !! c.
Proof.
  intros Hr. rewrite extract_row_spec.
  destruct (clean_code_of strip search_6_digits r) as [c'|]; [|reflexivity].
  cbn [snd]. apply lookup_insert_ne. congruence.
Qed.

Lemma extract_row_keeps_position (st : list string * gmap string string) (r : row) :
  exists new,
    (extract_row strip search_6_digits fund_name_column st r).1 = st.1 ++ new.
Proof.
  rewrite extract_row_spec.
  destruct (clean_code_of strip search_6_digits r) as [c|]; cbn [fst].
  - destruct (bool_decide (c ∈ st.1)); [exists []; symmetry; apply app_nil_r | eauto].
  - exists []. symmetry. apply app_nil_r.
Qed.

(** X30. A code that comes in several rows keeps the position of its first
    row and gets the name of its last row: the codes taken from the first
    rows of the sheet are a prefix of the codes taken from all of them, and
    the name mapping holds for a code the name of the last row that
    contributes it. *)
Theorem first_row_places_last_row_names (before after : list row) (r : row) (c : string) :
  clean_code_of strip search_6_digits r = Some c ->
  (forall r', r' ∈ after -> clean_code_of strip search_6_digits r' <> Some c) ->
  let '(fund_codes, fund_names) :=
    extract_rows strip search_6_digits fund_name_column (before ++ r :: after) in
  fund_names !! c = Some (name_of strip fund_name_column r c)
  /\ exists later,
       fund_codes
       = (extract_rows strip search_6_digits fund_name_column before).1 ++ later.
Proof.
  intros Hr Hafter.
  assert (Hgen : forall rows st,
             (forall r', r' ∈ rows -> clean_code_of strip search_6_digits r' <> Some c) ->
             (foldl (extract_row strip search_6_digits fund_name_column) st rows).2 !! c
             = st.2 !! c
             /\ exists later,
                  (foldl (extract_row strip search_6_digits fund_name_column) st rows).1
                  = st.1 ++ later).
  { induction rows as [|r' rows IH]; intros st Hrows.
    - split; [reflexivity|]. exists []. symmetry. apply app_nil_r.
    - cbn [foldl].
      destruct (IH (extract_row strip search_6_digits fund_name_column st r')) as [Hn [l Hl]].
      { intros r'' H. apply Hrows. right. exact H. }
      split.
      + rewrite Hn. apply extract_row_keeps_name, Hrows. left.
      + destruct (extract_row_keeps_position st r') as [new Hnew].
        exists (new ++ l). rewrite Hl, Hnew, app_assoc. reflexivity. }
  unfold extract_rows. rewrite foldl_app. cbn [foldl].
  fold (extract_rows strip search_6_digits fund_name_column before).
  set (st0 := extract_rows strip search_6_digits fund_name_column before).
  destruct (Hgen after (extract_row strip search_6_digits fund_name_column st0 r) Hafter)
    as [Hn [l Hl]].
  destruct (foldl _ (extract_row _ _ _ st0 r) after) as [fund_codes fund_names].
  cbn [fst snd] in Hn, Hl. split.
  - rewrite Hn, extract_row_spec, Hr. cbn [snd]. apply lookup_insert_eq.
  - destruct (extract_row_keeps_position st0 r) as [new Hnew].
    exists (new ++ l). rewrite Hl, Hnew, app_assoc. reflexivity.
Qed.

End Sheet.

Example sample_sheet_codes :
  (Csindex.extract_rows Sample.strip_ascii Sample.search_6_digits_ascii true
     Sample.sample_sheet).1
  = ["516160"; "159920"]%string.
Proof. vm_compute. reflexivity. Qed.

Lemma first_row_places_last_row_names_witness :
  (Csindex.extract_rows Sample.strip_ascii Sample.search_6_digits_ascii true
     Sample.sample_sheet).2 !! "516160"%string
  = Some "New Energy ETF (renamed)"%string.
Proof.
  pose proof (first_row_places_last_row_names Sample.strip_ascii
                Sample.search_6_digits_ascii true
                (take 3 Sample.sample_sheet) []
                (Csindex.mkRow "516160" "New Energy ETF (renamed)") "516160"%string) as H.
  cbn [take Sample.sample_sheet app] in H.
  destruct (Csindex.extract_rows _ _ _ _) as [fund_codes fund_names].
  cbn [snd]. apply H.
  - vm_compute. reflexivity.
  - intros r' Hr'. inversion Hr'.
Defined.
